(** * The .SKIN multi-submesh importer (skin_imp.py, skin_imp_2,79b.py)

    A shallow embedding of the two Blender import scripts.  Both scripts read
    the same binary layout with [struct.unpack] over [f.read], and then build
    Blender datablocks from what they read.  The embedding keeps this shape:

    - the open file is the list of bytes that are still unread;
    - [f.read(n)] returns at most [n] bytes and never fails (the memory
      that a read needs is written out in a second copy of the reads, in the
      part on memory);
    - [struct.unpack] raises [struct.error] when the buffer it is given does
      not have the size of the format;
    - the Blender side ([bpy.data], the scene) is a store of datablocks that
      the code reaches through references (indices into the store).

    Integers are [Z].  A float read with format "f" is kept as the unsigned
    value of its four little-endian bytes (its IEEE-754 binary32 pattern); the
    scripts never compute with the floats they read.  A Python [str] is a
    [string] holding its UTF-8 encoding. *)

From Stdlib Require Import ZArith List Bool Lia.
From Stdlib.Strings Require Import String Byte.
From stdpp Require Import base list.
Import ListNotations.
Local Open Scope Z_scope.

(** ** Bytes and little-endian integers *)

Definition byte_val (b : byte) : Z := Z.of_N (Byte.to_N b).

(** The value of a little-endian byte sequence ("<" in a struct format). *)
Fixpoint le_to_Z (bs : list byte) : Z :=
  match bs with
  | [] => 0
  | b :: bs' => byte_val b + 256 * le_to_Z bs'
  end.

(** [chunks w bs] cuts [bs] into consecutive pieces of [w] bytes; [fuel]
    bounds the number of pieces. *)
Fixpoint chunks_fuel (fuel w : nat) (bs : list byte) : list (list byte) :=
  match fuel with
  | O => []
  | S fuel' =>
      match bs with
      | [] => []
      | _ :: _ => take w bs :: chunks_fuel fuel' w (drop w bs)
      end
  end.

Definition chunks (w : nat) (bs : list byte) : list (list byte) :=
  chunks_fuel (length bs) w bs.

(** ** Python's [bytes.decode("utf-8", errors="ignore")]

    The decoder of the Python runtime keeps every well-formed UTF-8 sequence
    and drops the bytes of an ill-formed one: an invalid start byte alone, a
    lead byte with the valid continuation bytes read so far when the next
    byte does not continue it, and everything up to the end of the input when
    the input stops inside a sequence.  As a [str] is kept as its UTF-8
    encoding, decoding is this filter. *)

Definition is_cont (b : byte) : bool :=
  (0x80 <=? byte_val b) && (byte_val b <? 0xC0).

(** The second byte of a three- or four-byte sequence has a narrower range
    after the lead bytes E0, ED, F0 and F4 (overlong forms, surrogates, code
    points above 10FFFF). *)
Definition second_ok (lead : Z) (b : byte) : bool :=
  is_cont b &&
  (if lead =? 0xE0 then 0xA0 <=? byte_val b
   else if lead =? 0xED then byte_val b <? 0xA0
   else if lead =? 0xF0 then 0x90 <=? byte_val b
   else if lead =? 0xF4 then byte_val b <? 0x90
   else true).

Fixpoint utf8_ignore (bs : list byte) : list byte :=
  match bs with
  | [] => []
  | b1 :: t1 =>
      let c := byte_val b1 in
      if c <? 0x80 then b1 :: utf8_ignore t1
      else if c <? 0xC2 then utf8_ignore t1
      else if c <? 0xE0 then
        match t1 with
        | [] => []
        | b2 :: t2 =>
            if is_cont b2 then b1 :: b2 :: utf8_ignore t2 else utf8_ignore t1
        end
      else if c <? 0xF0 then
        match t1 with
        | [] => []
        | b2 :: t2 =>
            if second_ok c b2 then
              match t2 with
              | [] => []
              | b3 :: t3 =>
                  if is_cont b3 then b1 :: b2 :: b3 :: utf8_ignore t3
                  else utf8_ignore t2
              end
            else utf8_ignore t1
        end
      else if c <? 0xF5 then
        match t1 with
        | [] => []
        | b2 :: t2 =>
            if second_ok c b2 then
              match t2 with
              | [] => []
              | b3 :: t3 =>
                  if is_cont b3 then
                    match t3 with
                    | [] => []
                    | b4 :: t4 =>
                        if is_cont b4
                        then b1 :: b2 :: b3 :: b4 :: utf8_ignore t4
                        else utf8_ignore t3
                    end
                  else utf8_ignore t2
              end
            else utf8_ignore t1
        end
      else utf8_ignore t1
  end.

Definition decode_utf8_ignore (bs : list byte) : string :=
  string_of_list_byte (utf8_ignore bs).

(** Truth value of a Python [str]: the empty string is false. *)
Definition str_truthy (s : string) : bool :=
  match s with
  | EmptyString => false
  | String _ _ => true
  end.

(** ** The Blender side

    What the scripts create through [bpy]: meshes, materials and objects in
    [bpy.data], and the objects linked to the scene (the collection of the
    context in 2.80, [scene.objects] in 2.79).  A datablock is referred to by
    its index in the store, so a mesh changed through [obj.data] after the
    object was linked is the mesh the scene sees.  Names are the names the
    scripts ask for.  The node tree of a material and the images loaded for
    it are not part of this state. *)

Definition vec3 : Type := Z * Z * Z.
Definition vec2 : Type := Z * Z.

Record Polygon := mkPolygon {
  loop_start : nat;
  loop_total : nat;
  material_index : Z;
  use_smooth : bool
}.

Record UVLayer := mkUVLayer {
  uv_name : string;
  uv_data : list vec2
}.

Record Mesh := mkMesh {
  me_name : string;
  me_vertices : list vec3;
  me_loops : list Z;                      (* vertex_index of every loop *)
  me_polygons : list Polygon;
  me_uv_layers : list UVLayer;
  me_custom_normals : option (list vec3); (* normals_split_custom_set_from_vertices *)
  me_use_auto_smooth : bool;
  me_materials : list nat                 (* material slots *)
}.

Record Material := mkMaterial {
  ma_name : string;
  ma_use_nodes : bool
}.

Record Object := mkObject {
  ob_name : string;
  ob_data : nat
}.

Record World := mkWorld {
  data_meshes : list Mesh;
  data_materials : list Material;
  data_objects : list Object;
  scene_objects : list nat;
  active_object : option nat
}.

Inductive version := Blender280 | Blender279.

(** ** State and exceptions

    A computation runs on the unread bytes of the file and the Blender store,
    and either returns a value or raises.  The state it leaves is kept in
    both cases, as a Python exception does not undo what was done. *)

Record state := mkState {
  file : list byte;
  bpy : World
}.

Inductive exn := struct_error | IndexError | TypeError | MemoryError.

Inductive outcome (A : Type) :=
  | Ok (a : A)
  | Raise (e : exn).
Arguments Ok {A} a.
Arguments Raise {A} e.

Definition M (A : Type) : Type := state -> outcome A * state.

Definition ret {A} (a : A) : M A := fun st => (Ok a, st).

Definition raise {A} (e : exn) : M A := fun st => (Raise e, st).

Definition bind {A B} (m : M A) (k : A -> M B) : M B :=
  fun st =>
    match m st with
    | (Ok a, st') => k a st'
    | (Raise e, st') => (Raise e, st')
    end.

Notation "x <- m ;; k" := (bind m (fun x => k))
  (at level 100, m at next level, right associativity).
Notation "m ;;; k" := (bind m (fun _ => k))
  (at level 100, right associativity).

(** [acc = []; for _ in range(n): acc.append(m())] *)
Fixpoint repeatM {A} (n : nat) (m : M A) : M (list A) :=
  match n with
  | O => ret []
  | S n' => x <- m ;; xs <- repeatM n' m ;; ret (x :: xs)
  end.

(** [for x in xs: body(x)] *)
Fixpoint for_each {A} (xs : list A) (body : A -> M unit) : M unit :=
  match xs with
  | [] => ret tt
  | x :: xs' => body x ;;; for_each xs' body
  end.

(** ** Reading the file *)

(** [f.read(n)]: the next [n] bytes, or all that is left when fewer remain. *)
Definition f_read (n : Z) : M (list byte) :=
  fun st =>
    (Ok (take (Z.to_nat n) (file st)),
     mkState (drop (Z.to_nat n) (file st)) (bpy st)).

(** The format characters the scripts use, all little-endian. *)
Inductive fmt := fmt_B | fmt_H | fmt_I | fmt_f.

Definition calcsize (c : fmt) : nat :=
  match c with
  | fmt_B => 1
  | fmt_H => 2
  | fmt_I => 4
  | fmt_f => 4
  end.

(** [struct.unpack("<" + c * count, data)]: the buffer must have exactly
    the size of the format. *)
Definition unpack (c : fmt) (count : Z) (data : list byte) : M (list Z) :=
  if Z.of_nat (length data) =? Z.of_nat (calcsize c) * count
  then ret (map le_to_Z (chunks (calcsize c) data))
  else raise struct_error.

(** [struct.unpack("<" + c * count, f.read(count * calcsize(c)))] *)
Definition read_unpack (c : fmt) (count : Z) : M (list Z) :=
  data <- f_read (count * Z.of_nat (calcsize c)) ;;
  unpack c count data.

(** [t[i]] on a tuple that is long enough. *)
Definition item (i : nat) (t : list Z) : Z := nth i t 0.

(** [f.read(n).decode("utf-8", errors="ignore") if n > 0 else default] *)
Definition read_str (n : Z) (default : string) : M string :=
  if 0 <? n
  then data <- f_read n ;; ret (decode_utf8_ignore data)
  else ret default.

(** The dict that [read_material] returns (the key "flag1" is "flag" in the
    2.79 script). *)
Record material_data := mkMaterialData {
  color1 : Z;
  color2 : Z;
  alpha : Z;
  color3 : Z;
  color4 : Z;
  flag1 : Z;
  texture1_name : string;
  texture2_name : string;
  texture3_name : string;
  material_name : string
}.

(** [read_material] and [read_material_279] differ in one literal, the
    value of [material_name] when its length is zero. *)
Definition read_material_with (default_name : string) : M material_data :=
  colors12 <- read_unpack fmt_I 2 ;;
  alpha_t <- read_unpack fmt_f 1 ;;
  colors34 <- read_unpack fmt_I 2 ;;
  flag_t <- read_unpack fmt_B 1 ;;
  tex1_name_len <- read_unpack fmt_I 1 ;;
  texture1 <- read_str (item 0 tex1_name_len) ""%string ;;
  tex2_name_len <- read_unpack fmt_I 1 ;;
  texture2 <- read_str (item 0 tex2_name_len) ""%string ;;
  tex3_name_len <- read_unpack fmt_I 1 ;;
  texture3 <- read_str (item 0 tex3_name_len) ""%string ;;
  mat_name_len <- read_unpack fmt_I 1 ;;
  name <- read_str (item 0 mat_name_len) default_name ;;
  ret {| color1 := item 0 colors12;
         color2 := item 1 colors12;
         alpha := item 0 alpha_t;
         color3 := item 0 colors34;
         color4 := item 1 colors34;
         flag1 := item 0 flag_t;
         texture1_name := texture1;
         texture2_name := texture2;
         texture3_name := texture3;
         material_name := name |}.

Definition read_material : M material_data :=
  read_material_with ""%string.

Definition read_material_279 : M material_data :=
  read_material_with "ImportedMaterial"%string.

(** The local variables of [read_submesh] after its reads (steps 1 to 9),
    under the names the script gives them. *)
Record submesh_data := mkSubmeshData {
  submesh_name : string;
  vertices : list vec3;
  face_indices : list (list Z);
  uv_flag : Z;
  uvs : list vec2;
  normal_flag : Z;
  normals : list vec3;
  extra_flag : Z;
  unknown_int3 : Z;
  materials : list material_data;
  matids : list Z;
  unknown_tail : list Z
}.

(** [range(0, n, 3)] *)
Definition range3 (n : Z) : list nat :=
  map (fun k => 3 * k)%nat (seq 0 (Z.to_nat ((n + 2) / 3))).

(** [[raw[i:i+3] for i in range(0, face_count, 3)]] *)
Definition group_faces (face_count : Z) (raw : list Z) : list (list Z) :=
  map (fun i => take 3 (drop i raw)) (range3 face_count).

(** [[(d[i*3], d[i*3+1], d[i*3+2]) for i in range(n)]], written in the
    scripts as a loop of appends. *)
Definition triples (n : Z) (d : list Z) : list vec3 :=
  map (fun i => (item (i * 3) d, item (i * 3 + 1) d, item (i * 3 + 2) d))
      (seq 0 (Z.to_nat n)).

Definition pairs (n : Z) (d : list Z) : list vec2 :=
  map (fun i => (item (i * 2) d, item (i * 2 + 1) d)) (seq 0 (Z.to_nat n)).

(** Steps 1 to 9 of [read_submesh] (and of [read_submesh_279]): everything
    the function reads from the file, in the order it reads it.
    [read_mat] is [read_material] or [read_material_279]. *)
Definition parse_submesh_with (read_mat : M material_data) : M submesh_data :=
  (* 1) submesh name *)
  name_len <- read_unpack fmt_I 1 ;;
  name <- read_str (item 0 name_len) "Submesh"%string ;;
  (* 2) vertex data *)
  vertex_count <- read_unpack fmt_I 1 ;;
  verts <-
    (if 0 <? item 0 vertex_count
     then verts_data <- read_unpack fmt_f (item 0 vertex_count * 3) ;;
          ret (triples (item 0 vertex_count) verts_data)
     else ret []) ;;
  (* 3) face data *)
  face_count <- read_unpack fmt_I 1 ;;
  faces <-
    (if 0 <? item 0 face_count
     then face_indices_raw <- read_unpack fmt_I (item 0 face_count) ;;
          ret (group_faces (item 0 face_count) face_indices_raw)
     else ret []) ;;
  (* 4) UV data *)
  uv_flag_t <- read_unpack fmt_B 1 ;;
  uv_count <- read_unpack fmt_I 1 ;;
  uv_list <-
    (if 0 <? item 0 uv_count
     then uv_data <- read_unpack fmt_f (item 0 uv_count * 2) ;;
          ret (pairs (item 0 uv_count) uv_data)
     else ret []) ;;
  (* 5) normal data *)
  normal_flag_t <- read_unpack fmt_B 1 ;;
  normal_count <- read_unpack fmt_I 1 ;;
  normal_list <-
    (if 0 <? item 0 normal_count
     then normal_data <- read_unpack fmt_f (item 0 normal_count * 3) ;;
          ret (triples (item 0 normal_count) normal_data)
     else ret []) ;;
  (* 6) unknown fields *)
  extra_flag_t <- read_unpack fmt_B 1 ;;
  unknown_int3_t <- read_unpack fmt_I 1 ;;
  (* 7) materials *)
  material_count <- read_unpack fmt_I 1 ;;
  mats <- repeatM (Z.to_nat (item 0 material_count)) read_mat ;;
  (* 8) material ids *)
  matid_count <- read_unpack fmt_I 1 ;;
  ids <-
    (if 0 <? item 0 matid_count
     then read_unpack fmt_H (item 0 matid_count)
     else ret []) ;;
  (* 9) four more unknown values *)
  tail <- read_unpack fmt_I 4 ;;
  ret {| submesh_name := name;
         vertices := verts;
         face_indices := faces;
         uv_flag := item 0 uv_flag_t;
         uvs := uv_list;
         normal_flag := item 0 normal_flag_t;
         normals := normal_list;
         extra_flag := item 0 extra_flag_t;
         unknown_int3 := item 0 unknown_int3_t;
         materials := mats;
         matids := ids;
         unknown_tail := tail |}.

Definition parse_submesh : M submesh_data :=
  parse_submesh_with read_material.

Definition parse_submesh_279 : M submesh_data :=
  parse_submesh_with read_material_279.

(** ** Building the Blender datablocks *)

Definition get_world : M World := fun st => (Ok (bpy st), st).

Definition modify_world (f : World -> World) : M unit :=
  fun st => (Ok tt, mkState (file st) (f (bpy st))).

Definition new_mesh (name : string) : Mesh :=
  {| me_name := name; me_vertices := []; me_loops := []; me_polygons := [];
     me_uv_layers := []; me_custom_normals := None;
     me_use_auto_smooth := false; me_materials := [] |}.

(** [bpy.data.meshes.new(name=...)] *)
Definition meshes_new (name : string) : M nat :=
  W <- get_world ;;
  modify_world (fun W =>
    mkWorld (data_meshes W ++ [new_mesh name]) (data_materials W)
            (data_objects W) (scene_objects W) (active_object W)) ;;;
  ret (length (data_meshes W)).

(** Reading and changing a mesh through a reference to it. *)
Definition get_mesh (me : nat) : M Mesh :=
  W <- get_world ;;
  ret (nth me (data_meshes W) (new_mesh ""%string)).

Definition alter_mesh (me : nat) (f : Mesh -> Mesh) : M unit :=
  modify_world (fun W =>
    mkWorld (alter f me (data_meshes W)) (data_materials W)
            (data_objects W) (scene_objects W) (active_object W)).

(** The polygons [from_pydata] lays out: one per face, its loops following
    those of the face before. *)
Fixpoint polygons_from (start : nat) (faces : list (list Z)) : list Polygon :=
  match faces with
  | [] => []
  | face :: faces' =>
      mkPolygon start (length face) 0 false
        :: polygons_from (start + length face) faces'
  end.

(** Blender keeps the vertex index of a loop as a C int. *)
Definition fits_int (i : Z) : bool := (- 2 ^ 31 <=? i) && (i <? 2 ^ 31).

(** What is stored for an index: the conversion of one that does not fit
    fails, and leaves -1. *)
Definition as_int (i : Z) : Z := if fits_int i then i else -1.

(** [mesh.from_pydata(vertices, [], faces)]: the vertices, the polygons
    and the loops are laid out and written, and the call raises [TypeError]
    once they are written when a face index does not fit a C int (the file
    holds an index as a uint32, so up to 2^32 - 1).  It checks no index
    against the number of vertices.  The [mesh.update()] that follows it
    changes nothing of the mesh that is kept here. *)
Definition from_pydata (me : nat) (verts : list vec3) (faces : list (list Z))
  : M unit :=
  alter_mesh me (fun m =>
    mkMesh (me_name m) verts (map as_int (concat faces))
           (polygons_from 0 faces)
           (me_uv_layers m) (me_custom_normals m) (me_use_auto_smooth m)
           (me_materials m)) ;;;
  if forallb fits_int (concat faces) then ret tt else raise TypeError.

(** [l[i]] on a Python sequence: a negative index counts from the end, and
    an index outside the sequence raises [IndexError]. *)
Definition py_lookup {A} (l : list A) (i : Z) : option A :=
  let j := if i <? 0 then i + Z.of_nat (length l) else i in
  if j <? 0 then None else l !! Z.to_nat j.

Definition py_index {A} (l : list A) (i : Z) : M A :=
  match py_lookup l i with
  | Some x => ret x
  | None => raise IndexError
  end.

(** The UVs that Blender gives the corners of a face in a new layer: the
    default map of a triangle and of a quad, with 1.0 as the float
    1065353216.  A face of one or two corners is left at (0, 0).  A face of
    five corners or more gets UVs on a circle, which are not computed here
    and left at (0, 0): the scripts make no face of more than three
    corners. *)
Definition default_face_uvs (n : nat) : list vec2 :=
  match n with
  | 3%nat => [(0, 0); (1065353216, 0); (1065353216, 1065353216)]
  | 4%nat => [(0, 0); (1065353216, 0); (1065353216, 1065353216);
              (0, 1065353216)]
  | _ => replicate n (0, 0)
  end.

(** [mesh.uv_layers.new(name=...)] in 2.80, [mesh.uv_textures.new(name=...)]
    in 2.79: a layer with one UV per loop, set to the default map of every
    face (the loops of a mesh made by [from_pydata] are those of its
    polygons, in their order).  The result is the position of the new
    layer. *)
Definition uv_layers_new (me : nat) (name : string) : M nat :=
  m <- get_mesh me ;;
  alter_mesh me (fun m =>
    mkMesh (me_name m) (me_vertices m) (me_loops m) (me_polygons m)
           (me_uv_layers m ++
              [mkUVLayer name
                 (flat_map (fun p => default_face_uvs (loop_total p))
                           (me_polygons m))])
           (me_custom_normals m) (me_use_auto_smooth m) (me_materials m)) ;;;
  ret (length (me_uv_layers m)).

(** [layer.data[loop_idx].uv = uv] *)
Definition set_uv (me layer loop_idx : nat) (uv : vec2) : M unit :=
  alter_mesh me (fun m =>
    mkMesh (me_name m) (me_vertices m) (me_loops m) (me_polygons m)
           (alter (fun L => mkUVLayer (uv_name L) (<[loop_idx := uv]> (uv_data L)))
                  layer (me_uv_layers m))
           (me_custom_normals m) (me_use_auto_smooth m) (me_materials m)).

(** The two nested loops that copy the UV of its vertex to every loop. *)
Definition fill_uv_layer (me layer : nat) (uv_list : list vec2) : M unit :=
  m <- get_mesh me ;;
  for_each (me_polygons m) (fun poly =>
    for_each (seq (loop_start poly) (loop_total poly)) (fun loop_idx =>
      m' <- get_mesh me ;;
      vert_idx <- py_index (me_loops m') (Z.of_nat loop_idx) ;;
      uv <- py_index uv_list vert_idx ;;
      set_uv me layer loop_idx uv)).

(** "Create a UV layer if appropriate (assuming one UV per vertex)".  In
    2.79 the layer written is the active one, the first of the mesh. *)
Definition apply_uvs (v : version) (me : nat) (d : submesh_data) : M unit :=
  if negb (Nat.eqb (length (uvs d)) 0)
     && Nat.eqb (length (uvs d)) (length (vertices d))
  then
    match v with
    | Blender280 =>
        layer <- uv_layers_new me "UVMap"%string ;;
        fill_uv_layer me layer (uvs d)
    | Blender279 =>
        m <- get_mesh me ;;
        (if Nat.eqb (length (me_uv_layers m)) 0
         then uv_layers_new me "UVMap"%string ;;; ret tt
         else ret tt) ;;;
        fill_uv_layer me 0 (uvs d)
    end
  else ret tt.

(** "Create custom normals if provided".  The call is guarded by a [try]
    whose handler only prints; [mesh.update()] follows.  2.79 also turns on
    auto smooth before, and smooth shading of every polygon after. *)
Definition apply_normals (v : version) (me : nat) (d : submesh_data) : M unit :=
  if negb (Nat.eqb (length (normals d)) 0)
     && Nat.eqb (length (normals d)) (length (vertices d))
  then
    alter_mesh me (fun m =>
      mkMesh (me_name m) (me_vertices m) (me_loops m)
             (match v with
              | Blender280 => me_polygons m
              | Blender279 =>
                  map (fun p => mkPolygon (loop_start p) (loop_total p)
                                          (material_index p) true)
                      (me_polygons m)
              end)
             (me_uv_layers m) (Some (normals d))
             (match v with
              | Blender280 => me_use_auto_smooth m
              | Blender279 => true
              end)
             (me_materials m))
  else ret tt.

(** [bpy.data.objects.new(name, mesh)] *)
Definition objects_new (name : string) (me : nat) : M nat :=
  W <- get_world ;;
  modify_world (fun W =>
    mkWorld (data_meshes W) (data_materials W)
            (data_objects W ++ [mkObject name me])
            (scene_objects W) (active_object W)) ;;;
  ret (length (data_objects W)).

(** [context.collection.objects.link(obj)] and
    [context.view_layer.objects.active = obj] (in 2.79 [scene.objects.link]
    and [scene.objects.active]). *)
Definition link_and_activate (obj : nat) : M unit :=
  modify_world (fun W =>
    mkWorld (data_meshes W) (data_materials W) (data_objects W)
            (scene_objects W ++ [obj]) (Some obj)).

(** [create_blender_material] and [create_blender_material_279]: the name
    of the new material.  Then the scripts set up the node tree and the image
    of texture1, which are outside the state kept here. *)
Definition create_blender_material (mat_data : material_data)
    (search_dir : option string) : M nat :=
  let mat_name :=
    if str_truthy (material_name mat_data)
    then material_name mat_data
    else "ImportedMaterial"%string in
  W <- get_world ;;
  modify_world (fun W =>
    mkWorld (data_meshes W) (data_materials W ++ [mkMaterial mat_name true])
            (data_objects W) (scene_objects W) (active_object W)) ;;;
  ret (length (data_materials W)).

Definition get_object (obj : nat) : M Object :=
  W <- get_world ;;
  ret (nth obj (data_objects W) (mkObject ""%string 0)).

(** [for mat_data in materials: obj.data.materials.append(create(mat_data))] *)
Definition add_material_slots (obj : nat) (mats : list material_data)
    (search_dir : option string) : M unit :=
  for_each mats (fun mat_data =>
    mat <- create_blender_material mat_data search_dir ;;
    o <- get_object obj ;;
    alter_mesh (ob_data o) (fun m =>
      mkMesh (me_name m) (me_vertices m) (me_loops m) (me_polygons m)
             (me_uv_layers m) (me_custom_normals m) (me_use_auto_smooth m)
             (me_materials m ++ [mat]))).

(** [poly.material_index = mat_index] for the polygon at [poly_index]. *)
Definition set_material_index (me poly_index : nat) (mat_index : Z) : M unit :=
  alter_mesh me (fun m =>
    mkMesh (me_name m) (me_vertices m) (me_loops m)
           (alter (fun p => mkPolygon (loop_start p) (loop_total p)
                                      mat_index (use_smooth p))
                  poly_index (me_polygons m))
           (me_uv_layers m) (me_custom_normals m) (me_use_auto_smooth m)
           (me_materials m)).

(** "Assign material indices to faces based on matids". *)
Definition assign_material_ids (me obj : nat) (d : submesh_data) : M unit :=
  let num_faces := length (face_indices d) in
  if negb (Nat.eqb (length (matids d)) 0)
     && Nat.eqb (length (matids d)) num_faces
  then
    m <- get_mesh me ;;
    for_each (seq 0 (length (me_polygons m))) (fun poly_index =>
      mat_index <- py_index (matids d) (Z.of_nat poly_index) ;;
      o <- get_object obj ;;
      slots <- get_mesh (ob_data o) ;;
      if mat_index <? Z.of_nat (length (me_materials slots))
      then set_material_index me poly_index mat_index
      else ret tt)
  else ret tt.

(** The second half of [read_submesh] / [read_submesh_279], from "Create
    Mesh in Blender" to [return obj]. *)
Definition build_submesh (v : version) (d : submesh_data)
    (search_dir : option string) : M nat :=
  mesh <- meshes_new (submesh_name d) ;;
  from_pydata mesh (vertices d) (face_indices d) ;;;
  apply_uvs v mesh d ;;;
  apply_normals v mesh d ;;;
  obj <- objects_new (submesh_name d) mesh ;;
  link_and_activate obj ;;;
  add_material_slots obj (materials d) search_dir ;;;
  assign_material_ids mesh obj d ;;;
  ret obj.

Definition read_submesh (search_dir : option string) : M nat :=
  d <- parse_submesh ;;
  build_submesh Blender280 d search_dir.

Definition read_submesh_279 (search_dir : option string) : M nat :=
  d <- parse_submesh_279 ;;
  build_submesh Blender279 d search_dir.

(** What the operator returns. *)
Inductive operator_result := FINISHED.

(** [ImportSkinMultiSubmesh.read_file] and [read_skin_file_279], run on the
    opened file. *)
Definition read_file_with (read_sub : M nat) : M operator_result :=
  header_byte <- read_unpack fmt_B 1 ;;
  header_values <- read_unpack fmt_I 3 ;;
  submesh_count <- read_unpack fmt_I 1 ;;
  repeatM (Z.to_nat (item 0 submesh_count)) read_sub ;;;
  ret FINISHED.

Definition read_file (search_dir : option string) : M operator_result :=
  read_file_with (read_submesh search_dir).

Definition read_skin_file_279 (search_dir : option string) : M operator_result :=
  read_file_with (read_submesh_279 search_dir).

(** Running an import: the file is opened on its contents and closed when
    the function is left, so what remains of a run is what it returns or
    raises, and the Blender store. *)
Definition import_skin (search_dir : option string) (contents : list byte)
    (W : World) : outcome operator_result * World :=
  let r := read_file search_dir (mkState contents W) in (r.1, bpy r.2).

Definition import_skin_279 (search_dir : option string)
    (contents : list byte) (W : World) : outcome operator_result * World :=
  let r := read_skin_file_279 search_dir (mkState contents W) in
  (r.1, bpy r.2).

(** ** Memory

    The reads above take for granted that Python has the memory for every
    read.  No count of the file is checked, so a read can ask for more than
    the interpreter can allocate, and it then raises [MemoryError].  The
    readers below are the same reads with their allocations written out.
    Nothing is fixed about the memory that there is:

    - [room c count] says whether there is memory for what the read of
      [count] values of format [c] allocates before [struct.unpack] compares
      the size of the buffer with the size of the format (the format, the
      buffer of [f.read]);
    - [room_values c count] says whether there is memory for the values
      that [struct.unpack] then makes;
    - [room_str n] says whether there is memory for the read of a string of
      [n] bytes.

    Where the file is left by a read that raised [MemoryError] depends on the
    allocation that failed; here it is left where it was, and nothing reads
    the file after the exception. *)

Section Memory.
Variables (room room_values : fmt -> Z -> bool) (room_str : Z -> bool).

Definition alloc (enough : bool) : M unit :=
  if enough then ret tt else raise MemoryError.

Definition read_unpack_mem (c : fmt) (count : Z) : M (list Z) :=
  alloc (room c count) ;;;
  values <- read_unpack c count ;;
  alloc (room_values c count) ;;;
  ret values.

Definition read_str_mem (n : Z) (default : string) : M string :=
  if 0 <? n
  then alloc (room_str n) ;;;
       data <- f_read n ;;
       ret (decode_utf8_ignore data)
  else ret default.

Definition read_material_mem (default_name : string) : M material_data :=
  colors12 <- read_unpack_mem fmt_I 2 ;;
  alpha_t <- read_unpack_mem fmt_f 1 ;;
  colors34 <- read_unpack_mem fmt_I 2 ;;
  flag_t <- read_unpack_mem fmt_B 1 ;;
  tex1_name_len <- read_unpack_mem fmt_I 1 ;;
  texture1 <- read_str_mem (item 0 tex1_name_len) ""%string ;;
  tex2_name_len <- read_unpack_mem fmt_I 1 ;;
  texture2 <- read_str_mem (item 0 tex2_name_len) ""%string ;;
  tex3_name_len <- read_unpack_mem fmt_I 1 ;;
  texture3 <- read_str_mem (item 0 tex3_name_len) ""%string ;;
  mat_name_len <- read_unpack_mem fmt_I 1 ;;
  name <- read_str_mem (item 0 mat_name_len) default_name ;;
  ret {| color1 := item 0 colors12;
         color2 := item 1 colors12;
         alpha := item 0 alpha_t;
         color3 := item 0 colors34;
         color4 := item 1 colors34;
         flag1 := item 0 flag_t;
         texture1_name := texture1;
         texture2_name := texture2;
         texture3_name := texture3;
         material_name := name |}.

Definition parse_submesh_mem (read_mat : M material_data) : M submesh_data :=
  (* 1) submesh name *)
  name_len <- read_unpack_mem fmt_I 1 ;;
  name <- read_str_mem (item 0 name_len) "Submesh"%string ;;
  (* 2) vertex data *)
  vertex_count <- read_unpack_mem fmt_I 1 ;;
  verts <-
    (if 0 <? item 0 vertex_count
     then verts_data <- read_unpack_mem fmt_f (item 0 vertex_count * 3) ;;
          ret (triples (item 0 vertex_count) verts_data)
     else ret []) ;;
  (* 3) face data *)
  face_count <- read_unpack_mem fmt_I 1 ;;
  faces <-
    (if 0 <? item 0 face_count
     then face_indices_raw <- read_unpack_mem fmt_I (item 0 face_count) ;;
          ret (group_faces (item 0 face_count) face_indices_raw)
     else ret []) ;;
  (* 4) UV data *)
  uv_flag_t <- read_unpack_mem fmt_B 1 ;;
  uv_count <- read_unpack_mem fmt_I 1 ;;
  uv_list <-
    (if 0 <? item 0 uv_count
     then uv_data <- read_unpack_mem fmt_f (item 0 uv_count * 2) ;;
          ret (pairs (item 0 uv_count) uv_data)
     else ret []) ;;
  (* 5) normal data *)
  normal_flag_t <- read_unpack_mem fmt_B 1 ;;
  normal_count <- read_unpack_mem fmt_I 1 ;;
  normal_list <-
    (if 0 <? item 0 normal_count
     then normal_data <- read_unpack_mem fmt_f (item 0 normal_count * 3) ;;
          ret (triples (item 0 normal_count) normal_data)
     else ret []) ;;
  (* 6) unknown fields *)
  extra_flag_t <- read_unpack_mem fmt_B 1 ;;
  unknown_int3_t <- read_unpack_mem fmt_I 1 ;;
  (* 7) materials *)
  material_count <- read_unpack_mem fmt_I 1 ;;
  mats <- repeatM (Z.to_nat (item 0 material_count)) read_mat ;;
  (* 8) material ids *)
  matid_count <- read_unpack_mem fmt_I 1 ;;
  ids <-
    (if 0 <? item 0 matid_count
     then read_unpack_mem fmt_H (item 0 matid_count)
     else ret []) ;;
  (* 9) four more unknown values *)
  tail <- read_unpack_mem fmt_I 4 ;;
  ret {| submesh_name := name;
         vertices := verts;
         face_indices := faces;
         uv_flag := item 0 uv_flag_t;
         uvs := uv_list;
         normal_flag := item 0 normal_flag_t;
         normals := normal_list;
         extra_flag := item 0 extra_flag_t;
         unknown_int3 := item 0 unknown_int3_t;
         materials := mats;
         matids := ids;
         unknown_tail := tail |}.

Definition read_submesh_mem (search_dir : option string) : M nat :=
  d <- parse_submesh_mem (read_material_mem ""%string) ;;
  build_submesh Blender280 d search_dir.

End Memory.

(** ** The file layout

    The structures [material_t] and [submesh_t] that the docstrings of
    [read_material] and [read_submesh] describe, and the bytes of a file
    holding them.  Names are kept as the raw bytes of the file. *)

Definition byte_of (n : Z) : byte :=
  match Byte.of_N (Z.to_N (n mod 256)) with
  | Some b => b
  | None => x00
  end.

(** [w] little-endian bytes of [n]. *)
Fixpoint Z_to_le (w : nat) (n : Z) : list byte :=
  match w with
  | O => []
  | S w' => byte_of n :: Z_to_le w' (n / 256)
  end.

(** [struct.pack("<" + c * len(vals), *vals)] *)
Definition pack (c : fmt) (vals : list Z) : list byte :=
  flat_map (Z_to_le (calcsize c)) vals.

Definition fits (c : fmt) (n : Z) : Prop :=
  0 <= n < 256 ^ Z.of_nat (calcsize c).

Record material_t := mkMaterialT {
  mt_color1 : Z;
  mt_color2 : Z;
  mt_alpha : Z;
  mt_color3 : Z;
  mt_color4 : Z;
  mt_flag : Z;
  mt_texture1_name : list byte;
  mt_texture2_name : list byte;
  mt_texture3_name : list byte;
  mt_material_name : list byte
}.

Record submesh_t := mkSubmeshT {
  st_name : list byte;
  st_vertices : list vec3;
  st_faces : list Z;
  st_uv_flag : Z;
  st_uvs : list vec2;
  st_normal_flag : Z;
  st_normals : list vec3;
  st_extra_flag : Z;
  st_unknown_int3 : Z;
  st_materials : list material_t;
  st_matids : list Z;
  st_unknown_tail : list Z
}.

Record skin_file := mkSkinFile {
  sf_header_byte : Z;
  sf_header_values : list Z;
  sf_submeshes : list submesh_t
}.

Definition flatten3 (vs : list vec3) : list Z :=
  flat_map (fun v => [v.1.1; v.1.2; v.2]) vs.

Definition flatten2 (vs : list vec2) : list Z :=
  flat_map (fun v => [v.1; v.2]) vs.

(** A length-prefixed string: [uint32_t length; char[length]]. *)
Definition encode_str (bs : list byte) : list byte :=
  pack fmt_I [Z.of_nat (length bs)] ++ bs.

Definition encode_material (m : material_t) : list byte :=
  pack fmt_I [mt_color1 m; mt_color2 m]
  ++ pack fmt_f [mt_alpha m]
  ++ pack fmt_I [mt_color3 m; mt_color4 m]
  ++ pack fmt_B [mt_flag m]
  ++ encode_str (mt_texture1_name m)
  ++ encode_str (mt_texture2_name m)
  ++ encode_str (mt_texture3_name m)
  ++ encode_str (mt_material_name m).

Definition encode_submesh (s : submesh_t) : list byte :=
  encode_str (st_name s)
  ++ pack fmt_I [Z.of_nat (length (st_vertices s))]
  ++ pack fmt_f (flatten3 (st_vertices s))
  ++ pack fmt_I [Z.of_nat (length (st_faces s))]
  ++ pack fmt_I (st_faces s)
  ++ pack fmt_B [st_uv_flag s]
  ++ pack fmt_I [Z.of_nat (length (st_uvs s))]
  ++ pack fmt_f (flatten2 (st_uvs s))
  ++ pack fmt_B [st_normal_flag s]
  ++ pack fmt_I [Z.of_nat (length (st_normals s))]
  ++ pack fmt_f (flatten3 (st_normals s))
  ++ pack fmt_B [st_extra_flag s]
  ++ pack fmt_I [st_unknown_int3 s]
  ++ pack fmt_I [Z.of_nat (length (st_materials s))]
  ++ flat_map encode_material (st_materials s)
  ++ pack fmt_I [Z.of_nat (length (st_matids s))]
  ++ pack fmt_H (st_matids s)
  ++ pack fmt_I (st_unknown_tail s).

Definition encode_file (sf : skin_file) : list byte :=
  pack fmt_B [sf_header_byte sf]
  ++ pack fmt_I (sf_header_values sf)
  ++ pack fmt_I [Z.of_nat (length (sf_submeshes sf))]
  ++ flat_map encode_submesh (sf_submeshes sf).

(** Every field has a value of its type, and every count fits its
    [uint32_t]. *)
Definition wf_str (bs : list byte) : Prop :=
  fits fmt_I (Z.of_nat (length bs)).

Record wf_material (m : material_t) : Prop := {
  wf_color1 : fits fmt_I (mt_color1 m);
  wf_color2 : fits fmt_I (mt_color2 m);
  wf_alpha : fits fmt_f (mt_alpha m);
  wf_color3 : fits fmt_I (mt_color3 m);
  wf_color4 : fits fmt_I (mt_color4 m);
  wf_flag : fits fmt_B (mt_flag m);
  wf_texture1 : wf_str (mt_texture1_name m);
  wf_texture2 : wf_str (mt_texture2_name m);
  wf_texture3 : wf_str (mt_texture3_name m);
  wf_material_name : wf_str (mt_material_name m)
}.

Record wf_submesh (s : submesh_t) : Prop := {
  wf_name : wf_str (st_name s);
  wf_vertex_count : fits fmt_I (Z.of_nat (length (st_vertices s)));
  wf_vertices : Forall (fits fmt_f) (flatten3 (st_vertices s));
  wf_face_count : fits fmt_I (Z.of_nat (length (st_faces s)));
  wf_faces : Forall (fits fmt_I) (st_faces s);
  wf_uv_flag : fits fmt_B (st_uv_flag s);
  wf_uv_count : fits fmt_I (Z.of_nat (length (st_uvs s)));
  wf_uvs : Forall (fits fmt_f) (flatten2 (st_uvs s));
  wf_normal_flag : fits fmt_B (st_normal_flag s);
  wf_normal_count : fits fmt_I (Z.of_nat (length (st_normals s)));
  wf_normals : Forall (fits fmt_f) (flatten3 (st_normals s));
  wf_extra_flag : fits fmt_B (st_extra_flag s);
  wf_unknown_int3 : fits fmt_I (st_unknown_int3 s);
  wf_material_count : fits fmt_I (Z.of_nat (length (st_materials s)));
  wf_materials : Forall wf_material (st_materials s);
  wf_matid_count : fits fmt_I (Z.of_nat (length (st_matids s)));
  wf_matids : Forall (fits fmt_H) (st_matids s);
  wf_tail_count : length (st_unknown_tail s) = 4%nat;
  wf_tail : Forall (fits fmt_I) (st_unknown_tail s)
}.

(** What the readers make of a name of the file. *)
Definition decoded_name (default : string) (bs : list byte) : string :=
  match bs with
  | [] => default
  | _ :: _ => decode_utf8_ignore bs
  end.

(** The dict that [read_material] builds from a [material_t]. *)
Definition material_data_of (default_name : string) (m : material_t)
  : material_data :=
  {| color1 := mt_color1 m;
     color2 := mt_color2 m;
     alpha := mt_alpha m;
     color3 := mt_color3 m;
     color4 := mt_color4 m;
     flag1 := mt_flag m;
     texture1_name := decoded_name ""%string (mt_texture1_name m);
     texture2_name := decoded_name ""%string (mt_texture2_name m);
     texture3_name := decoded_name ""%string (mt_texture3_name m);
     material_name := decoded_name default_name (mt_material_name m) |}.

(** The local variables that [read_submesh] builds from a [submesh_t]. *)
Definition submesh_data_of (default_name : string) (s : submesh_t)
  : submesh_data :=
  {| submesh_name := decoded_name "Submesh"%string (st_name s);
     vertices := st_vertices s;
     face_indices :=
       group_faces (Z.of_nat (length (st_faces s))) (st_faces s);
     uv_flag := st_uv_flag s;
     uvs := st_uvs s;
     normal_flag := st_normal_flag s;
     normals := st_normals s;
     extra_flag := st_extra_flag s;
     unknown_int3 := st_unknown_int3 s;
     materials := map (material_data_of default_name) (st_materials s);
     matids := st_matids s;
     unknown_tail := st_unknown_tail s |}.

Definition empty_world : World := mkWorld [] [] [] [] None.

(** ** The loops of the second half, as functions on the mesh *)

(** The steps of a loop that changes one mesh, as a function on the mesh. *)
Fixpoint run_steps {A} (step : A -> Mesh -> option Mesh) (xs : list A)
    (m : Mesh) : Mesh * bool :=
  match xs with
  | [] => (m, true)
  | x :: xs' =>
      match step x m with
      | Some m' => run_steps step xs' m'
      | None => (m, false)
      end
  end.

(** A state whose last mesh is [m]: the mesh the running [read_submesh]
    has just created. *)
Definition store (pre : list Mesh) (mats : list Material)
    (objs : list Object) (sc : list nat) (act : option nat)
    (fl : list byte) (m : Mesh) : state :=
  mkState fl (mkWorld (pre ++ [m]) mats objs sc act).

(** The same, once the object of the mesh is the last object. *)
Definition ostore (pre : list Mesh) (objs0 : list Object) (nm : string)
    (sc : list nat) (act : option nat)
    (fl : list byte) (mats : list Material) (m : Mesh) : state :=
  store pre mats (objs0 ++ [mkObject nm (length pre)]) sc act fl m.

(** One turn of the inner loop of [fill_uv_layer], on the mesh. *)
Definition uv_step (layer : nat) (uv_list : list vec2) (loop_idx : nat)
    (m : Mesh) : option Mesh :=
  match py_lookup (me_loops m) (Z.of_nat loop_idx) with
  | None => None
  | Some vert_idx =>
      match py_lookup uv_list vert_idx with
      | None => None
      | Some uv =>
          Some (mkMesh (me_name m) (me_vertices m) (me_loops m)
                  (me_polygons m)
                  (alter (fun L => mkUVLayer (uv_name L)
                                     (<[loop_idx := uv]> (uv_data L)))
                         layer (me_uv_layers m))
                  (me_custom_normals m) (me_use_auto_smooth m)
                  (me_materials m))
      end
  end.

(** Every vertex index has a UV. *)
Definition lookups_ok (uv_list : list vec2) (loops : list Z) : bool :=
  forallb (fun vi => match py_lookup uv_list vi with
                     | Some _ => true
                     | None => false
                     end) loops.

Definition uv_of (uv_list : list vec2) (vi : Z) : vec2 :=
  default (0, 0) (py_lookup uv_list vi).

(** The name [create_blender_material] gives the new material. *)
Definition created_name (mat_data : material_data) : string :=
  if str_truthy (material_name mat_data)
  then material_name mat_data
  else "ImportedMaterial"%string.

Definition set_poly_material (p : Polygon) (mat_index : Z) : Polygon :=
  mkPolygon (loop_start p) (loop_total p) mat_index (use_smooth p).

(** One turn of the loop of [assign_material_ids], on the mesh. *)
Definition matid_step (ids : list Z) (poly_index : nat) (m : Mesh)
  : option Mesh :=
  match py_lookup ids (Z.of_nat poly_index) with
  | None => None
  | Some mat_index =>
      Some (if mat_index <? Z.of_nat (length (me_materials m))
            then mkMesh (me_name m) (me_vertices m) (me_loops m)
                   (alter (fun p => set_poly_material p mat_index)
                          poly_index (me_polygons m))
                   (me_uv_layers m) (me_custom_normals m)
                   (me_use_auto_smooth m) (me_materials m)
            else m)
  end.

(** The polygons after the loop: each takes its id when the id is the
    index of a material slot. *)
Fixpoint assign_polys (nmats : Z) (ids : list Z) (ps : list Polygon)
  : list Polygon :=
  match ps, ids with
  | p :: ps', i :: ids' =>
      (if i <? nmats then set_poly_material p i else p)
        :: assign_polys nmats ids' ps'
  | _, _ => ps
  end.

(** The mesh as [from_pydata] leaves it. *)
Definition raw_mesh (nm : string) (vs : list vec3) (faces : list (list Z))
    (uvl : list UVLayer) (cn : option (list vec3)) (sm : bool)
    (mt : list nat) : Mesh :=
  mkMesh nm vs (concat faces) (polygons_from 0 faces) uvl cn sm mt.

(** The three guards of the second half of [read_submesh]. *)
Definition uvs_apply (d : submesh_data) : bool :=
  negb (Nat.eqb (length (uvs d)) 0)
  && Nat.eqb (length (uvs d)) (length (vertices d)).

Definition normals_apply (d : submesh_data) : bool :=
  negb (Nat.eqb (length (normals d)) 0)
  && Nat.eqb (length (normals d)) (length (vertices d)).

Definition matids_apply (d : submesh_data) : bool :=
  negb (Nat.eqb (length (matids d)) 0)
  && Nat.eqb (length (matids d)) (length (face_indices d)).

(** When a UV layer is made, every vertex index of every face has a UV. *)
Definition uv_lookups_ok (d : submesh_data) : bool :=
  if uvs_apply d then lookups_ok (uvs d) (concat (face_indices d)) else true.

(** Every face index fits a C int: [from_pydata] raises nothing. *)
Definition indices_ok (d : submesh_data) : bool :=
  forallb fits_int (concat (face_indices d)).

(** The second half of [read_submesh] raises nothing. *)
Definition buildable (d : submesh_data) : bool :=
  indices_ok d && uv_lookups_ok d.

(** The UVs of a new layer of the mesh with these faces. *)
Definition default_uvs (faces : list (list Z)) : list vec2 :=
  flat_map (fun p => default_face_uvs (loop_total p)) (polygons_from 0 faces).

Definition smooth_polygon (p : Polygon) : Polygon :=
  mkPolygon (loop_start p) (loop_total p) (material_index p) true.

(** The mesh that a successful [read_submesh] leaves in [bpy.data.meshes];
    [base] is the number of materials that were there before. *)
Definition built_mesh (v : version) (d : submesh_data) (base : nat) : Mesh :=
  let ps0 := polygons_from 0 (face_indices d) in
  let ps1 :=
    if normals_apply d
    then match v with
         | Blender280 => ps0
         | Blender279 => map smooth_polygon ps0
         end
    else ps0 in
  {| me_name := submesh_name d;
     me_vertices := vertices d;
     me_loops := concat (face_indices d);
     me_polygons :=
       if matids_apply d
       then assign_polys (Z.of_nat (length (materials d))) (matids d) ps1
       else ps1;
     me_uv_layers :=
       if uvs_apply d
       then [mkUVLayer "UVMap"%string
               (map (uv_of (uvs d)) (concat (face_indices d)))]
       else [];
     me_custom_normals := if normals_apply d then Some (normals d) else None;
     me_use_auto_smooth :=
       if normals_apply d
       then match v with Blender280 => false | Blender279 => true end
       else false;
     me_materials := seq base (length (materials d)) |}.

(** The store after a successful [read_submesh]. *)
Definition built_world (v : version) (d : submesh_data) (W : World) : World :=
  {| data_meshes :=
       data_meshes W ++ [built_mesh v d (length (data_materials W))];
     data_materials :=
       data_materials W
       ++ map (fun md => mkMaterial (created_name md) true) (materials d);
     data_objects :=
       data_objects W
       ++ [mkObject (submesh_name d) (length (data_meshes W))];
     scene_objects := scene_objects W ++ [length (data_objects W)];
     active_object := Some (length (data_objects W)) |}.

Record wf_file (sf : skin_file) : Prop := {
  wf_header_byte : fits fmt_B (sf_header_byte sf);
  wf_header_count : length (sf_header_values sf) = 3%nat;
  wf_header_values : Forall (fits fmt_I) (sf_header_values sf);
  wf_submesh_count : fits fmt_I (Z.of_nat (length (sf_submeshes sf)));
  wf_submeshes : Forall wf_submesh (sf_submeshes sf)
}.

(** The store when a UV lookup raised: the new mesh with the UVs copied so
    far, and no object. *)
Definition failed_world (d : submesh_data) (W : World) : World :=
  {| data_meshes :=
       data_meshes W
       ++ [(run_steps (uv_step 0 (uvs d))
              (seq 0 (length (concat (face_indices d))))
              (raw_mesh (submesh_name d) (vertices d) (face_indices d)
                 [mkUVLayer "UVMap"%string (default_uvs (face_indices d))]
                 None false [])).1];
     data_materials := data_materials W;
     data_objects := data_objects W;
     scene_objects := scene_objects W;
     active_object := active_object W |}.

(** The store when [from_pydata] raised: the new mesh as it was written,
    and no object. *)
Definition unfit_world (d : submesh_data) (W : World) : World :=
  {| data_meshes :=
       data_meshes W
       ++ [mkMesh (submesh_name d) (vertices d)
             (map as_int (concat (face_indices d)))
             (polygons_from 0 (face_indices d)) [] None false []];
     data_materials := data_materials W;
     data_objects := data_objects W;
     scene_objects := scene_objects W;
     active_object := active_object W |}.

(** What the second half of [read_submesh] returns, and the store it
    leaves. *)
Definition build_result (v : version) (d : submesh_data) (W : World)
  : outcome nat * World :=
  if indices_ok d
  then if uv_lookups_ok d
       then (Ok (length (data_objects W)), built_world v d W)
       else (Raise IndexError, failed_world d W)
  else (Raise TypeError, unfit_world d W).

(** The same for the submeshes of a file, one after the other. *)
Fixpoint build_all (v : version) (ds : list submesh_data) (W : World)
  : outcome (list nat) * World :=
  match ds with
  | [] => (Ok [], W)
  | d :: ds' =>
      match build_result v d W with
      | (Ok obj, W') =>
          match build_all v ds' W' with
          | (Ok objs, W'') => (Ok (obj :: objs), W'')
          | (Raise e, W'') => (Raise e, W'')
          end
      | (Raise e, W') => (Raise e, W')
      end
  end.

(** ** Readers as functions of the unread bytes

    A reader is [steady] when what it returns and the bytes it leaves depend
    on the unread bytes only, it leaves the Blender store as it is, raises
    nothing but [struct.error] (at the end of the file), and, when it returns
    before the end of the file, returns the same with any bytes added after
    the file. *)
Definition steady {A} (p : M A) : Prop :=
  forall q, exists out f,
    (forall W, p (mkState q W) = (out, mkState f W))
    /\ (q = [] -> f = [])
    /\ match out with
       | Ok v =>
           f <> [] ->
           forall r W, p (mkState (q ++ r) W) = (Ok v, mkState (f ++ r) W)
       | Raise e => e = struct_error /\ f = []
       end.

(** A reader is [exact] when, besides, it never returns at the end of a
    file that it could have read further: each of its results stands when
    bytes are added after the file. *)
Definition exact {A} (p : M A) : Prop :=
  steady p
  /\ forall q W v st',
       p (mkState q W) = (Ok v, st') ->
       forall r W', p (mkState (q ++ r) W') = (Ok v, mkState (file st' ++ r) W').

(** A reader that cannot return at the end of the file. *)
Definition eof_fails {A} (p : M A) : Prop :=
  forall W, exists st', p (mkState [] W) = (Raise struct_error, st').

Definition closing {A} (p : M A) : Prop := exact p /\ eof_fails p.

(** ** Example files and the words of the specification *)

(** A submesh with seven face indices. *)
Definition seven_indices : submesh_t :=
  {| st_name := [];
     st_vertices := [(0, 0, 0); (1065353216, 0, 0); (0, 1065353216, 0);
                     (0, 0, 1065353216)];
     st_faces := [0; 1; 2; 2; 1; 3; 3];
     st_uv_flag := 0; st_uvs := [];
     st_normal_flag := 0; st_normals := [];
     st_extra_flag := 0; st_unknown_int3 := 0;
     st_materials := []; st_matids := [];
     st_unknown_tail := [0; 0; 0; 0] |}.

(** A material whose name is declared with five bytes, in a file that
    stops after two of them. *)
Definition short_name_material : list byte :=
  pack fmt_I [1; 2] ++ pack fmt_f [1065353216] ++ pack fmt_I [3; 4]
  ++ pack fmt_B [0]
  ++ pack fmt_I [0] ++ pack fmt_I [0] ++ pack fmt_I [0]
  ++ pack fmt_I [5] ++ [x61; x62].

(** One triangle with a name, one material and one material id. *)
Definition triangle : submesh_t :=
  {| st_name := [x42; x6f; x64; x79];
     st_vertices := [(0, 0, 0); (1065353216, 0, 0); (0, 1065353216, 0)];
     st_faces := [0; 1; 2];
     st_uv_flag := 1;
     st_uvs := [(0, 0); (1065353216, 0); (0, 1065353216)];
     st_normal_flag := 1;
     st_normals := [(0, 0, 1065353216); (0, 0, 1065353216);
                    (0, 0, 1065353216)];
     st_extra_flag := 0; st_unknown_int3 := 7;
     st_materials :=
       [ {| mt_color1 := 1; mt_color2 := 2; mt_alpha := 1065353216;
            mt_color3 := 3; mt_color4 := 4; mt_flag := 0;
            mt_texture1_name := [x61; x2e; x70; x6e; x67];
            mt_texture2_name := []; mt_texture3_name := [];
            mt_material_name := [x52; x65; x64] |} ];
     st_matids := [0];
     st_unknown_tail := [0; 0; 0; 0] |}.

(** The same structures with every reserved field set to zero. *)
Definition clear_reserved_submesh (s : submesh_t) : submesh_t :=
  {| st_name := st_name s;
     st_vertices := st_vertices s;
     st_faces := st_faces s;
     st_uv_flag := 0;
     st_uvs := st_uvs s;
     st_normal_flag := 0;
     st_normals := st_normals s;
     st_extra_flag := 0;
     st_unknown_int3 := 0;
     st_materials := st_materials s;
     st_matids := st_matids s;
     st_unknown_tail := [0; 0; 0; 0] |}.

Definition clear_reserved (sf : skin_file) : skin_file :=
  {| sf_header_byte := 0;
     sf_header_values := [0; 0; 0];
     sf_submeshes := map clear_reserved_submesh (sf_submeshes sf) |}.

(** Two files with the same triangle and different reserved fields. *)
Definition file_a : skin_file :=
  {| sf_header_byte := 0; sf_header_values := [0; 0; 0];
     sf_submeshes := [triangle] |}.

Definition file_b : skin_file :=
  {| sf_header_byte := 1; sf_header_values := [10; 20; 30];
     sf_submeshes :=
       [ {| st_name := st_name triangle;
            st_vertices := st_vertices triangle;
            st_faces := st_faces triangle;
            st_uv_flag := 0;
            st_uvs := st_uvs triangle;
            st_normal_flag := 0;
            st_normals := st_normals triangle;
            st_extra_flag := 1;
            st_unknown_int3 := 9;
            st_materials := st_materials triangle;
            st_matids := st_matids triangle;
            st_unknown_tail := [1; 2; 3; 4] |} ] |}.



(** The store after the submeshes [ds] were built one after the other. *)
Definition built_worlds (v : version) (ds : list submesh_data) (W : World)
  : World :=
  fold_left (fun W d => built_world v d W) ds W.

(** The arrays of a submesh, each read with the count before it. *)
Inductive array_field :=
  | VertexArray | FaceArray | UVArray | NormalArray | MatidArray.




(** The bytes of a submesh that come before the count of an array. *)
Definition before_count (a : array_field) (s : submesh_t) : list byte :=
  let b1 := encode_str (st_name s) in
  let b2 := b1 ++ pack fmt_I [Z.of_nat (length (st_vertices s))]
               ++ pack fmt_f (flatten3 (st_vertices s)) in
  let b3 := b2 ++ pack fmt_I [Z.of_nat (length (st_faces s))]
               ++ pack fmt_I (st_faces s)
               ++ pack fmt_B [st_uv_flag s] in
  let b4 := b3 ++ pack fmt_I [Z.of_nat (length (st_uvs s))]
               ++ pack fmt_f (flatten2 (st_uvs s))
               ++ pack fmt_B [st_normal_flag s] in
  let b5 := b4 ++ pack fmt_I [Z.of_nat (length (st_normals s))]
               ++ pack fmt_f (flatten3 (st_normals s))
               ++ pack fmt_B [st_extra_flag s]
               ++ pack fmt_I [st_unknown_int3 s]
               ++ pack fmt_I [Z.of_nat (length (st_materials s))]
               ++ flat_map encode_material (st_materials s) in
  match a with
  | VertexArray => b1
  | FaceArray => b2
  | UVArray => b3
  | NormalArray => b4
  | MatidArray => b5
  end.




(** The material index of every face as the specification gives it: the
    material ids are applied when there is one per face, a face whose id is
    not below the number of materials keeps the index 0 it was created
    with, and no face is assigned when the counts differ. *)
Definition expected_material_indices (ids : list Z) (nfaces nmats : nat)
  : list Z :=
  if Nat.eqb (length ids) nfaces
  then map (fun i => if i <? Z.of_nat nmats then i else 0) ids
  else repeat 0 nfaces.

Definition with_matids (d : submesh_data) (ids : list Z) : submesh_data :=
  {| submesh_name := submesh_name d;
     vertices := vertices d;
     face_indices := face_indices d;
     uv_flag := uv_flag d;
     uvs := uvs d;
     normal_flag := normal_flag d;
     normals := normals d;
     extra_flag := extra_flag d;
     unknown_int3 := unknown_int3 d;
     materials := materials d;
     matids := ids;
     unknown_tail := unknown_tail d |}.

(** Two triangles and two materials; the id of the second face, 5, is
    not the index of a material. *)
Definition quad : submesh_t :=
  {| st_name := [x51; x75; x61; x64];
     st_vertices := [(0, 0, 0); (1065353216, 0, 0); (0, 1065353216, 0);
                     (1065353216, 1065353216, 0)];
     st_faces := [0; 1; 2; 2; 1; 3];
     st_uv_flag := 0; st_uvs := [];
     st_normal_flag := 0; st_normals := [];
     st_extra_flag := 0; st_unknown_int3 := 0;
     st_materials :=
       [ {| mt_color1 := 0; mt_color2 := 0; mt_alpha := 1065353216;
            mt_color3 := 0; mt_color4 := 0; mt_flag := 0;
            mt_texture1_name := []; mt_texture2_name := [];
            mt_texture3_name := [];
            mt_material_name := [x52; x65; x64] |};
         {| mt_color1 := 0; mt_color2 := 0; mt_alpha := 1065353216;
            mt_color3 := 0; mt_color4 := 0; mt_flag := 0;
            mt_texture1_name := []; mt_texture2_name := [];
            mt_texture3_name := []; mt_material_name := [] |} ];
     st_matids := [1; 5];
     st_unknown_tail := [0; 0; 0; 0] |}.

(** A submesh with no vertex, no UV and no normal: the counts are equal. *)
Definition no_vertices : submesh_t :=
  {| st_name := [];
     st_vertices := []; st_faces := [];
     st_uv_flag := 1; st_uvs := [];
     st_normal_flag := 1; st_normals := [];
     st_extra_flag := 0; st_unknown_int3 := 0;
     st_materials := []; st_matids := [];
     st_unknown_tail := [0; 0; 0; 0] |}.

(** Four vertices and three UVs, the example of the specification. *)
Definition four_vertices_three_uvs : submesh_t :=
  {| st_name := [];
     st_vertices := [(0, 0, 0); (1065353216, 0, 0); (0, 1065353216, 0);
                     (1065353216, 1065353216, 0)];
     st_faces := [0; 1; 2; 2; 1; 3];
     st_uv_flag := 1;
     st_uvs := [(0, 0); (1065353216, 0); (0, 1065353216)];
     st_normal_flag := 0; st_normals := [];
     st_extra_flag := 0; st_unknown_int3 := 0;
     st_materials := []; st_matids := [];
     st_unknown_tail := [0; 0; 0; 0] |}.

(** A file with two submeshes. *)
Definition file_two : skin_file :=
  {| sf_header_byte := 0; sf_header_values := [0; 0; 0];
     sf_submeshes := [triangle; quad] |}.

(** A material with a texture and no name. *)
Definition unnamed_material : material_t :=
  {| mt_color1 := 4294967295; mt_color2 := 16711680;
     mt_alpha := 1056964608;
     mt_color3 := 255; mt_color4 := 0; mt_flag := 1;
     mt_texture1_name := [x61; x2e; x70; x6e; x67];
     mt_texture2_name := []; mt_texture3_name := [];
     mt_material_name := [] |}.

(** A triangle whose last face index is beyond its three vertices. *)
Definition stray_index : submesh_t :=
  {| st_name := st_name triangle;
     st_vertices := st_vertices triangle;
     st_faces := [0; 1; 7];
     st_uv_flag := st_uv_flag triangle;
     st_uvs := st_uvs triangle;
     st_normal_flag := st_normal_flag triangle;
     st_normals := st_normals triangle;
     st_extra_flag := st_extra_flag triangle;
     st_unknown_int3 := st_unknown_int3 triangle;
     st_materials := st_materials triangle;
     st_matids := st_matids triangle;
     st_unknown_tail := st_unknown_tail triangle |}.

(** A file whose second submesh has the stray index. *)
Definition file_stray : skin_file :=
  {| sf_header_byte := 0; sf_header_values := [0; 0; 0];
     sf_submeshes := [quad; stray_index; triangle] |}.

(** [W'] holds everything that [W] holds, unchanged and at the same place;
    the objects it has besides have meshes that [W] has not, and the meshes
    it has besides have materials that [W] has not. *)
Definition grown_from (W W' : World) : Prop :=
  exists ms mats objs sc,
    data_meshes W' = data_meshes W ++ ms
    /\ data_materials W' = data_materials W ++ mats
    /\ data_objects W' = data_objects W ++ objs
    /\ scene_objects W' = scene_objects W ++ sc
    /\ Forall (fun o => length (data_meshes W) <= ob_data o)%nat objs
    /\ Forall (fun m =>
                 Forall (fun mat => length (data_materials W) <= mat)%nat
                        (me_materials m)) ms.

(** A mesh without its shading flags, and a store without those of its
    meshes. *)
Definition flat_shaded (m : Mesh) : Mesh :=
  mkMesh (me_name m) (me_vertices m) (me_loops m)
    (map (fun p => mkPolygon (loop_start p) (loop_total p)
                     (material_index p) false)
         (me_polygons m))
    (me_uv_layers m) (me_custom_normals m) false (me_materials m).

Definition without_shading (W : World) : World :=
  mkWorld (map flat_shaded (data_meshes W)) (data_materials W)
    (data_objects W) (scene_objects W) (active_object W).

(** The submesh with seven face indices, with two materials and the given
    material ids. *)
Definition seven_with_ids (ids : list Z) : submesh_t :=
  {| st_name := st_name seven_indices;
     st_vertices := st_vertices seven_indices;
     st_faces := st_faces seven_indices;
     st_uv_flag := 0; st_uvs := [];
     st_normal_flag := 0; st_normals := [];
     st_extra_flag := 0; st_unknown_int3 := 0;
     st_materials := st_materials quad;
     st_matids := ids;
     st_unknown_tail := [0; 0; 0; 0] |}.

(** The same submesh without its UVs. *)
Definition without_uvs (d : submesh_data) : submesh_data :=
  {| submesh_name := submesh_name d;
     vertices := vertices d;
     face_indices := face_indices d;
     uv_flag := uv_flag d;
     uvs := [];
     normal_flag := normal_flag d;
     normals := normals d;
     extra_flag := extra_flag d;
     unknown_int3 := unknown_int3 d;
     materials := materials d;
     matids := matids d;
     unknown_tail := unknown_tail d |}.

(** A triangle without UVs whose last face index does not fit a C int. *)
Definition big_index : submesh_t :=
  {| st_name := st_name triangle;
     st_vertices := st_vertices triangle;
     st_faces := [0; 1; 4294967295];
     st_uv_flag := 0;
     st_uvs := [];
     st_normal_flag := st_normal_flag triangle;
     st_normals := st_normals triangle;
     st_extra_flag := st_extra_flag triangle;
     st_unknown_int3 := st_unknown_int3 triangle;
     st_materials := st_materials triangle;
     st_matids := st_matids triangle;
     st_unknown_tail := st_unknown_tail triangle |}.

(** A reader [settles] when, whatever the bytes, it returns, or raises
    [struct.error] with the file read to its end, or raises [MemoryError];
    and leaves the Blender store as it is. *)
Definition settles {A} (p : M A) : Prop :=
  forall q W,
    (exists a rest, p (mkState q W) = (Ok a, mkState rest W))
    \/ p (mkState q W) = (Raise struct_error, mkState [] W)
    \/ (exists rest, p (mkState q W) = (Raise MemoryError, mkState rest W)).

(** * Properties

    ** Little-endian values and reads *)

Lemma byte_val_range b : 0 <= byte_val b < 256.
Proof.
  unfold byte_val. pose proof (Byte.to_N_bounded b). lia.
Qed.

Lemma byte_val_of n : byte_val (byte_of n) = n mod 256.
Proof.
  unfold byte_val, byte_of.
  pose proof (Z.mod_pos_bound n 256 ltac:(lia)) as Hm.
  destruct (Byte.of_N (Z.to_N (n mod 256))) as [b|] eqn:E.
  - apply Byte.to_of_N in E. rewrite E. lia.
  - apply Byte.of_N_None_iff in E. lia.
Qed.

Lemma length_Z_to_le w n : length (Z_to_le w n) = w.
Proof. revert n. induction w; intros; simpl; auto. Qed.

Lemma le_to_Z_to_le w n :
  0 <= n < 256 ^ Z.of_nat w -> le_to_Z (Z_to_le w n) = n.
Proof.
  revert n. induction w as [|w IH]; intros n Hn.
  - simpl in *. lia.
  - cbn [Z_to_le le_to_Z]. rewrite byte_val_of, IH.
    + pose proof (Z.div_mod n 256 ltac:(lia)). lia.
    + rewrite Nat2Z.inj_succ, Z.pow_succ_r in Hn by lia.
      split; [apply Z.div_pos; lia | apply Z.div_lt_upper_bound; lia].
Qed.

Lemma length_pack c vals :
  length (pack c vals) = (calcsize c * length vals)%nat.
Proof.
  unfold pack. induction vals as [|v vs IH]; simpl.
  - lia.
  - rewrite length_app, length_Z_to_le, IH. lia.
Qed.

Lemma chunks_fuel_pack fuel w vals :
  (0 < w)%nat -> (length vals <= fuel)%nat ->
  chunks_fuel fuel w (flat_map (Z_to_le w) vals) = map (Z_to_le w) vals.
Proof.
  intros Hw. revert fuel. induction vals as [|v vs IH]; intros fuel Hf.
  - destruct fuel; reflexivity.
  - destruct fuel as [|fuel]; [simpl in Hf; lia|].
    cbn [flat_map map chunks_fuel].
    destruct (Z_to_le w v ++ flat_map (Z_to_le w) vs) eqn:E.
    + apply (f_equal length) in E. rewrite length_app, length_Z_to_le in E.
      simpl in E. lia.
    + rewrite <- E.
      rewrite take_app_length' by (symmetry; apply length_Z_to_le).
      rewrite drop_app_length' by (symmetry; apply length_Z_to_le).
      rewrite IH by (simpl in Hf; lia). reflexivity.
Qed.

Lemma unpack_values c vals :
  Forall (fits c) vals ->
  map le_to_Z (chunks (calcsize c) (pack c vals)) = vals.
Proof.
  intros Hv. unfold chunks, pack.
  rewrite chunks_fuel_pack.
  - induction Hv as [|v vs Hfit _ IH]; simpl; [reflexivity|].
    rewrite le_to_Z_to_le by exact Hfit. now rewrite IH.
  - destruct c; simpl; lia.
  - fold (pack c vals). rewrite length_pack. destruct c; simpl; lia.
Qed.

(** Running a computation. *)
Lemma bind_ok {A B} (m : M A) (k : A -> M B) st a st' :
  m st = (Ok a, st') -> bind m k st = k a st'.
Proof. intros H. unfold bind. now rewrite H. Qed.

Lemma bind_raise {A B} (m : M A) (k : A -> M B) st e st' :
  m st = (Raise e, st') -> bind m k st = (Raise e, st').
Proof. intros H. unfold bind. now rewrite H. Qed.

Lemma f_read_app n bs rest W :
  n = Z.of_nat (length bs) ->
  f_read n (mkState (bs ++ rest) W) = (Ok bs, mkState rest W).
Proof.
  intros ->. unfold f_read. cbn [file bpy]. rewrite Nat2Z.id.
  now rewrite take_app_length, drop_app_length.
Qed.

Lemma read_unpack_pack c count vals rest W :
  count = Z.of_nat (length vals) ->
  Forall (fits c) vals ->
  read_unpack c count (mkState (pack c vals ++ rest) W)
  = (Ok vals, mkState rest W).
Proof.
  intros -> Hv. unfold read_unpack.
  rewrite (bind_ok _ _ _ (pack c vals) (mkState rest W)).
  - unfold unpack. rewrite length_pack.
    replace (Z.of_nat (calcsize c * length vals)
             =? Z.of_nat (calcsize c) * Z.of_nat (length vals)) with true
      by (symmetry; apply Z.eqb_eq; lia).
    unfold ret. now rewrite unpack_values.
  - apply f_read_app. rewrite length_pack. lia.
Qed.

Lemma read_str_app n default bs rest W :
  n = Z.of_nat (length bs) ->
  read_str n default (mkState (bs ++ rest) W)
  = (Ok (decoded_name default bs), mkState rest W).
Proof.
  intros ->. unfold read_str. destruct bs as [|b bs].
  - reflexivity.
  - replace (0 <? Z.of_nat (length (b :: bs))) with true
      by (symmetry; apply Z.ltb_lt; simpl; lia).
    rewrite (bind_ok _ _ _ (b :: bs) (mkState rest W)) by now apply f_read_app.
    reflexivity.
Qed.

Lemma triples_flatten3 vs :
  triples (Z.of_nat (length vs)) (flatten3 vs) = vs.
Proof.
  unfold triples. rewrite Nat2Z.id.
  induction vs as [|[[x y] z] vs IH]; [reflexivity|].
  cbn [length seq map]. f_equal.
  rewrite <- seq_shift, map_map.
  etransitivity; [|exact IH]. apply map_ext. intros i. reflexivity.
Qed.

Lemma pairs_flatten2 vs :
  pairs (Z.of_nat (length vs)) (flatten2 vs) = vs.
Proof.
  unfold pairs. rewrite Nat2Z.id.
  induction vs as [|[x y] vs IH]; [reflexivity|].
  cbn [length seq map]. f_equal.
  rewrite <- seq_shift, map_map.
  etransitivity; [|exact IH]. apply map_ext. intros i. reflexivity.
Qed.

Lemma length_flatten3 vs : length (flatten3 vs) = (length vs * 3)%nat.
Proof. induction vs; simpl; lia. Qed.

Lemma length_flatten2 vs : length (flatten2 vs) = (length vs * 2)%nat.
Proof. induction vs; simpl; lia. Qed.

Lemma repeatM_encoded {A B} (m : M B) (enc : A -> list byte) (f : A -> B)
    (P : A -> Prop) xs rest W :
  (forall x rest W, P x ->
     m (mkState (enc x ++ rest) W) = (Ok (f x), mkState rest W)) ->
  Forall P xs ->
  repeatM (length xs) m (mkState (flat_map enc xs ++ rest) W)
  = (Ok (map f xs), mkState rest W).
Proof.
  intros Hm Hxs. induction Hxs as [|x xs Hx _ IH]; [reflexivity|].
  cbn [length repeatM flat_map map]. rewrite <- app_assoc.
  rewrite (bind_ok _ _ _ _ _ (Hm _ _ _ Hx)).
  rewrite (bind_ok _ _ _ _ _ IH). reflexivity.
Qed.

Lemma read_counted {A} c (n cnt : Z) (g : list Z -> list A) vals res rest W :
  cnt = Z.of_nat (length vals) ->
  Forall (fits c) vals ->
  (n <= 0 -> vals = [] /\ res = []) ->
  g vals = res ->
  (if 0 <? n then d <- read_unpack c cnt ;; ret (g d) else ret [])
    (mkState (pack c vals ++ rest) W)
  = (Ok res, mkState rest W).
Proof.
  intros Hc Hv H0 Hg. destruct (0 <? n) eqn:E.
  - rewrite (bind_ok _ _ _ _ _ (read_unpack_pack c cnt vals rest W Hc Hv)).
    now rewrite Hg.
  - apply Z.ltb_ge in E. destruct (H0 E) as [-> ->]. reflexivity.
Qed.

Lemma read_counted_plain c (n : Z) vals rest W :
  n = Z.of_nat (length vals) ->
  Forall (fits c) vals ->
  (if 0 <? n then read_unpack c n else ret [])
    (mkState (pack c vals ++ rest) W)
  = (Ok vals, mkState rest W).
Proof.
  intros Hc Hv. destruct (0 <? n) eqn:E.
  - now apply read_unpack_pack.
  - apply Z.ltb_ge in E. destruct vals; [reflexivity | simpl in Hc; lia].
Qed.

Lemma Forall_fits_1 c v : fits c v -> Forall (fits c) [v].
Proof. intros. apply Forall_cons_2; [assumption | apply Forall_nil_2]. Qed.

Lemma Forall_fits_2 c v w : fits c v -> fits c w -> Forall (fits c) [v; w].
Proof.
  intros. apply Forall_cons_2; [assumption|].
  apply Forall_cons_2; [assumption | apply Forall_nil_2].
Qed.

Lemma read_prefixed_str default bs rest W :
  wf_str bs ->
  (n <- read_unpack fmt_I 1 ;; read_str (item 0 n) default)
    (mkState (encode_str bs ++ rest) W)
  = (Ok (decoded_name default bs), mkState rest W).
Proof.
  intros Hbs. unfold encode_str. rewrite <- app_assoc.
  erewrite bind_ok
    by (apply read_unpack_pack; [reflexivity | apply Forall_fits_1, Hbs]).
  now apply read_str_app.
Qed.

Lemma bind_assoc {A B C} (m : M A) (k : A -> M B) (h : B -> M C) st :
  bind (bind m k) h st = bind m (fun a => bind (k a) h) st.
Proof. unfold bind. destruct (m st) as [[a|e] st']; reflexivity. Qed.

Ltac run_fixed :=
  erewrite bind_ok
    by (apply read_unpack_pack;
        [reflexivity
        | first [apply Forall_fits_1 | apply Forall_fits_2 | idtac];
          eauto]);
  cbn [item nth].

Lemma read_material_encoded default_name m rest W :
  wf_material m ->
  read_material_with default_name (mkState (encode_material m ++ rest) W)
  = (Ok (material_data_of default_name m), mkState rest W).
Proof.
  intros [].
  unfold read_material_with, encode_material.
  rewrite <- !app_assoc.
  do 4 run_fixed.
  do 4 (rewrite <- bind_assoc;
        erewrite bind_ok by (apply read_prefixed_str; eauto)).
  reflexivity.
Qed.

Lemma length_nil_of_nonpos {A} (l : list A) :
  Z.of_nat (length l) <= 0 -> l = [].
Proof. destruct l; simpl; [reflexivity | lia]. Qed.

Ltac run_counted r :=
  erewrite bind_ok
    by (apply read_counted with (res := r);
        [ rewrite ?length_flatten3, ?length_flatten2; lia
        | eauto
        | intros Hle; apply length_nil_of_nonpos in Hle; rewrite Hle;
          split; reflexivity
        | first [apply triples_flatten3 | apply pairs_flatten2 | reflexivity] ]).

Lemma parse_submesh_encoded default_name s rest W :
  wf_submesh s ->
  parse_submesh_with (read_material_with default_name)
    (mkState (encode_submesh s ++ rest) W)
  = (Ok (submesh_data_of default_name s), mkState rest W).
Proof.
  intros Hwf. pose proof (wf_tail_count s Hwf) as Htail. destruct Hwf.
  unfold parse_submesh_with, encode_submesh.
  rewrite <- !app_assoc.
  rewrite <- bind_assoc.
  erewrite bind_ok by (apply read_prefixed_str; eauto).
  run_fixed. run_counted (st_vertices s).
  run_fixed. run_counted (group_faces (Z.of_nat (length (st_faces s))) (st_faces s)).
  run_fixed. run_fixed. run_counted (st_uvs s).
  run_fixed. run_fixed. run_counted (st_normals s).
  run_fixed. run_fixed. run_fixed.
  rewrite Nat2Z.id.
  erewrite bind_ok
    by (apply (repeatM_encoded _ encode_material
                 (material_data_of default_name) wf_material);
        [intros; now apply read_material_encoded | assumption]).
  run_fixed.
  erewrite bind_ok by (apply read_counted_plain; [reflexivity | assumption]).
  erewrite bind_ok
    by (apply read_unpack_pack; [now rewrite Htail | assumption]).
  reflexivity.
Qed.

(** ** The loops over the new mesh *)

Lemma alter_last {A} (f : A -> A) (pre : list A) (x : A) :
  alter f (length pre) (pre ++ [x]) = pre ++ [f x].
Proof.
  rewrite alter_app_r_alt by lia. now rewrite Nat.sub_diag.
Qed.

Lemma nth_last {A} (pre : list A) (x d : A) :
  nth (length pre) (pre ++ [x]) d = x.
Proof. induction pre; simpl; auto. Qed.

Section MeshStore.
Variables (pre : list Mesh) (mats : list Material) (objs : list Object)
          (sc : list nat) (act : option nat).

Local Abbreviation store := (store pre mats objs sc act).

Lemma get_mesh_store fl m :
  get_mesh (length pre) (store fl m) = (Ok m, store fl m).
Proof.
  unfold get_mesh, bind, get_world, ret, store. cbn.
  now rewrite nth_last.
Qed.

Lemma alter_mesh_store f fl m :
  alter_mesh (length pre) f (store fl m) = (Ok tt, store fl (f m)).
Proof.
  unfold alter_mesh, modify_world, store. cbn. now rewrite alter_last.
Qed.

Lemma for_each_store {A} (body : A -> M unit)
    (step : A -> Mesh -> option Mesh) :
  (forall x fl m,
      body x (store fl m)
      = match step x m with
        | Some m' => (Ok tt, store fl m')
        | None => (Raise IndexError, store fl m)
        end) ->
  forall xs fl m,
    for_each xs body (store fl m)
    = ((if (run_steps step xs m).2 then Ok tt else Raise IndexError),
       store fl (run_steps step xs m).1).
Proof.
  intros Hbody xs. induction xs as [|x xs IH]; intros fl m.
  - reflexivity.
  - cbn [for_each run_steps]. unfold bind at 1. rewrite Hbody.
    destruct (step x m) as [m'|]; [apply IH | reflexivity].
Qed.
End MeshStore.

Lemma for_each_app {A} (xs ys : list A) (body : A -> M unit) st :
  for_each (xs ++ ys) body st
  = (for_each xs body ;;; for_each ys body) st.
Proof.
  revert st. induction xs as [|x xs IH]; intros st.
  - cbn. unfold bind, ret. now destruct (for_each ys body st) as [[]].
  - cbn [app for_each]. unfold bind.
    destruct (body x st) as [[[]|e] st']; [|reflexivity].
    rewrite IH. reflexivity.
Qed.

Lemma for_each_nested {A B} (xs : list A) (g : A -> list B)
    (body : B -> M unit) st :
  for_each xs (fun x => for_each (g x) body) st
  = for_each (flat_map g xs) body st.
Proof.
  revert st. induction xs as [|x xs IH]; intros st; [reflexivity|].
  cbn [for_each flat_map]. rewrite for_each_app.
  unfold bind. destruct (for_each (g x) body st) as [[[]|e] st'];
    [apply IH | reflexivity].
Qed.

Lemma loops_of_polygons start faces :
  flat_map (fun p => seq (loop_start p) (loop_total p))
           (polygons_from start faces)
  = seq start (length (concat faces)).
Proof.
  revert start. induction faces as [|f fs IH]; intros start; [reflexivity|].
  cbn [polygons_from flat_map concat loop_start loop_total].
  rewrite IH, length_app, seq_app. reflexivity.
Qed.

Lemma py_lookup_nat {A} (l : list A) (i : nat) :
  py_lookup l (Z.of_nat i) = l !! i.
Proof.
  assert (E : (Z.of_nat i <? 0) = false) by (apply Z.ltb_ge; lia).
  unfold py_lookup. rewrite E. cbv zeta. now rewrite E, Nat2Z.id.
Qed.

Lemma uv_steps uv_list nm vs ps un cn sm mt todo : forall done init,
  length init = length todo ->
  run_steps (uv_step 0 uv_list) (seq (length done) (length todo))
    (mkMesh nm vs (done ++ todo) ps
       [mkUVLayer un (map (uv_of uv_list) done ++ init)]
       cn sm mt)
  = if lookups_ok uv_list todo
    then (mkMesh nm vs (done ++ todo) ps
            [mkUVLayer un (map (uv_of uv_list) (done ++ todo))] cn sm mt,
          true)
    else ((run_steps (uv_step 0 uv_list) (seq (length done) (length todo))
            (mkMesh nm vs (done ++ todo) ps
               [mkUVLayer un (map (uv_of uv_list) done ++ init)]
               cn sm mt)).1,
          false).
Proof.
  induction todo as [|vi todo IH]; intros done init Hlen.
  - destruct init; [|discriminate]. cbn. now rewrite !app_nil_r.
  - destruct init as [|uv0 init]; [discriminate|].
    cbn [length seq run_steps lookups_ok forallb].
    unfold uv_step at 1 3. cbn [me_loops].
    rewrite py_lookup_nat, list_lookup_middle by reflexivity.
    destruct (py_lookup uv_list vi) as [uv|] eqn:Evi; [|reflexivity].
    cbn [andb me_name me_vertices me_polygons me_uv_layers
         me_custom_normals me_use_auto_smooth me_materials alter
         list_alter uv_name uv_data].
    rewrite insert_app_r_alt by (rewrite length_map; lia).
    rewrite length_map, Nat.sub_diag. cbn [insert list_insert].
    specialize (IH (done ++ [vi]) init ltac:(now inversion Hlen)).
    rewrite length_app, Nat.add_1_r in IH. cbn [length] in IH.
    rewrite map_app in IH. cbn [map] in IH.
    assert (Huv : uv_of uv_list vi = uv) by (unfold uv_of; now rewrite Evi).
    rewrite Huv in IH.
    rewrite <- !app_assoc in IH. cbn [app] in IH.
    exact IH.
Qed.

Lemma length_default_face_uvs n : length (default_face_uvs n) = n.
Proof.
  destruct n as [|[|[|[|[|n]]]]]; try reflexivity.
  unfold default_face_uvs. now rewrite length_replicate.
Qed.

Lemma length_default_uvs faces :
  length (default_uvs faces) = length (concat faces).
Proof.
  unfold default_uvs. generalize 0%nat.
  induction faces as [|f faces IH]; intros start; [reflexivity|].
  cbn [polygons_from flat_map concat loop_total].
  now rewrite !length_app, length_default_face_uvs, IH.
Qed.

Lemma map_as_int l : forallb fits_int l = true -> map as_int l = l.
Proof.
  induction l as [|i l IH]; [reflexivity|].
  cbn [forallb map]. intros H. apply andb_prop in H as [Hi Hl].
  unfold as_int at 1. now rewrite Hi, IH.
Qed.

Section BuildSteps.
Variables (pre : list Mesh) (mats : list Material) (objs : list Object)
          (sc : list nat) (act : option nat).
Local Abbreviation store := (store pre mats objs sc act).

Lemma fill_uv_layer_store layer uv_list fl m :
  fill_uv_layer (length pre) layer uv_list (store fl m)
  = let r := run_steps (uv_step layer uv_list)
               (flat_map (fun p => seq (loop_start p) (loop_total p))
                         (me_polygons m)) m in
    ((if r.2 then Ok tt else Raise IndexError), store fl r.1).
Proof.
  unfold fill_uv_layer.
  rewrite (bind_ok _ _ _ _ _ (get_mesh_store pre mats objs sc act fl m)).
  rewrite for_each_nested.
  apply for_each_store. clear fl m. intros li fl m.
  rewrite (bind_ok _ _ _ _ _ (get_mesh_store pre mats objs sc act fl m)).
  unfold uv_step, py_index.
  destruct (py_lookup (me_loops m) (Z.of_nat li)) as [vi|]; [|reflexivity].
  unfold bind at 1, ret at 1.
  destruct (py_lookup uv_list vi) as [uv|]; [|reflexivity].
  unfold bind, ret. apply alter_mesh_store.
Qed.
End BuildSteps.

Lemma matid_steps nm vs ls uvl cn sm mt ids_todo : forall ptodo ids_done pdone,
  length ids_done = length pdone ->
  length ids_todo = length ptodo ->
  run_steps (matid_step (ids_done ++ ids_todo))
    (seq (length pdone) (length ptodo))
    (mkMesh nm vs ls (pdone ++ ptodo) uvl cn sm mt)
  = (mkMesh nm vs ls
       (pdone ++ assign_polys (Z.of_nat (length mt)) ids_todo ptodo)
       uvl cn sm mt, true).
Proof.
  induction ids_todo as [|i ids_todo IH]; intros ptodo ids_done pdone Hd Ht.
  - destruct ptodo; [reflexivity | discriminate].
  - destruct ptodo as [|p ptodo]; [discriminate|].
    cbn [length seq run_steps assign_polys].
    unfold matid_step at 1.
    rewrite py_lookup_nat, <- Hd, list_lookup_middle by reflexivity.
    cbn [me_materials me_name me_vertices me_loops me_polygons me_uv_layers
         me_custom_normals me_use_auto_smooth].
    assert (Hstep : forall p',
      run_steps (matid_step (ids_done ++ i :: ids_todo))
        (seq (S (length pdone)) (length ptodo))
        (mkMesh nm vs ls (pdone ++ p' :: ptodo) uvl cn sm mt)
      = (mkMesh nm vs ls
           (pdone ++ p' :: assign_polys (Z.of_nat (length mt)) ids_todo ptodo)
           uvl cn sm mt, true)).
    { intros p'.
      replace (S (length pdone)) with (length (pdone ++ [p']))
        by (rewrite length_app; simpl; lia).
      rewrite (cons_middle i), (cons_middle p' pdone ptodo),
        (cons_middle p' pdone (assign_polys _ _ _)), !app_assoc.
      apply IH; [rewrite !length_app; simpl; lia | now inversion Ht]. }
    destruct (i <? Z.of_nat (length mt)).
    + rewrite Hd, alter_app_r_alt, Nat.sub_diag by lia.
      cbn [alter list_alter]. apply Hstep.
    + rewrite Hd. apply Hstep.
Qed.

Section ObjectStore.
Variables (pre : list Mesh) (objs0 : list Object) (nm : string)
          (sc : list nat) (act : option nat).

Local Abbreviation ostore := (ostore pre objs0 nm sc act).

Lemma get_object_store fl mats m :
  get_object (length objs0) (ostore fl mats m)
  = (Ok (mkObject nm (length pre)), ostore fl mats m).
Proof.
  unfold get_object, bind, get_world, ret, ostore, store. cbn.
  now rewrite nth_last.
Qed.

Lemma create_blender_material_store md search_dir fl mats m :
  create_blender_material md search_dir (ostore fl mats m)
  = (Ok (length mats),
     ostore fl (mats ++ [mkMaterial (created_name md) true]) m).
Proof. reflexivity. Qed.

Lemma alter_mesh_ostore f fl mats m :
  alter_mesh (length pre) f (ostore fl mats m)
  = (Ok tt, ostore fl mats (f m)).
Proof. apply alter_mesh_store. Qed.

Lemma get_mesh_ostore fl mats m :
  get_mesh (length pre) (ostore fl mats m) = (Ok m, ostore fl mats m).
Proof. apply get_mesh_store. Qed.

Lemma add_material_slots_store l search_dir : forall fl mats m,
  add_material_slots (length objs0) l search_dir (ostore fl mats m)
  = (Ok tt,
     ostore fl (mats ++ map (fun md => mkMaterial (created_name md) true) l)
       (mkMesh (me_name m) (me_vertices m) (me_loops m) (me_polygons m)
          (me_uv_layers m) (me_custom_normals m) (me_use_auto_smooth m)
          (me_materials m ++ seq (length mats) (length l)))).
Proof.
  unfold add_material_slots.
  induction l as [|md l IH]; intros fl mats m.
  - cbn. rewrite !app_nil_r. now destruct m.
  - cbn [for_each].
    erewrite bind_ok; cycle 1.
    { rewrite (bind_ok _ _ _ _ _
                 (create_blender_material_store md search_dir fl mats m)).
      rewrite (bind_ok _ _ _ _ _ (get_object_store fl _ m)).
      cbn [ob_data]. apply alter_mesh_ostore. }
    rewrite IH. cbn [me_name me_vertices me_loops me_polygons me_uv_layers
                     me_custom_normals me_use_auto_smooth me_materials
                     map length seq].
    rewrite <- !app_assoc, length_app. cbn [app length].
    now rewrite Nat.add_1_r.
Qed.

Lemma assign_material_ids_store d fl mats m :
  length (me_polygons m) = length (face_indices d) ->
  assign_material_ids (length pre) (length objs0) d (ostore fl mats m)
  = (Ok tt,
     ostore fl mats
       (if negb (Nat.eqb (length (matids d)) 0)
           && Nat.eqb (length (matids d)) (length (face_indices d))
        then mkMesh (me_name m) (me_vertices m) (me_loops m)
               (assign_polys (Z.of_nat (length (me_materials m)))
                  (matids d) (me_polygons m))
               (me_uv_layers m) (me_custom_normals m)
               (me_use_auto_smooth m) (me_materials m)
        else m)).
Proof.
  intros Hlen. unfold assign_material_ids.
  destruct (negb (Nat.eqb (length (matids d)) 0)
            && Nat.eqb (length (matids d)) (length (face_indices d)))
    eqn:Eg; [|reflexivity].
  apply andb_prop in Eg as [_ Eq]. apply Nat.eqb_eq in Eq.
  rewrite (bind_ok _ _ _ _ _ (get_mesh_ostore fl mats m)).
  unfold ostore.
  rewrite (for_each_store pre mats _ sc act _ (matid_step (matids d))).
  - destruct m as [n0 vs ls ps uvl cn sm mt]. cbn [me_polygons] in *.
    pose proof (matid_steps n0 vs ls uvl cn sm mt (matids d) ps [] []
                  eq_refl ltac:(lia)) as Hs.
    cbn [app length] in Hs. rewrite Hs. reflexivity.
  - clear. intros i fl m. unfold matid_step, py_index.
    destruct (py_lookup (matids d) (Z.of_nat i)) as [mi|]; [|reflexivity].
    unfold bind at 1, ret at 1.
    fold (ostore fl mats m).
    rewrite (bind_ok _ _ _ _ _ (get_object_store fl mats m)).
    cbn [ob_data].
    rewrite (bind_ok _ _ _ _ _ (get_mesh_ostore fl mats m)).
    destruct (mi <? Z.of_nat (length (me_materials m))); [|reflexivity].
    apply alter_mesh_store.
Qed.
End ObjectStore.

Lemma length_polygons_from start faces :
  length (polygons_from start faces) = length faces.
Proof.
  revert start. induction faces; intros; simpl; [reflexivity|].
  now rewrite IHfaces.
Qed.

Section UVs.
Variables (pre : list Mesh) (mats : list Material) (objs : list Object)
          (sc : list nat) (act : option nat).
Local Abbreviation store := (store pre mats objs sc act).

Lemma uv_layers_new_store name fl m :
  uv_layers_new (length pre) name (store fl m)
  = (Ok (length (me_uv_layers m)),
     store fl
       (mkMesh (me_name m) (me_vertices m) (me_loops m) (me_polygons m)
          (me_uv_layers m
           ++ [mkUVLayer name
                 (flat_map (fun p => default_face_uvs (loop_total p))
                           (me_polygons m))])
          (me_custom_normals m) (me_use_auto_smooth m) (me_materials m))).
Proof.
  unfold uv_layers_new.
  rewrite (bind_ok _ _ _ _ _ (get_mesh_store pre mats objs sc act fl m)).
  rewrite (bind_ok _ _ _ _ _ (alter_mesh_store pre mats objs sc act _ fl m)).
  reflexivity.
Qed.

Lemma apply_uvs_store v d fl nm vs cn sm mt :
  apply_uvs v (length pre) d
    (store fl (raw_mesh nm vs (face_indices d) [] cn sm mt))
  = if uvs_apply d
    then
      let r :=
        run_steps (uv_step 0 (uvs d))
          (seq 0 (length (concat (face_indices d))))
          (raw_mesh nm vs (face_indices d)
             [mkUVLayer "UVMap"%string (default_uvs (face_indices d))]
             cn sm mt) in
      ((if r.2 then Ok tt else Raise IndexError), store fl r.1)
    else (Ok tt, store fl (raw_mesh nm vs (face_indices d) [] cn sm mt)).
Proof.
  unfold apply_uvs. fold (uvs_apply d).
  destruct (uvs_apply d); [|reflexivity].
  destruct v.
  - rewrite (bind_ok _ _ _ _ _ (uv_layers_new_store _ fl _)).
    cbn [raw_mesh me_uv_layers length me_name me_vertices me_loops
         me_polygons me_custom_normals me_use_auto_smooth me_materials app].
    rewrite fill_uv_layer_store. cbn [me_polygons].
    now rewrite loops_of_polygons.
  - rewrite (bind_ok _ _ _ _ _ (get_mesh_store pre mats objs sc act fl _)).
    cbn [raw_mesh me_uv_layers length Nat.eqb].
    rewrite bind_assoc.
    rewrite (bind_ok _ _ _ _ _ (uv_layers_new_store _ fl _)).
    cbn [raw_mesh me_uv_layers length me_name me_vertices me_loops
         me_polygons me_custom_normals me_use_auto_smooth me_materials app].
    unfold bind at 1, ret at 1.
    rewrite fill_uv_layer_store. cbn [me_polygons].
    now rewrite loops_of_polygons.
Qed.
End UVs.

Lemma meshes_new_run name fl ms mats objs sc act :
  meshes_new name (mkState fl (mkWorld ms mats objs sc act))
  = (Ok (length ms), store ms mats objs sc act fl (new_mesh name)).
Proof. reflexivity. Qed.

Lemma from_pydata_store pre mats objs sc act verts faces fl m :
  from_pydata (length pre) verts faces (store pre mats objs sc act fl m)
  = ((if forallb fits_int (concat faces) then Ok tt else Raise TypeError),
     store pre mats objs sc act fl
       (mkMesh (me_name m) verts (map as_int (concat faces))
          (polygons_from 0 faces) (me_uv_layers m)
          (me_custom_normals m) (me_use_auto_smooth m) (me_materials m))).
Proof.
  unfold from_pydata.
  rewrite (bind_ok _ _ _ _ _ (alter_mesh_store pre mats objs sc act _ fl m)).
  destruct (forallb fits_int (concat faces)); reflexivity.
Qed.

Lemma from_pydata_fit ms mats objs sc act d fl :
  indices_ok d = true ->
  from_pydata (length ms) (vertices d) (face_indices d)
    (store ms mats objs sc act fl (new_mesh (submesh_name d)))
  = (Ok tt,
     store ms mats objs sc act fl
       (raw_mesh (submesh_name d) (vertices d) (face_indices d) [] None
          false [])).
Proof.
  intros Hfit. rewrite from_pydata_store.
  unfold indices_ok in Hfit. rewrite Hfit, (map_as_int _ Hfit). reflexivity.
Qed.

Lemma apply_normals_store pre mats objs sc act v d fl m :
  apply_normals v (length pre) d (store pre mats objs sc act fl m)
  = (Ok tt,
     store pre mats objs sc act fl
       (if normals_apply d
        then mkMesh (me_name m) (me_vertices m) (me_loops m)
               (match v with
                | Blender280 => me_polygons m
                | Blender279 => map smooth_polygon (me_polygons m)
                end)
               (me_uv_layers m) (Some (normals d))
               (match v with
                | Blender280 => me_use_auto_smooth m
                | Blender279 => true
                end)
               (me_materials m)
        else m)).
Proof.
  unfold apply_normals. fold (normals_apply d).
  destruct (normals_apply d); [|reflexivity].
  apply alter_mesh_store.
Qed.

Lemma objects_new_run name fl pre mats objs sc act m :
  objects_new name (length pre) (store pre mats objs sc act fl m)
  = (Ok (length objs),
     store pre mats (objs ++ [mkObject name (length pre)]) sc act fl m).
Proof. reflexivity. Qed.

Lemma link_and_activate_run obj fl pre mats objs sc act m :
  link_and_activate obj (store pre mats objs sc act fl m)
  = (Ok tt, store pre mats objs (sc ++ [obj]) (Some obj) fl m).
Proof. reflexivity. Qed.

(** [read_submesh] after its reads, when every UV lookup is in range. *)
Lemma build_submesh_ok v d search_dir fl W :
  indices_ok d = true ->
  uv_lookups_ok d = true ->
  build_submesh v d search_dir (mkState fl W)
  = (Ok (length (data_objects W)), mkState fl (built_world v d W)).
Proof.
  intros Hfit Hok. destruct W as [ms mats objs sc act].
  unfold build_submesh.
  rewrite (bind_ok _ _ _ _ _ (meshes_new_run _ fl ms mats objs sc act)).
  rewrite (bind_ok _ _ _ _ _ (from_pydata_fit ms mats objs sc act d fl Hfit)).
  cbn [new_mesh me_name me_uv_layers me_custom_normals me_use_auto_smooth
       me_materials].
  rewrite (bind_ok _ (fun _ => _) _ tt
             (store ms mats objs sc act fl
                (raw_mesh (submesh_name d) (vertices d) (face_indices d)
                   (if uvs_apply d
                    then [mkUVLayer "UVMap"%string
                            (map (uv_of (uvs d)) (concat (face_indices d)))]
                    else [])
                   None false []))).
  2:{ rewrite apply_uvs_store. unfold uv_lookups_ok in Hok.
      destruct (uvs_apply d); [|reflexivity].
      pose proof (uv_steps (uvs d) (submesh_name d) (vertices d)
                    (polygons_from 0 (face_indices d)) "UVMap"%string
                    None false [] (concat (face_indices d)) []
                    (default_uvs (face_indices d))
                    (length_default_uvs _)) as Hs.
      cbn [app length map] in Hs. rewrite Hok in Hs.
      unfold raw_mesh. cbv zeta. rewrite Hs. reflexivity. }
  rewrite (bind_ok _ _ _ _ _ (apply_normals_store ms mats objs sc act v d fl _)).
  rewrite (bind_ok _ _ _ _ _ (objects_new_run _ fl ms mats objs sc act _)).
  rewrite (bind_ok _ _ _ _ _ (link_and_activate_run _ fl ms mats _ sc act _)).
  erewrite bind_ok by apply (add_material_slots_store ms objs).
  erewrite bind_ok; cycle 1.
  { apply (assign_material_ids_store ms objs). destruct (normals_apply d), v; cbn [me_polygons raw_mesh];
        rewrite ?length_map; apply length_polygons_from. }
  unfold ret, ostore, store, built_world, built_mesh.
  cbn [data_meshes data_materials data_objects scene_objects active_object].
  fold (matids_apply d).
  f_equal. f_equal. f_equal. f_equal.
  destruct (matids_apply d), (normals_apply d), v;
    cbn [raw_mesh me_name me_vertices me_loops me_polygons me_uv_layers
         me_custom_normals me_use_auto_smooth me_materials app length];
    rewrite ?length_seq; reflexivity.
Qed.

(** ** Readers and the end of the file *)

Lemma steady_ret {A} (a : A) : steady (ret a).
Proof.
  intros q. exists (Ok a), q. repeat split; auto.
Qed.

Lemma steady_bind {A B} (p : M A) (k : A -> M B) :
  steady p -> (forall a, steady (k a)) -> steady (bind p k).
Proof.
  intros Hp Hk q. destruct (Hp q) as (out & f & Hrun & Hempty & Hout).
  destruct out as [a|e].
  - destruct (Hk a f) as (out' & f' & Hrun' & Hempty' & Hout').
    exists out', f'. split; [|split].
    + intros W. unfold bind. now rewrite Hrun, Hrun'.
    + intros ->. auto.
    + destruct out' as [b|e']; [|exact Hout'].
      intros Hf' r W. unfold bind.
      assert (Hf : f <> []) by (intros ->; auto).
      rewrite (Hout Hf r W). now apply Hout'.
  - exists (Raise e), f. split; [|split]; auto.
    intros W. unfold bind. now rewrite Hrun.
Qed.

Lemma exact_bind {A B} (p : M A) (k : A -> M B) :
  steady p ->
  (forall a, exact (k a)) ->
  (forall a W, exists st', k a (mkState [] W) = (Raise struct_error, st')) ->
  exact (bind p k).
Proof.
  intros Hp Hk Heof. split.
  - apply steady_bind; [exact Hp | intros a; apply Hk].
  - intros q W v st' Hrun r W'. unfold bind in Hrun |- *.
    destruct (Hp q) as (out & f & Hrunp & Hempty & Hout).
    rewrite Hrunp in Hrun. destruct out as [a|e]; [|discriminate].
    assert (Hf : f <> []).
    { intros ->. destruct (Heof a W) as [st'' Hr]. congruence. }
    rewrite (Hout Hf r W').
    destruct (Hk a) as [_ Hka]. now apply (Hka f W).
Qed.

Lemma exact_bind_exact {A B} (p : M A) (k : A -> M B) :
  exact p -> (forall a, exact (k a)) -> exact (bind p k).
Proof.
  intros [Hp Hpe] Hk. split.
  - apply steady_bind; [exact Hp | intros a; apply Hk].
  - intros q W v st' Hrun r W'. unfold bind in Hrun |- *.
    destruct (p (mkState q W)) as [[a|e] st1] eqn:E1; [|discriminate].
    rewrite (Hpe q W a st1 E1 r W').
    destruct (Hk a) as [Hks Hka].
    destruct (Hp q) as (out & f & Hrunp & _).
    rewrite Hrunp in E1. injection E1 as -> <-. cbn [file].
    now apply (Hka f W).
Qed.

Lemma exact_steady {A} (p : M A) : exact p -> steady p.
Proof. now intros []. Qed.

Lemma exact_ret {A} (a : A) : exact (ret a).
Proof.
  split; [apply steady_ret|].
  intros q W v st' H r W'. unfold ret in *. now inversion H.
Qed.

(** The reads of the scripts. *)
Lemma read_unpack_short c count q W :
  Z.of_nat (length q) < count * Z.of_nat (calcsize c) ->
  read_unpack c count (mkState q W) = (Raise struct_error, mkState [] W).
Proof.
  intros Hlt. unfold read_unpack, bind, f_read. cbn [file bpy].
  rewrite take_ge, drop_ge by lia.
  unfold unpack.
  replace (Z.of_nat (length q) =? Z.of_nat (calcsize c) * count) with false
    by (symmetry; apply Z.eqb_neq; lia).
  reflexivity.
Qed.

Lemma read_unpack_full c count q W :
  count * Z.of_nat (calcsize c) <= Z.of_nat (length q) ->
  0 <= count ->
  read_unpack c count (mkState q W)
  = (Ok (map le_to_Z (chunks (calcsize c)
                        (take (Z.to_nat (count * Z.of_nat (calcsize c))) q))),
     mkState (drop (Z.to_nat (count * Z.of_nat (calcsize c))) q) W).
Proof.
  intros Hle H0. unfold read_unpack, bind, f_read. cbn [file bpy].
  unfold unpack. rewrite length_take.
  replace (Z.of_nat (Z.to_nat (count * Z.of_nat (calcsize c)) `min` length q)
           =? Z.of_nat (calcsize c) * count) with true
    by (symmetry; apply Z.eqb_eq; lia).
  reflexivity.
Qed.

Lemma read_unpack_negative c count q W :
  count < 0 ->
  read_unpack c count (mkState q W) = (Raise struct_error, mkState q W).
Proof.
  intros Hlt. unfold read_unpack, bind, f_read. cbn [file bpy].
  replace (Z.to_nat (count * Z.of_nat (calcsize c))) with 0%nat
    by (destruct c; simpl; lia).
  rewrite take_0, drop_0. unfold unpack. cbn [length].
  replace (Z.of_nat 0 =? Z.of_nat (calcsize c) * count) with false
    by (symmetry; apply Z.eqb_neq; destruct c; simpl; lia).
  reflexivity.
Qed.

Lemma closing_bind {A B} (p : M A) (k : A -> M B) :
  steady p -> (forall a, closing (k a)) -> closing (bind p k).
Proof.
  intros Hp Hk. split.
  - apply exact_bind; [exact Hp | intros a; apply Hk | intros a; apply Hk].
  - intros W. destruct (Hp []) as (out & f & Hrun & Hempty & Hout).
    unfold bind. rewrite Hrun. destruct out as [a|e].
    + rewrite (Hempty eq_refl). apply Hk.
    + destruct Hout as [-> _]. eauto.
Qed.

Lemma exact_read_unpack c count : 0 <= count -> exact (read_unpack c count).
Proof.
  intros H0.
  assert (Hstable : forall q W v st',
    read_unpack c count (mkState q W) = (Ok v, st') ->
    forall r W', read_unpack c count (mkState (q ++ r) W')
                 = (Ok v, mkState (file st' ++ r) W')).
  { intros q W v st' Hrun r W'.
    destruct (Z_lt_le_dec (Z.of_nat (length q)) (count * Z.of_nat (calcsize c)))
      as [Hlt|Hle].
    - rewrite read_unpack_short in Hrun by exact Hlt. discriminate.
    - rewrite read_unpack_full in Hrun by assumption.
      injection Hrun as <- <-. cbn [file].
      rewrite read_unpack_full by (rewrite ?length_app; lia).
      rewrite take_app_le, drop_app_le by lia. reflexivity. }
  split; [|exact Hstable].
  intros q.
  destruct (Z_lt_le_dec (Z.of_nat (length q)) (count * Z.of_nat (calcsize c)))
    as [Hlt|Hle].
  - exists (Raise struct_error), []. split; [|split]; auto.
    intros W. now apply read_unpack_short.
  - eexists (Ok _), _. split; [|split].
    + intros W. now apply read_unpack_full.
    + intros ->. apply drop_nil.
    + intros _ r W.
      pose proof (read_unpack_full c count q W Hle H0) as Hrun.
      apply (Hstable q W _ _ Hrun r W).
Qed.

Lemma eof_fails_read_unpack c count :
  0 < count -> eof_fails (read_unpack c count).
Proof.
  intros H0 W. eexists. apply read_unpack_short.
  destruct c; simpl; lia.
Qed.

Lemma steady_read_str n default : steady (read_str n default).
Proof.
  unfold read_str. destruct (0 <? n) eqn:En; [|apply steady_ret].
  apply Z.ltb_lt in En. intros q.
  exists (Ok (decode_utf8_ignore (take (Z.to_nat n) q))), (drop (Z.to_nat n) q).
  split; [|split].
  - reflexivity.
  - intros ->. apply drop_nil.
  - intros Hf r W. unfold bind, f_read, ret. cbn [file bpy].
    assert (Z.to_nat n < length q)%nat.
    { destruct (Nat.lt_ge_cases (Z.to_nat n) (length q)) as [|Hge]; [assumption|].
      rewrite drop_ge in Hf by lia. congruence. }
    rewrite take_app_le, drop_app_le by lia. reflexivity.
Qed.

Lemma exact_guarded {A} c (n cnt : Z) (g : list Z -> list A) :
  (0 < n -> 0 <= cnt) ->
  exact (if 0 <? n then d <- read_unpack c cnt ;; ret (g d) else ret []).
Proof.
  intros Hc. destruct (0 <? n) eqn:En; [|apply exact_ret].
  apply Z.ltb_lt in En.
  apply exact_bind_exact; [apply exact_read_unpack; auto|].
  intros a. apply exact_ret.
Qed.

Lemma exact_guarded_plain c (n : Z) :
  exact (if 0 <? n then read_unpack c n else ret []).
Proof.
  destruct (0 <? n) eqn:En; [|apply exact_ret].
  apply Z.ltb_lt in En. apply exact_read_unpack. lia.
Qed.

Lemma steady_repeatM {A} (n : nat) (p : M A) :
  steady p -> steady (repeatM n p).
Proof.
  intros Hp. induction n as [|n IH]; cbn [repeatM]; [apply steady_ret|].
  apply steady_bind; [exact Hp|]. intros a.
  apply steady_bind; [exact IH|]. intros l. apply steady_ret.
Qed.

Lemma le_to_Z_nonneg bs : 0 <= le_to_Z bs.
Proof.
  induction bs as [|b bs IH]; cbn [le_to_Z]; [lia|].
  pose proof (Byte.to_N_bounded b). unfold byte_val. lia.
Qed.

Ltac steady_step :=
  first
    [ apply exact_steady, exact_read_unpack; lia
    | apply steady_read_str
    | apply exact_steady, exact_guarded; lia
    | apply exact_steady, exact_guarded_plain
    | apply steady_repeatM; assumption
    | apply steady_ret ].

Lemma steady_read_material_with default_name :
  steady (read_material_with default_name).
Proof.
  unfold read_material_with.
  repeat (apply steady_bind; [steady_step | intros ?]).
  apply steady_ret.
Qed.

Lemma closing_parse_submesh_with (read_mat : M material_data) :
  steady read_mat -> closing (parse_submesh_with read_mat).
Proof.
  intros Hm. unfold parse_submesh_with.
  do 18 (apply closing_bind; [steady_step | intros ?]).
  split.
  - apply exact_bind_exact; [apply exact_read_unpack; lia|].
    intros tail. apply exact_ret.
  - intros W. eexists. unfold bind.
    rewrite read_unpack_short by (simpl; lia). reflexivity.
Qed.

(** A reader that reads [e] whole fails on every file that stops inside
    [e]. *)
Lemma closing_cut {A} (p : M A) (e : list byte) (v : A) :
  closing p ->
  (forall W, p (mkState e W) = (Ok v, mkState [] W)) ->
  forall q r W, e = q ++ r -> r <> [] ->
    p (mkState q W) = (Raise struct_error, mkState [] W).
Proof.
  intros [[Hs He] _] Hreads q r W -> Hr.
  destruct (Hs q) as (out & f & Hrun & _ & Hout).
  rewrite Hrun. destruct out as [v'|e'].
  - specialize (He q W v' _ (Hrun W) r W). cbn [file] in He.
    rewrite Hreads in He. injection He as _ Hnil.
    symmetry in Hnil. apply app_eq_nil in Hnil as [_ ->]. congruence.
  - destruct Hout as [-> ->]. reflexivity.
Qed.

(** ** The whole of [read_submesh] and of [read_file] *)

Lemma build_submesh_fail v d search_dir fl W :
  indices_ok d = true ->
  uv_lookups_ok d = false ->
  build_submesh v d search_dir (mkState fl W)
  = (Raise IndexError, mkState fl (failed_world d W)).
Proof.
  intros Hfit Hok. destruct W as [ms mats objs sc act].
  unfold build_submesh.
  rewrite (bind_ok _ _ _ _ _ (meshes_new_run _ fl ms mats objs sc act)).
  rewrite (bind_ok _ _ _ _ _ (from_pydata_fit ms mats objs sc act d fl Hfit)).
  apply bind_raise.
  rewrite apply_uvs_store. unfold uv_lookups_ok in Hok.
  destruct (uvs_apply d); [|discriminate].
  pose proof (uv_steps (uvs d) (submesh_name d) (vertices d)
                (polygons_from 0 (face_indices d)) "UVMap"%string
                None false [] (concat (face_indices d)) []
                (default_uvs (face_indices d)) (length_default_uvs _)) as Hs.
  cbn [app length map] in Hs. rewrite Hok in Hs.
  unfold raw_mesh in *. cbv zeta. rewrite Hs. reflexivity.
Qed.

(** [read_submesh] after its reads, when a face index fits no C int. *)
Lemma build_submesh_unfit v d search_dir fl W :
  indices_ok d = false ->
  build_submesh v d search_dir (mkState fl W)
  = (Raise TypeError, mkState fl (unfit_world d W)).
Proof.
  intros Hfit. destruct W as [ms mats objs sc act].
  unfold build_submesh.
  rewrite (bind_ok _ _ _ _ _ (meshes_new_run _ fl ms mats objs sc act)).
  apply bind_raise. rewrite from_pydata_store.
  unfold indices_ok in Hfit. rewrite Hfit. reflexivity.
Qed.

Lemma build_submesh_run v d search_dir fl W :
  build_submesh v d search_dir (mkState fl W)
  = ((build_result v d W).1, mkState fl (build_result v d W).2).
Proof.
  unfold build_result. destruct (indices_ok d) eqn:Ei.
  - destruct (uv_lookups_ok d) eqn:E.
    + now apply build_submesh_ok.
    + now apply build_submesh_fail.
  - now apply build_submesh_unfit.
Qed.

(** A successful build is one whose UV lookups were all in range. *)
Lemma build_submesh_Ok_inv v d search_dir st obj st' :
  build_submesh v d search_dir st = (Ok obj, st') ->
  uv_lookups_ok d = true
  /\ obj = length (data_objects (bpy st))
  /\ st' = mkState (file st) (built_world v d (bpy st)).
Proof.
  destruct st as [fl W]. rewrite build_submesh_run. unfold build_result.
  destruct (indices_ok d); cbn; [|discriminate].
  destruct (uv_lookups_ok d); cbn; [|discriminate].
  intros H. injection H as <- <-. auto.
Qed.

(** And one whose face indices all fit a C int. *)
Lemma build_submesh_Ok_indices v d search_dir st obj st' :
  build_submesh v d search_dir st = (Ok obj, st') -> indices_ok d = true.
Proof.
  destruct st as [fl W]. rewrite build_submesh_run. unfold build_result.
  destruct (indices_ok d); cbn; [reflexivity | discriminate].
Qed.

Section ReadFile.
Variables (v : version) (default_name : string)
          (search_dir : option string).

Local Abbreviation read_sub :=
  (d <- parse_submesh_with (read_material_with default_name) ;;
   build_submesh v d search_dir).

Lemma read_sub_encoded s rest W :
  wf_submesh s ->
  read_sub (mkState (encode_submesh s ++ rest) W)
  = ((build_result v (submesh_data_of default_name s) W).1,
     mkState rest (build_result v (submesh_data_of default_name s) W).2).
Proof.
  intros Hwf.
  rewrite (bind_ok _ _ _ _ _
             (parse_submesh_encoded default_name s rest W Hwf)).
  apply build_submesh_run.
Qed.

Lemma repeatM_read_sub sms : forall rest W,
  Forall wf_submesh sms ->
  exists fl',
    repeatM (length sms) read_sub
      (mkState (flat_map encode_submesh sms ++ rest) W)
    = ((build_all v (map (submesh_data_of default_name) sms) W).1,
       mkState fl'
         (build_all v (map (submesh_data_of default_name) sms) W).2)
    /\ (forall objs,
          (build_all v (map (submesh_data_of default_name) sms) W).1
          = Ok objs -> fl' = rest).
Proof.
  induction sms as [|s sms IH]; intros rest W Hwf.
  - exists rest. split; [reflexivity | auto].
  - apply Forall_cons in Hwf as [Hs Hsms].
    cbn [length repeatM flat_map map build_all].
    rewrite <- app_assoc. unfold bind at 1.
    rewrite (read_sub_encoded s _ W Hs).
    destruct (build_result v (submesh_data_of default_name s) W)
      as [[obj|e] W1]; cbn [fst snd].
    + destruct (IH rest W1 Hsms) as (fl' & Hrun & Hfl).
      unfold bind at 1. rewrite Hrun.
      destruct (build_all v _ W1) as [[l'|e'] W2]; cbn [fst snd] in *.
      * exists fl'. split; [reflexivity|].
        intros objs _. now apply (Hfl l').
      * exists fl'. split; [reflexivity|].
        intros objs Hd. discriminate Hd.
    + eexists. split; [reflexivity|].
      intros objs Hd. discriminate Hd.
Qed.

Lemma read_file_encoded sf W :
  wf_file sf ->
  exists fl',
    read_file_with read_sub (mkState (encode_file sf) W)
    = (match (build_all v (map (submesh_data_of default_name)
                             (sf_submeshes sf)) W).1 with
       | Ok _ => Ok FINISHED
       | Raise e => Raise e
       end,
       mkState fl'
         (build_all v (map (submesh_data_of default_name)
                         (sf_submeshes sf)) W).2).
Proof.
  intros Hwf. pose proof (wf_header_count sf Hwf) as Hhc.
  pose proof (wf_submeshes sf Hwf) as Hsms. destruct Hwf.
  unfold read_file_with, encode_file.
  run_fixed.
  erewrite bind_ok
    by (apply read_unpack_pack; [now rewrite Hhc | assumption]).
  run_fixed. rewrite Nat2Z.id.
  destruct (repeatM_read_sub (sf_submeshes sf) [] W Hsms)
    as (fl' & Hrun & _).
  rewrite app_nil_r in Hrun.
  destruct (build_all v _ W) as [[l|e] W']; cbn [fst snd] in *;
    exists fl'.
  - now rewrite (bind_ok _ _ _ _ _ Hrun).
  - now rewrite (bind_raise _ _ _ _ _ Hrun).
Qed.
End ReadFile.

(** ** Face grouping *)

Lemma length_group_faces raw :
  length (group_faces (Z.of_nat (length raw)) raw)
  = ((length raw + 2) / 3)%nat.
Proof.
  unfold group_faces, range3. rewrite !length_map, length_seq.
  rewrite <- (Nat2Z.id ((length raw + 2) / 3)). f_equal.
  rewrite Nat2Z.inj_div, Nat2Z.inj_add. reflexivity.
Qed.

(** Every group but a last short one is a triple: the group at position
    [k] holds the indices from [3k], three of them or those that are left. *)
Lemma lookup_group_faces raw k :
  (3 * k < length raw)%nat ->
  group_faces (Z.of_nat (length raw)) raw !! k
  = Some (take 3 (drop (3 * k) raw)).
Proof.
  intros Hk. unfold group_faces, range3.
  rewrite !list_lookup_fmap, lookup_seq_lt; [reflexivity|].
  apply Nat2Z.inj_lt. rewrite Z2Nat.id by (apply Z.div_pos; lia).
  assert (Z.of_nat k + 1 <= (Z.of_nat (length raw) + 2) / 3); [|lia].
  apply Z.div_le_lower_bound; lia.
Qed.

Lemma group_faces_partial raw :
  (length raw mod 3 <> 0)%nat ->
  exists g, last (group_faces (Z.of_nat (length raw)) raw) = Some g
            /\ length g = (length raw mod 3)%nat.
Proof.
  intros Hm.
  pose proof (Nat.div_mod_eq (length raw) 3) as Hdm.
  pose proof (Nat.mod_upper_bound (length raw) 3 ltac:(lia)) as Hub.
  exists (take 3 (drop (3 * (length raw / 3)) raw)). split.
  - rewrite last_lookup, length_group_faces.
    replace (Nat.pred ((length raw + 2) / 3)) with (length raw / 3)%nat.
    + apply lookup_group_faces. lia.
    + replace (length raw + 2)%nat
        with ((length raw mod 3 + 2) + (length raw / 3) * 3)%nat at 1 by lia.
      rewrite Nat.div_add by lia.
      assert ((length raw mod 3 + 2) / 3 = 1)%nat as ->; [|lia].
      destruct (length raw mod 3)%nat as [|[|[|]]]; try lia; reflexivity.
  - rewrite length_take, length_drop. lia.
Qed.

(** C1.  The claim says that the decoder makes floor(n/3) triples and drops
    the indices left over.  The code does not: the slices
    [raw[i:i+3] for i in range(0, n, 3)] include a last short one.  With
    seven indices both scripts make three groups, the third with one index;
    in general there are ceil(n/3) groups and, when 3 does not divide n, the
    last one has n mod 3 indices. *)
Theorem C1_partial_face_group_kept :
  (exists d,
      (parse_submesh (mkState (encode_submesh seven_indices) empty_world)).1
      = Ok d
      /\ face_indices d = [[0; 1; 2]; [2; 1; 3]; [3]])
  /\ (exists d,
      (parse_submesh_279
         (mkState (encode_submesh seven_indices) empty_world)).1 = Ok d
      /\ face_indices d = [[0; 1; 2]; [2; 1; 3]; [3]])
  /\ (forall default_name s rest W,
        wf_submesh s ->
        (length (st_faces s) mod 3 <> 0)%nat ->
        exists d g,
          parse_submesh_with (read_material_with default_name)
            (mkState (encode_submesh s ++ rest) W)
          = (Ok d, mkState rest W)
          /\ length (face_indices d) = ((length (st_faces s) + 2) / 3)%nat
          /\ last (face_indices d) = Some g
          /\ length g = (length (st_faces s) mod 3)%nat).
Proof.
  split; [|split].
  - eexists. split; vm_compute; reflexivity.
  - eexists. split; vm_compute; reflexivity.
  - intros default_name s rest W Hwf Hm.
    destruct (group_faces_partial (st_faces s) Hm) as (g & Hlast & Hg).
    exists (submesh_data_of default_name s), g.
    split; [now apply parse_submesh_encoded|].
    cbn [submesh_data_of face_indices].
    split; [apply length_group_faces | auto].
Qed.

(** ** Truncated strings *)

Ltac solve_fits :=
  repeat first
    [ apply Forall_nil_2
    | apply Forall_cons_2
    | match goal with
      | |- fits _ _ => unfold fits; vm_compute; split; congruence
      | |- wf_str _ => unfold wf_str, fits; vm_compute; split; congruence
      | |- wf_material _ => constructor
      | |- _ = _ => reflexivity
      end ].

Lemma wf_triangle : wf_submesh triangle.
Proof. constructor; solve_fits. Qed.

(** C2, as stated, fails on [read_material]: the name is declared with
    five bytes, two are left in the file, and [read_material] (as
    [read_material_279]) returns a record whose name is those two bytes,
    with no error. *)
Lemma C2_read_material_returns_short_name :
  length short_name_material = 39%nat
  /\ read_material (mkState short_name_material empty_world)
     = (Ok {| color1 := 1; color2 := 2; alpha := 1065353216;
              color3 := 3; color4 := 4; flag1 := 0;
              texture1_name := ""; texture2_name := "";
              texture3_name := ""; material_name := "ab" |},
        mkState [] empty_world)
  /\ read_material_279 (mkState short_name_material empty_world)
     = (Ok {| color1 := 1; color2 := 2; alpha := 1065353216;
              color3 := 3; color4 := 4; flag1 := 0;
              texture1_name := ""; texture2_name := "";
              texture3_name := ""; material_name := "ab" |},
        mkState [] empty_world).
Proof. repeat split; vm_compute; reflexivity. Qed.

Lemma read_str_short n default q W :
  Z.of_nat (length q) < n ->
  read_str n default (mkState q W)
  = (Ok (decode_utf8_ignore q), mkState [] W).
Proof.
  intros Hn. unfold read_str.
  replace (0 <? n) with true by (symmetry; apply Z.ltb_lt; lia).
  unfold bind, f_read, ret. cbn [file bpy].
  now rewrite take_ge, drop_ge by lia.
Qed.

Lemma parse_submesh_cut default_name s q r W :
  wf_submesh s ->
  encode_submesh s = q ++ r -> r <> [] ->
  parse_submesh_with (read_material_with default_name) (mkState q W)
  = (Raise struct_error, mkState [] W).
Proof.
  intros Hwf He Hr.
  apply (closing_cut _ (encode_submesh s)
           (submesh_data_of default_name s)) with (r := r); auto.
  - apply closing_parse_submesh_with, steady_read_material_with.
  - intros W'.
    pose proof (parse_submesh_encoded default_name s [] W' Hwf) as H.
    now rewrite app_nil_r in H.
Qed.

(** C2, amended.  When fewer bytes are left than a string declares, the
    read of the string does not fail: it returns the bytes that are left and
    the file is at its end.  No check follows, but every read of a
    fixed-width field fails at the end of the file, and [read_submesh] ends
    with such reads: on a file that stops anywhere inside a well-formed
    submesh, so also inside one of its strings, [read_submesh] and
    [read_submesh_279] raise [struct.error] before they create anything. *)
Theorem C2_truncated_submesh_raises search_dir s q r W :
  wf_submesh s ->
  encode_submesh s = q ++ r -> r <> [] ->
  read_submesh search_dir (mkState q W)
  = (Raise struct_error, mkState [] W)
  /\ read_submesh_279 search_dir (mkState q W)
     = (Raise struct_error, mkState [] W)
  /\ (forall n default,
        Z.of_nat (length q) < n ->
        read_str n default (mkState q W)
        = (Ok (decode_utf8_ignore q), mkState [] W)).
Proof.
  intros Hwf He Hr. split; [|split].
  - unfold read_submesh, parse_submesh, read_material.
    apply bind_raise. now apply (parse_submesh_cut _ s q r).
  - unfold read_submesh_279, parse_submesh_279, read_material_279.
    apply bind_raise. now apply (parse_submesh_cut _ s q r).
  - intros n default Hn. now apply read_str_short.
Qed.

(** The file of [triangle] cut after the first byte of the material name
    "Red". *)
Lemma C2_truncated_submesh_raises_witness :
  read_submesh None
    (mkState (take 186 (encode_submesh triangle)) empty_world)
  = (Raise struct_error, mkState [] empty_world).
Proof.
  apply (C2_truncated_submesh_raises None triangle
           (take 186 (encode_submesh triangle))
           (drop 186 (encode_submesh triangle)) empty_world).
  - exact wf_triangle.
  - symmetry. apply take_drop.
  - vm_compute. discriminate.
Defined.

(** ** Reserved fields *)

Lemma import_encoded v default_name search_dir sf W :
  wf_file sf ->
  let r := read_file_with
             (d <- parse_submesh_with (read_material_with default_name) ;;
              build_submesh v d search_dir)
             (mkState (encode_file sf) W) in
  (r.1, bpy r.2)
  = (match (build_all v (map (submesh_data_of default_name)
                           (sf_submeshes sf)) W).1 with
     | Ok _ => Ok FINISHED
     | Raise e => Raise e
     end,
     (build_all v (map (submesh_data_of default_name) (sf_submeshes sf)) W).2).
Proof.
  intros Hwf.
  destruct (read_file_encoded v default_name search_dir sf W Hwf)
    as (fl' & Hrun).
  cbv zeta. now rewrite Hrun.
Qed.

Lemma import_skin_encoded search_dir sf W :
  wf_file sf ->
  import_skin search_dir (encode_file sf) W
  = (match (build_all Blender280 (map (submesh_data_of "")
                                    (sf_submeshes sf)) W).1 with
     | Ok _ => Ok FINISHED
     | Raise e => Raise e
     end,
     (build_all Blender280 (map (submesh_data_of "") (sf_submeshes sf)) W).2).
Proof. apply import_encoded. Qed.

Lemma import_skin_279_encoded search_dir sf W :
  wf_file sf ->
  import_skin_279 search_dir (encode_file sf) W
  = (match (build_all Blender279 (map (submesh_data_of "ImportedMaterial")
                                    (sf_submeshes sf)) W).1 with
     | Ok _ => Ok FINISHED
     | Raise e => Raise e
     end,
     (build_all Blender279 (map (submesh_data_of "ImportedMaterial")
                              (sf_submeshes sf)) W).2).
Proof. apply import_encoded. Qed.

Lemma build_result_clear_reserved v default_name s W :
  build_result v (submesh_data_of default_name (clear_reserved_submesh s)) W
  = build_result v (submesh_data_of default_name s) W.
Proof. reflexivity. Qed.

Lemma build_all_clear_reserved v default_name sms : forall W,
  build_all v (map (submesh_data_of default_name)
                 (map clear_reserved_submesh sms)) W
  = build_all v (map (submesh_data_of default_name) sms) W.
Proof.
  induction sms as [|s sms IH]; intros W; [reflexivity|].
  cbn [map build_all]. rewrite build_result_clear_reserved.
  destruct (build_result v (submesh_data_of default_name s) W) as [[obj|e] W'];
    [|reflexivity].
  now rewrite IH.
Qed.

Lemma fits_0 c : fits c 0.
Proof. unfold fits. destruct c; simpl; lia. Qed.

Lemma wf_clear_reserved_submesh s :
  wf_submesh s -> wf_submesh (clear_reserved_submesh s).
Proof.
  intros []. constructor; cbn [clear_reserved_submesh st_name st_vertices
    st_faces st_uv_flag st_uvs st_normal_flag st_normals st_extra_flag
    st_unknown_int3 st_materials st_matids st_unknown_tail];
    auto using fits_0.
Qed.

Lemma wf_clear_reserved sf : wf_file sf -> wf_file (clear_reserved sf).
Proof.
  intros []. constructor;
    cbn [clear_reserved sf_header_byte sf_header_values sf_submeshes].
  - apply fits_0.
  - reflexivity.
  - repeat (apply Forall_cons_2; [apply fits_0|]). apply Forall_nil_2.
  - now rewrite length_map.
  - apply Forall_map. eapply Forall_impl; [eassumption|].
    apply wf_clear_reserved_submesh.
Qed.

Ltac solve_wf :=
  repeat first
    [ progress solve_fits
    | match goal with
      | |- wf_submesh _ => constructor
      | |- wf_file _ => constructor
      | |- Forall _ ?l =>
          let l' := eval vm_compute in l in
          progress change l with l'
      end ].

Lemma wf_file_a : wf_file file_a.
Proof. solve_wf. Qed.

Lemma wf_file_b : wf_file file_b.
Proof. solve_wf. Qed.

(** C3, as stated, fails: the two files differ in every reserved field (the
    header byte is 0 in one and 1 in the other) and both are imported with
    no error, into the same store and with the same result.  Nothing that is
    computed from what the import leaves can give back the header byte of
    both files. *)
Lemma C3_reserved_fields_not_kept :
  import_skin None (encode_file file_a) empty_world
  = import_skin None (encode_file file_b) empty_world
  /\ (import_skin None (encode_file file_a) empty_world).1 = Ok FINISHED
  /\ import_skin_279 None (encode_file file_a) empty_world
     = import_skin_279 None (encode_file file_b) empty_world
  /\ encode_file file_a <> encode_file file_b
  /\ ~ (exists recover : outcome operator_result * World -> Z,
          recover (import_skin None (encode_file file_a) empty_world)
          = sf_header_byte file_a
          /\ recover (import_skin None (encode_file file_b) empty_world)
             = sf_header_byte file_b).
Proof.
  assert (E : import_skin None (encode_file file_a) empty_world
              = import_skin None (encode_file file_b) empty_world)
    by (vm_compute; reflexivity).
  split; [exact E|]. split; [vm_compute; reflexivity|].
  split; [vm_compute; reflexivity|]. split.
  - intros H. vm_compute in H. discriminate H.
  - intros (recover & Ha & Hb). rewrite E, Hb in Ha. discriminate Ha.
Qed.

(** C3, amended.  Every reserved field is read at its place, and the local
    variable of [read_submesh] holds the value its bytes have in the file;
    but no reserved field is kept.  The import of a well-formed file returns
    the same and leaves the same store as the import of the file with all
    its reserved fields set to zero: the header byte, the three header
    words, and in each submesh the three flags, the reserved word and the
    four words of the tail. *)
Theorem C3_reserved_fields_read_then_dropped search_dir sf W :
  wf_file sf ->
  import_skin search_dir (encode_file sf) W
  = import_skin search_dir (encode_file (clear_reserved sf)) W
  /\ import_skin_279 search_dir (encode_file sf) W
     = import_skin_279 search_dir (encode_file (clear_reserved sf)) W
  /\ (forall s rest W',
        In s (sf_submeshes sf) ->
        exists d,
          parse_submesh (mkState (encode_submesh s ++ rest) W')
          = (Ok d, mkState rest W')
          /\ uv_flag d = st_uv_flag s
          /\ normal_flag d = st_normal_flag s
          /\ extra_flag d = st_extra_flag s
          /\ unknown_int3 d = st_unknown_int3 s
          /\ unknown_tail d = st_unknown_tail s).
Proof.
  intros Hwf. pose proof (wf_clear_reserved sf Hwf) as Hwf'.
  split; [|split].
  - rewrite !import_skin_encoded by assumption.
    cbn [clear_reserved sf_submeshes].
    now rewrite build_all_clear_reserved.
  - rewrite !import_skin_279_encoded by assumption.
    cbn [clear_reserved sf_submeshes].
    now rewrite build_all_clear_reserved.
  - intros s rest W' Hin.
    exists (submesh_data_of "" s). split.
    + apply parse_submesh_encoded.
      pose proof (wf_submeshes sf Hwf) as Hall.
      rewrite Forall_forall in Hall. apply Hall.
      now apply list_elem_of_In.
    + repeat split.
Qed.

Lemma C3_reserved_fields_read_then_dropped_witness :
  import_skin None (encode_file file_b) empty_world
  = import_skin None (encode_file (clear_reserved file_b)) empty_world.
Proof.
  apply (C3_reserved_fields_read_then_dropped None file_b empty_world).
  exact wf_file_b.
Defined.

(** ** Counts that are too large *)

Lemma build_all_ok v ds : forall W,
  Forall (fun d => buildable d = true) ds ->
  exists objs, build_all v ds W = (Ok objs, built_worlds v ds W).
Proof.
  induction ds as [|d ds IH]; intros W Hok.
  - exists []. reflexivity.
  - apply Forall_cons in Hok as [Hd Hds].
    apply andb_prop in Hd as [Hi Hu].
    cbn [build_all built_worlds fold_left]. unfold build_result.
    rewrite Hi, Hu. destruct (IH (built_world v d W) Hds) as [objs Hrun].
    rewrite Hrun. eexists. reflexivity.
Qed.





Section MemoryReads.
Variables (room room_values : fmt -> Z -> bool) (room_str : Z -> bool).

(** There is memory for every read of at most [limit] bytes. *)
Variable limit : Z.
Hypothesis room_limit : forall c k,
  k * Z.of_nat (calcsize c) <= limit ->
  room c k = true /\ room_values c k = true.
Hypothesis room_str_limit : forall k, k <= limit -> room_str k = true.

(** A read for which there is memory is the read of the readers without
    allocations. *)
Lemma bind_read_unpack_mem_fit {B} c count (k : list Z -> M B) st :
  count * Z.of_nat (calcsize c) <= limit ->
  bind (read_unpack_mem room room_values c count) k st
  = bind (read_unpack c count) k st.
Proof.
  intros H. destruct (room_limit c count H) as [H1 H2].
  unfold read_unpack_mem, alloc. rewrite H1, H2.
  unfold bind, ret.
  destruct (read_unpack c count st) as [[vs|e] st1]; reflexivity.
Qed.




Lemma bind_plain_mem_fit {B} c (n : Z) (k : list Z -> M B) st :
  (0 < n -> n * Z.of_nat (calcsize c) <= limit) ->
  bind (if 0 <? n then read_unpack_mem room room_values c n else ret []) k st
  = bind (if 0 <? n then read_unpack c n else ret []) k st.
Proof.
  intros H. destruct (0 <? n) eqn:E; [|reflexivity].
  apply Z.ltb_lt in E. now apply bind_read_unpack_mem_fit, H.
Qed.











End MemoryReads.



(** The two ways the read of a vertex count of a thousand with two bytes
    behind it ends: [struct.error] when there is memory for the read,
    [MemoryError] when there is not. *)
Example oversized_vertex_count_either_way :
  read_submesh_mem (fun _ _ => true) (fun _ _ => true) (fun _ => true) None
    (mkState (before_count VertexArray triangle ++ pack fmt_I [1000]
              ++ [x00; x00]) empty_world)
  = (Raise struct_error, mkState [] empty_world)
  /\ (read_submesh_mem (fun c k => k * Z.of_nat (calcsize c) <=? 1000)
        (fun _ _ => true) (fun _ => true) None
        (mkState (before_count VertexArray triangle ++ pack fmt_I [1000]
                  ++ [x00; x00]) empty_world)).1
     = Raise MemoryError.
Proof. split; vm_compute; reflexivity. Qed.

(** ** Material ids *)

Lemma material_index_polygons_from start faces :
  map material_index (polygons_from start faces) = repeat 0 (length faces).
Proof.
  revert start. induction faces as [|f fs IH]; intros start; [reflexivity|].
  cbn [polygons_from map material_index length repeat]. now rewrite IH.
Qed.

Lemma material_index_smooth ps :
  map material_index (map smooth_polygon ps) = map material_index ps.
Proof. rewrite map_map. reflexivity. Qed.

Lemma material_index_assign_polys nmats ids : forall ps,
  length ids = length ps ->
  map material_index ps = repeat 0 (length ps) ->
  map material_index (assign_polys nmats ids ps)
  = map (fun i => if i <? nmats then i else 0) ids.
Proof.
  induction ids as [|i ids IH]; intros ps Hlen Hz.
  - destruct ps; [reflexivity | discriminate].
  - destruct ps as [|p ps]; [discriminate|].
    cbn [assign_polys map length repeat] in *.
    injection Hz as Hp Hps. injection Hlen as Hlen.
    rewrite (IH ps Hlen Hps). f_equal.
    destruct (i <? nmats); [reflexivity | exact Hp].
Qed.

Lemma material_index_built_mesh v d base :
  map material_index (me_polygons (built_mesh v d base))
  = expected_material_indices (matids d) (length (face_indices d))
      (length (materials d)).
Proof.
  unfold built_mesh, expected_material_indices. cbn [me_polygons].
  set (ps1 := if normals_apply d
              then match v with
                   | Blender280 => polygons_from 0 (face_indices d)
                   | Blender279 =>
                       map smooth_polygon (polygons_from 0 (face_indices d))
                   end
              else polygons_from 0 (face_indices d)).
  assert (Hlen : length ps1 = length (face_indices d)).
  { subst ps1. destruct (normals_apply d), v;
      rewrite ?length_map; apply length_polygons_from. }
  assert (Hz : map material_index ps1 = repeat 0 (length (face_indices d))).
  { subst ps1. destruct (normals_apply d), v;
      rewrite ?material_index_smooth; apply material_index_polygons_from. }
  unfold matids_apply.
  destruct (Nat.eqb (length (matids d)) (length (face_indices d))) eqn:Eq.
  - apply Nat.eqb_eq in Eq.
    destruct (Nat.eqb (length (matids d)) 0) eqn:E0; cbn [negb andb].
    + apply Nat.eqb_eq in E0. rewrite Hz, <- Eq, E0.
      destruct (matids d); [reflexivity | discriminate].
    + apply material_index_assign_polys; [lia | now rewrite Hlen].
  - rewrite andb_false_r. exact Hz.
Qed.

(** The object and the mesh of a submesh that was built. *)
Lemma built_world_lookup v d W :
  data_objects (built_world v d W) !! length (data_objects W)
  = Some (mkObject (submesh_name d) (length (data_meshes W)))
  /\ data_meshes (built_world v d W) !! length (data_meshes W)
     = Some (built_mesh v d (length (data_materials W))).
Proof.
  cbn [built_world data_objects data_meshes].
  split; apply list_lookup_middle; reflexivity.
Qed.

(** [read_submesh] on the bytes of a submesh that can be built. *)
Lemma read_sub_built v default_name search_dir s rest W :
  wf_submesh s ->
  buildable (submesh_data_of default_name s) = true ->
  (d <- parse_submesh_with (read_material_with default_name) ;;
   build_submesh v d search_dir) (mkState (encode_submesh s ++ rest) W)
  = (Ok (length (data_objects W)),
     mkState rest (built_world v (submesh_data_of default_name s) W)).
Proof.
  intros Hwf Hb. apply andb_prop in Hb as [Hi Hu].
  rewrite (read_sub_encoded v default_name search_dir s rest W Hwf).
  unfold build_result. rewrite Hi, Hu. reflexivity.
Qed.

(** C5.  The claim says that the material ids are applied exactly when
    there are as many as decoded face triples.  The code compares their
    number with [len(face_indices)], which it calls the number of triangles
    but which counts the short group that the grouping keeps (C1): with seven
    face indices there are two triples and three faces.  Two material ids,
    one per triple, are not applied: every face keeps material 0.  Three
    material ids are applied, the third to the face of one index.  The same
    holds whenever 3 does not divide the number of face indices: with one id
    per triple no face is assigned. *)
Theorem C5_short_group_counts_as_face :
  (exists obj W' o m,
      read_submesh None
        (mkState (encode_submesh (seven_with_ids [1; 0])) empty_world)
      = (Ok obj, mkState [] W')
      /\ data_objects W' !! obj = Some o
      /\ data_meshes W' !! ob_data o = Some m
      /\ map loop_total (me_polygons m) = [3; 3; 1]%nat
      /\ map material_index (me_polygons m) = [0; 0; 0])
  /\ (exists obj W' o m,
      read_submesh None
        (mkState (encode_submesh (seven_with_ids [1; 0; 1])) empty_world)
      = (Ok obj, mkState [] W')
      /\ data_objects W' !! obj = Some o
      /\ data_meshes W' !! ob_data o = Some m
      /\ map loop_total (me_polygons m) = [3; 3; 1]%nat
      /\ map material_index (me_polygons m) = [1; 0; 1])
  /\ (exists obj W' o m,
      read_submesh_279 None
        (mkState (encode_submesh (seven_with_ids [1; 0])) empty_world)
      = (Ok obj, mkState [] W')
      /\ data_objects W' !! obj = Some o
      /\ data_meshes W' !! ob_data o = Some m
      /\ map material_index (me_polygons m) = [0; 0; 0])
  /\ (forall search_dir s rest W,
        wf_submesh s ->
        buildable (submesh_data_of "" s) = true ->
        (length (st_faces s) mod 3 <> 0)%nat ->
        length (st_matids s) = (length (st_faces s) / 3)%nat ->
        exists obj W' o m,
          read_submesh search_dir (mkState (encode_submesh s ++ rest) W)
          = (Ok obj, mkState rest W')
          /\ data_objects W' !! obj = Some o
          /\ data_meshes W' !! ob_data o = Some m
          /\ length (me_polygons m) = S (length (st_matids s))
          /\ map material_index (me_polygons m)
             = repeat 0 (S (length (st_matids s)))).
Proof.
  split; [|split; [|split]].
  - do 4 eexists. split; [vm_compute; reflexivity|].
    repeat split; vm_compute; reflexivity.
  - do 4 eexists. split; [vm_compute; reflexivity|].
    repeat split; vm_compute; reflexivity.
  - do 4 eexists. split; [vm_compute; reflexivity|].
    repeat split; vm_compute; reflexivity.
  - intros search_dir s rest W Hwf Hb Hm Hids.
    destruct (built_world_lookup Blender280 (submesh_data_of "" s) W)
      as [Ho Hme].
    do 4 eexists. split.
    { unfold read_submesh, parse_submesh, read_material.
      apply (read_sub_built Blender280 "" search_dir s rest W Hwf Hb). }
    split; [exact Ho|]. cbn [ob_data]. split; [exact Hme|].
    assert (Hfaces : length (face_indices (submesh_data_of "" s))
                     = S (length (st_matids s))).
    { cbn [submesh_data_of face_indices]. rewrite length_group_faces, Hids.
      pose proof (Nat.div_mod_eq (length (st_faces s)) 3).
      pose proof (Nat.mod_upper_bound (length (st_faces s)) 3 ltac:(lia)).
      replace (length (st_faces s) + 2)%nat
        with ((length (st_faces s) mod 3 + 2)
              + (length (st_faces s) / 3) * 3)%nat at 1 by lia.
      rewrite Nat.div_add by lia.
      assert ((length (st_faces s) mod 3 + 2) / 3 = 1)%nat as ->; [|lia].
      destruct (length (st_faces s) mod 3)%nat as [|[|[|]]]; try lia;
        reflexivity. }
    split.
    + rewrite <- (length_map material_index), material_index_built_mesh.
      unfold expected_material_indices. rewrite Hfaces.
      cbn [submesh_data_of matids].
      replace (Nat.eqb (length (st_matids s)) (S (length (st_matids s))))
        with false by (symmetry; apply Nat.eqb_neq; lia).
      apply repeat_length.
    + rewrite material_index_built_mesh.
      unfold expected_material_indices. rewrite Hfaces.
      cbn [submesh_data_of matids].
      replace (Nat.eqb (length (st_matids s)) (S (length (st_matids s))))
        with false by (symmetry; apply Nat.eqb_neq; lia).
      reflexivity.
Qed.

(** X19.  For every submesh that [read_submesh] (or [read_submesh_279])
    builds, the material ids are applied when there is one for every face of
    the mesh (every group of the face list, a last short group included):
    each face then gets its id, except that a face whose id is not below the
    number of materials keeps material 0.  With any other number of ids no
    face is assigned.  The material ids never make the build fail: it
    succeeds in the same way with any other ids, of any number. *)
Theorem X19_material_ids_per_face v d search_dir st obj st' :
  build_submesh v d search_dir st = (Ok obj, st') ->
  (exists o m,
      data_objects (bpy st') !! obj = Some o
      /\ data_meshes (bpy st') !! ob_data o = Some m
      /\ map material_index (me_polygons m)
         = expected_material_indices (matids d) (length (face_indices d))
             (length (materials d)))
  /\ (forall ids, exists st'',
        build_submesh v (with_matids d ids) search_dir st = (Ok obj, st'')).
Proof.
  intros Hrun.
  pose proof (build_submesh_Ok_indices _ _ _ _ _ _ Hrun) as Hfit.
  apply build_submesh_Ok_inv in Hrun as (Hok & -> & ->).
  destruct st as [fl W]. cbn [bpy file]. split.
  - destruct (built_world_lookup v d W) as [Ho Hm].
    exists (mkObject (submesh_name d) (length (data_meshes W))),
      (built_mesh v d (length (data_materials W))).
    split; [exact Ho|]. split; [exact Hm|].
    apply material_index_built_mesh.
  - intros ids. eexists.
    apply (build_submesh_ok v (with_matids d ids) search_dir fl W).
    + exact Hfit.
    + exact Hok.
Qed.

Lemma X19_material_ids_per_face_witness :
  exists o m,
    data_objects (built_world Blender280 (submesh_data_of "" quad)
                    empty_world) !! 0%nat = Some o
    /\ data_meshes (built_world Blender280 (submesh_data_of "" quad)
                      empty_world) !! ob_data o = Some m
    /\ map material_index (me_polygons m) = [1; 0].
Proof.
  apply (X19_material_ids_per_face Blender280 (submesh_data_of "" quad)
           None (mkState [] empty_world) 0%nat
           (mkState [] (built_world Blender280 (submesh_data_of "" quad)
                          empty_world))).
  vm_compute. reflexivity.
Defined.

(** ** UV layer and custom normals *)

Lemma length_eqb_0 {A} (l : list A) :
  negb (Nat.eqb (length l) 0) = true <-> l <> [].
Proof.
  destruct l; cbn; split; intros H; congruence || discriminate || auto.
Qed.

Lemma uvs_apply_iff d :
  uvs_apply d = true
  <-> uvs d <> [] /\ length (uvs d) = length (vertices d).
Proof.
  unfold uvs_apply.
  rewrite andb_true_iff, length_eqb_0, Nat.eqb_eq. reflexivity.
Qed.

Lemma normals_apply_iff d :
  normals_apply d = true
  <-> normals d <> [] /\ length (normals d) = length (vertices d).
Proof.
  unfold normals_apply.
  rewrite andb_true_iff, length_eqb_0, Nat.eqb_eq. reflexivity.
Qed.

Lemma length_assign_polys_eq nmats ids : forall ps,
  length (assign_polys nmats ids ps) = length ps.
Proof.
  induction ids as [|i ids IH]; intros [|p ps]; cbn [assign_polys length];
    try reflexivity.
  now rewrite IH.
Qed.

(** C6, as stated, fails when both counts are zero: the UVs are as many
    as the vertices, and so are the normals, but the mesh that is built has
    no UV layer and no custom normals. *)
Lemma C6_equal_counts_without_uv_layer :
  exists d st',
    parse_submesh (mkState (encode_submesh no_vertices) empty_world)
    = (Ok d, mkState [] empty_world)
    /\ length (uvs d) = length (vertices d)
    /\ length (normals d) = length (vertices d)
    /\ build_submesh Blender280 d None (mkState [] empty_world)
       = (Ok 0%nat, st')
    /\ map me_uv_layers (data_meshes (bpy st')) = [[]]
    /\ map me_custom_normals (data_meshes (bpy st')) = [None].
Proof.
  do 2 eexists. split; [vm_compute; reflexivity|].
  split; [reflexivity|]. split; [reflexivity|].
  split; [vm_compute; reflexivity|].
  split; reflexivity.
Qed.

(** C6, amended.  The scripts keep no flag; the mesh of every submesh that
    is built has a UV layer exactly when the list of UVs is not empty and has
    the length of the list of vertices, and custom normals exactly when the
    list of normals is not empty and has the length of the list of vertices.
    The vertices and the faces are in the mesh either way.  A UV count that
    differs from the vertex count skips the UV layer and nothing else: the
    submesh is built, or fails, exactly as the same submesh without UVs, and
    it is built, without a UV layer, whenever its face indices fit a C int
    (if one does not, [from_pydata] raises [TypeError], with or without
    UVs). *)
Theorem C6_uv_layer_and_normals v d search_dir st obj st' :
  build_submesh v d search_dir st = (Ok obj, st') ->
  (exists o m,
      data_objects (bpy st') !! obj = Some o
      /\ data_meshes (bpy st') !! ob_data o = Some m
      /\ (me_uv_layers m <> []
          <-> uvs d <> [] /\ length (uvs d) = length (vertices d))
      /\ (me_custom_normals m <> None
          <-> normals d <> [] /\ length (normals d) = length (vertices d))
      /\ me_vertices m = vertices d
      /\ length (me_polygons m) = length (face_indices d))
  /\ (forall d' st0,
        length (uvs d') <> length (vertices d') ->
        build_submesh v d' search_dir st0
        = build_submesh v (without_uvs d') search_dir st0
        /\ (indices_ok d' = true ->
            exists obj' st'',
              build_submesh v d' search_dir st0 = (Ok obj', st'')
              /\ forall o m,
                   data_objects (bpy st'') !! obj' = Some o ->
                   data_meshes (bpy st'') !! ob_data o = Some m ->
                   me_uv_layers m = [])).
Proof.
  intros Hrun.
  apply build_submesh_Ok_inv in Hrun as (Hok & -> & ->).
  destruct st as [fl W]. cbn [bpy file]. split.
  - exists (mkObject (submesh_name d) (length (data_meshes W))),
      (built_mesh v d (length (data_materials W))).
    cbn [built_world data_objects data_meshes ob_data].
    split; [apply list_lookup_middle; reflexivity|].
    split; [apply list_lookup_middle; reflexivity|].
    unfold built_mesh.
    cbn [me_uv_layers me_custom_normals me_vertices me_polygons].
    rewrite <- uvs_apply_iff, <- normals_apply_iff.
    split; [|split; [|split]].
    + destruct (uvs_apply d); split; congruence.
    + destruct (normals_apply d); split; congruence.
    + reflexivity.
    + destruct (matids_apply d), (normals_apply d), v;
        rewrite ?length_assign_polys_eq, ?length_map;
        apply length_polygons_from.
  - intros d' [fl0 W0] Hne.
    assert (Hu : uvs_apply d' = false).
    { destruct (uvs_apply d') eqn:E; [|reflexivity].
      apply uvs_apply_iff in E as [_ E]. contradiction. }
    assert (Hok' : uv_lookups_ok d' = true)
      by (unfold uv_lookups_ok; now rewrite Hu).
    split.
    + rewrite !build_submesh_run. unfold build_result.
      change (indices_ok (without_uvs d')) with (indices_ok d').
      change (uv_lookups_ok (without_uvs d')) with true.
      rewrite Hok'.
      destruct (indices_ok d'); [|reflexivity].
      unfold built_world, built_mesh.
      change (uvs_apply (without_uvs d')) with false.
      rewrite Hu. reflexivity.
    + intros Hfit.
      do 2 eexists. split; [now apply build_submesh_ok|].
      cbn [bpy built_world data_objects data_meshes].
      intros o m Ho Hm.
      rewrite list_lookup_middle in Ho by reflexivity.
      injection Ho as <-. cbn [ob_data] in Hm.
      rewrite list_lookup_middle in Hm by reflexivity.
      injection Hm as <-. unfold built_mesh. cbn [me_uv_layers].
      now rewrite Hu.
Qed.

(** The example of the specification: four vertices and three UVs. *)
Lemma C6_uv_layer_and_normals_witness :
  exists o m,
    data_objects
      (built_world Blender280 (submesh_data_of "" four_vertices_three_uvs)
         empty_world) !! 0%nat = Some o
    /\ data_meshes
         (built_world Blender280 (submesh_data_of "" four_vertices_three_uvs)
            empty_world) !! ob_data o = Some m
    /\ (me_uv_layers m <> []
        <-> st_uvs four_vertices_three_uvs <> [] /\ 3%nat = 4%nat)
    /\ (me_custom_normals m <> None
        <-> st_normals four_vertices_three_uvs <> [] /\ 0%nat = 4%nat)
    /\ me_vertices m = st_vertices four_vertices_three_uvs
    /\ length (me_polygons m) = 2%nat.
Proof.
  apply (C6_uv_layer_and_normals Blender280
           (submesh_data_of "" four_vertices_three_uvs)
           None (mkState [] empty_world) 0%nat
           (mkState []
              (built_world Blender280
                 (submesh_data_of "" four_vertices_three_uvs) empty_world))).
  vm_compute. reflexivity.
Defined.

Example four_vertices_three_uvs_no_layer :
  map me_uv_layers
    (import_skin None
       (encode_file (mkSkinFile 0 [0; 0; 0] [four_vertices_three_uvs]))
       empty_world).2.(data_meshes)
  = [[]].
Proof. vm_compute. reflexivity. Qed.

(** ** Submeshes in file order *)

Lemma built_worlds_cons v d ds W :
  built_worlds v (d :: ds) W = built_worlds v ds (built_world v d W).
Proof. reflexivity. Qed.

Lemma scene_objects_built_worlds v ds : forall W,
  scene_objects (built_worlds v ds W)
  = scene_objects W ++ seq (length (data_objects W)) (length ds).
Proof.
  induction ds as [|d ds IH]; intros W.
  - cbn. now rewrite app_nil_r.
  - rewrite built_worlds_cons, IH.
    cbn [built_world scene_objects data_objects length seq].
    rewrite length_app, <- app_assoc. cbn [length app].
    now rewrite Nat.add_1_r.
Qed.

Lemma data_objects_built_worlds v ds : forall W,
  data_objects (built_worlds v ds W)
  = data_objects W
    ++ zip_with mkObject (map submesh_name ds)
         (seq (length (data_meshes W)) (length ds)).
Proof.
  induction ds as [|d ds IH]; intros W.
  - cbn. now rewrite app_nil_r.
  - rewrite built_worlds_cons, IH.
    cbn [built_world data_objects data_meshes length seq map zip_with].
    rewrite length_app, <- app_assoc. cbn [length app].
    now rewrite Nat.add_1_r.
Qed.

Lemma data_meshes_built_worlds {A} (f : Mesh -> A) (g : submesh_data -> A)
    v ds :
  (forall d base, f (built_mesh v d base) = g d) ->
  forall W,
    map f (data_meshes (built_worlds v ds W))
    = map f (data_meshes W) ++ map g ds.
Proof.
  intros Hfg. induction ds as [|d ds IH]; intros W.
  - cbn. now rewrite app_nil_r.
  - rewrite built_worlds_cons, IH.
    cbn [built_world data_meshes map].
    rewrite map_app, <- app_assoc. cbn [map app]. now rewrite Hfg.
Qed.

Lemma ob_data_built_worlds v ds : forall W,
  map ob_data (data_objects (built_worlds v ds W))
  = map ob_data (data_objects W)
    ++ seq (length (data_meshes W)) (length ds).
Proof.
  induction ds as [|d ds IH]; intros W.
  - cbn. now rewrite app_nil_r.
  - rewrite built_worlds_cons, IH.
    cbn [built_world data_objects data_meshes length seq].
    rewrite map_app, length_app, <- app_assoc. cbn [map length app ob_data].
    now rewrite Nat.add_1_r.
Qed.

Lemma import_ok v default_name search_dir sf W :
  wf_file sf ->
  Forall (fun s => buildable (submesh_data_of default_name s) = true)
         (sf_submeshes sf) ->
  let r := read_file_with
             (d <- parse_submesh_with (read_material_with default_name) ;;
              build_submesh v d search_dir)
             (mkState (encode_file sf) W) in
  (r.1, bpy r.2)
  = (Ok FINISHED,
     built_worlds v (map (submesh_data_of default_name) (sf_submeshes sf)) W).
Proof.
  intros Hwf Hok. cbv zeta. rewrite import_encoded by assumption.
  destruct (build_all_ok v (map (submesh_data_of default_name)
                              (sf_submeshes sf)) W) as [objs Hall].
  { now apply Forall_map. }
  now rewrite Hall.
Qed.

Lemma wf_file_stray : wf_file file_stray.
Proof. solve_wf. Qed.

(** C7, as stated, fails: three well-formed submesh records under a header
    that declares three are not enough.  The second submesh of this file has
    one UV per vertex and a face index beyond them; the lookup of its UV
    raises [IndexError] when its mesh is made, and the import ends with one
    object, that of the first submesh. *)
Lemma C7_well_formed_file_not_imported :
  wf_file file_stray
  /\ length (sf_submeshes file_stray) = 3%nat
  /\ (import_skin None (encode_file file_stray) empty_world).1
     = Raise IndexError
  /\ scene_objects (import_skin None (encode_file file_stray) empty_world).2
     = [0%nat]
  /\ length
       (data_objects (import_skin None (encode_file file_stray) empty_world).2)
     = 1%nat
  /\ (import_skin_279 None (encode_file file_stray) empty_world).1
     = Raise IndexError
  /\ scene_objects
       (import_skin_279 None (encode_file file_stray) empty_world).2
     = [0%nat].
Proof.
  split; [exact wf_file_stray|].
  repeat split; vm_compute; reflexivity.
Qed.

(** C7, amended.  A file whose header declares N submeshes and holds N
    well-formed submesh records, each of which can be built (its face
    indices fit a C int, and have a UV when its UVs are applied), is imported
    whole: the import returns, and it has added exactly N objects to the
    scene, N objects and N meshes to [bpy.data], in the order of the file:
    the k-th new object has the k-th new mesh as its data, and the k-th new
    mesh has the vertices of the k-th submesh. *)
Theorem C7_submeshes_in_file_order search_dir sf W :
  wf_file sf ->
  Forall (fun s => buildable (submesh_data_of "" s) = true)
         (sf_submeshes sf) ->
  exists W',
    import_skin search_dir (encode_file sf) W = (Ok FINISHED, W')
    /\ scene_objects W'
       = scene_objects W
         ++ seq (length (data_objects W)) (length (sf_submeshes sf))
    /\ length (data_objects W')
       = (length (data_objects W) + length (sf_submeshes sf))%nat
    /\ map ob_data (data_objects W')
       = map ob_data (data_objects W)
         ++ seq (length (data_meshes W)) (length (sf_submeshes sf))
    /\ map me_vertices (data_meshes W')
       = map me_vertices (data_meshes W) ++ map st_vertices (sf_submeshes sf)
    /\ (exists W'',
          import_skin_279 search_dir (encode_file sf) W = (Ok FINISHED, W'')
          /\ scene_objects W'' = scene_objects W'
          /\ map ob_data (data_objects W'') = map ob_data (data_objects W')
          /\ map me_vertices (data_meshes W'')
             = map me_vertices (data_meshes W')).
Proof.
  intros Hwf Hok.
  pose proof (import_ok Blender280 "" search_dir sf W Hwf Hok) as H280.
  pose proof (import_ok Blender279 "ImportedMaterial" search_dir sf W Hwf Hok)
    as H279.
  cbv zeta in H280, H279.
  eexists. split; [exact H280|].
  rewrite scene_objects_built_worlds, ob_data_built_worlds.
  rewrite (data_meshes_built_worlds me_vertices vertices)
    by reflexivity.
  rewrite <- (length_map ob_data (data_objects (built_worlds _ _ _))).
  rewrite ob_data_built_worlds.
  rewrite !length_app, !length_seq, !length_map, !map_map.
  cbn [submesh_data_of vertices].
  split; [reflexivity|]. split; [reflexivity|]. split; [reflexivity|].
  split; [reflexivity|].
  eexists. split; [exact H279|].
  rewrite scene_objects_built_worlds, ob_data_built_worlds.
  rewrite (data_meshes_built_worlds me_vertices vertices) by reflexivity.
  rewrite !length_map, !map_map. cbn [submesh_data_of vertices].
  auto.
Qed.

Lemma C7_submeshes_in_file_order_witness :
  exists W',
    import_skin None (encode_file file_two) empty_world = (Ok FINISHED, W')
    /\ scene_objects W' = [0%nat; 1%nat]
    /\ length (data_objects W') = 2%nat
    /\ map ob_data (data_objects W') = [0%nat; 1%nat]
    /\ map me_vertices (data_meshes W')
       = [st_vertices triangle; st_vertices quad]
    /\ (exists W'',
          import_skin_279 None (encode_file file_two) empty_world
          = (Ok FINISHED, W'')
          /\ scene_objects W'' = scene_objects W'
          /\ map ob_data (data_objects W'') = map ob_data (data_objects W')
          /\ map me_vertices (data_meshes W'')
             = map me_vertices (data_meshes W')).
Proof.
  apply (C7_submeshes_in_file_order None file_two empty_world).
  - solve_wf.
  - repeat constructor.
Defined.

(** ** The layout of a material *)

(** C8.  [read_material] reads, whatever the values, color1 and color2
    (two uint32), alpha (a float), color3 and color4 (two uint32), the flag
    (a byte), and then texture1, texture2, texture3 and the material name,
    each as a uint32 length and that many bytes: on the bytes of a
    [material_t] laid out in this order it returns the fields with their
    values and leaves the file just after the record, and a string of
    length zero is the empty string. *)
Theorem C8_read_material_fixed_order m rest W :
  wf_material m ->
  read_material
    (mkState
       (pack fmt_I [mt_color1 m; mt_color2 m]
        ++ pack fmt_f [mt_alpha m]
        ++ pack fmt_I [mt_color3 m; mt_color4 m]
        ++ pack fmt_B [mt_flag m]
        ++ (pack fmt_I [Z.of_nat (length (mt_texture1_name m))]
            ++ mt_texture1_name m)
        ++ (pack fmt_I [Z.of_nat (length (mt_texture2_name m))]
            ++ mt_texture2_name m)
        ++ (pack fmt_I [Z.of_nat (length (mt_texture3_name m))]
            ++ mt_texture3_name m)
        ++ (pack fmt_I [Z.of_nat (length (mt_material_name m))]
            ++ mt_material_name m)
        ++ rest) W)
  = (Ok {| color1 := mt_color1 m;
           color2 := mt_color2 m;
           alpha := mt_alpha m;
           color3 := mt_color3 m;
           color4 := mt_color4 m;
           flag1 := mt_flag m;
           texture1_name :=
             match mt_texture1_name m with
             | [] => ""%string
             | _ :: _ => decode_utf8_ignore (mt_texture1_name m)
             end;
           texture2_name :=
             match mt_texture2_name m with
             | [] => ""%string
             | _ :: _ => decode_utf8_ignore (mt_texture2_name m)
             end;
           texture3_name :=
             match mt_texture3_name m with
             | [] => ""%string
             | _ :: _ => decode_utf8_ignore (mt_texture3_name m)
             end;
           material_name :=
             match mt_material_name m with
             | [] => ""%string
             | _ :: _ => decode_utf8_ignore (mt_material_name m)
             end |},
     mkState rest W).
Proof.
  intros Hwf.
  pose proof (read_material_encoded "" m rest W Hwf) as H.
  unfold encode_material, encode_str in H.
  repeat rewrite <- List.app_assoc in H.
  repeat rewrite <- List.app_assoc. exact H.
Qed.

Lemma C8_read_material_fixed_order_witness :
  read_material (mkState (encode_material unnamed_material) empty_world)
  = (Ok {| color1 := 4294967295; color2 := 16711680; alpha := 1056964608;
           color3 := 255; color4 := 0; flag1 := 1;
           texture1_name := "a.png"; texture2_name := "";
           texture3_name := ""; material_name := "" |},
     mkState [] empty_world).
Proof.
  apply (C8_read_material_fixed_order unnamed_material [] empty_world).
  solve_fits.
Defined.

(** ** Default names *)

Lemma bind_Ok_inv {A B} (m : M A) (k : A -> M B) st b st' :
  bind m k st = (Ok b, st') ->
  exists a st1, m st = (Ok a, st1) /\ k a st1 = (Ok b, st').
Proof.
  unfold bind. destruct (m st) as [[a|e] st1]; [eauto | discriminate].
Qed.





Example empty_submesh_name :
  ob_name <$> (import_skin None (encode_file (mkSkinFile 0 [0; 0; 0]
                                                [no_vertices]))
                 empty_world).2.(data_objects)
  = ["Submesh"%string].
Proof. vm_compute. reflexivity. Qed.

(** ** Decoding depends on the bytes only *)

Lemma steady_independent {A} (p : M A) :
  steady p ->
  forall q W1 W2,
    (p (mkState q W1)).1 = (p (mkState q W2)).1
    /\ file (p (mkState q W1)).2 = file (p (mkState q W2)).2
    /\ bpy (p (mkState q W1)).2 = W1.
Proof.
  intros Hp q W1 W2. destruct (Hp q) as (out & f & Hrun & _).
  rewrite !Hrun. auto.
Qed.

(** C10.  What [read_material] and the reads of [read_submesh] return (the
    name, the vertices, the faces, the UVs, the normals, the materials and
    the material ids, or the exception), and the bytes they leave unread,
    are the same in any two runs on the same bytes, whatever is in Blender
    when they run; and they leave what is in Blender as it is. *)
Theorem C10_decoding_depends_on_bytes_only q W1 W2 :
  ((parse_submesh (mkState q W1)).1 = (parse_submesh (mkState q W2)).1
   /\ file (parse_submesh (mkState q W1)).2
      = file (parse_submesh (mkState q W2)).2
   /\ bpy (parse_submesh (mkState q W1)).2 = W1)
  /\ ((parse_submesh_279 (mkState q W1)).1
      = (parse_submesh_279 (mkState q W2)).1
      /\ file (parse_submesh_279 (mkState q W1)).2
         = file (parse_submesh_279 (mkState q W2)).2
      /\ bpy (parse_submesh_279 (mkState q W1)).2 = W1)
  /\ ((read_material (mkState q W1)).1 = (read_material (mkState q W2)).1
      /\ file (read_material (mkState q W1)).2
         = file (read_material (mkState q W2)).2
      /\ bpy (read_material (mkState q W1)).2 = W1)
  /\ ((read_material_279 (mkState q W1)).1
      = (read_material_279 (mkState q W2)).1
      /\ file (read_material_279 (mkState q W1)).2
         = file (read_material_279 (mkState q W2)).2
      /\ bpy (read_material_279 (mkState q W1)).2 = W1).
Proof.
  split; [|split; [|split]]; apply steady_independent.
  - apply exact_steady, closing_parse_submesh_with, steady_read_material_with.
  - apply exact_steady, closing_parse_submesh_with, steady_read_material_with.
  - apply steady_read_material_with.
  - apply steady_read_material_with.
Qed.

(** The same submesh read with nothing in Blender and after an import. *)
Example parse_after_import :
  (parse_submesh
     (mkState (encode_submesh quad)
        (import_skin None (encode_file file_a) empty_world).2)).1
  = (parse_submesh (mkState (encode_submesh quad) empty_world)).1.
Proof. vm_compute. reflexivity. Qed.

(** ** The reads of a submesh and its layout *)

(** X1.  The reads of [read_submesh] are the inverse of the layout of a
    [submesh_t]: on the bytes of a well-formed submesh, whatever follows
    them, they return the fields of the submesh (the names decoded, the
    floats grouped in vertices, UVs and normals, the face indices grouped)
    and leave the file just after the submesh.  [read_submesh_279] differs
    in the name of a material without a name. *)
Theorem X1_submesh_round_trip s rest W :
  wf_submesh s ->
  parse_submesh (mkState (encode_submesh s ++ rest) W)
  = (Ok {| submesh_name := decoded_name "Submesh" (st_name s);
           vertices := st_vertices s;
           face_indices :=
             group_faces (Z.of_nat (length (st_faces s))) (st_faces s);
           uv_flag := st_uv_flag s;
           uvs := st_uvs s;
           normal_flag := st_normal_flag s;
           normals := st_normals s;
           extra_flag := st_extra_flag s;
           unknown_int3 := st_unknown_int3 s;
           materials := map (material_data_of "") (st_materials s);
           matids := st_matids s;
           unknown_tail := st_unknown_tail s |},
     mkState rest W)
  /\ parse_submesh_279 (mkState (encode_submesh s ++ rest) W)
     = (Ok {| submesh_name := decoded_name "Submesh" (st_name s);
              vertices := st_vertices s;
              face_indices :=
                group_faces (Z.of_nat (length (st_faces s))) (st_faces s);
              uv_flag := st_uv_flag s;
              uvs := st_uvs s;
              normal_flag := st_normal_flag s;
              normals := st_normals s;
              extra_flag := st_extra_flag s;
              unknown_int3 := st_unknown_int3 s;
              materials :=
                map (material_data_of "ImportedMaterial") (st_materials s);
              matids := st_matids s;
              unknown_tail := st_unknown_tail s |},
        mkState rest W).
Proof.
  intros Hwf. split.
  - apply (parse_submesh_encoded "" s rest W Hwf).
  - apply (parse_submesh_encoded "ImportedMaterial" s rest W Hwf).
Qed.

Lemma X1_submesh_round_trip_witness :
  parse_submesh
    (mkState (encode_submesh quad ++ encode_submesh triangle) empty_world)
  = (Ok (submesh_data_of "" quad),
     mkState (encode_submesh triangle) empty_world).
Proof.
  apply (X1_submesh_round_trip quad (encode_submesh triangle) empty_world).
  solve_wf.
Defined.

(** X2.  A successful run of the reads of [read_submesh] does not depend
    on the bytes after those it has read: with any bytes added at the end of
    the file it returns the same and leaves the same bytes, followed by the
    added ones.  ([read_material] alone does not have this property: its
    last string may come up short at the end of the file.) *)
Theorem X2_submesh_reads_ignore_later_bytes q W d st' r W' :
  parse_submesh (mkState q W) = (Ok d, st') ->
  parse_submesh (mkState (q ++ r) W') = (Ok d, mkState (file st' ++ r) W')
  /\ (forall d279 st279,
        parse_submesh_279 (mkState q W) = (Ok d279, st279) ->
        parse_submesh_279 (mkState (q ++ r) W')
        = (Ok d279, mkState (file st279 ++ r) W')).
Proof.
  intros Hrun. split.
  - destruct (closing_parse_submesh_with read_material
                (steady_read_material_with "")) as [[_ He] _].
    now apply (He q W).
  - intros d279 st279 Hrun279.
    destruct (closing_parse_submesh_with read_material_279
                (steady_read_material_with "ImportedMaterial"))
      as [[_ He] _].
    now apply (He q W).
Qed.

Lemma X2_submesh_reads_ignore_later_bytes_witness :
  parse_submesh
    (mkState (encode_submesh quad ++ [x01; x02; x03]) empty_world)
  = (Ok (submesh_data_of "" quad), mkState ([] ++ [x01; x02; x03]) empty_world).
Proof.
  refine (proj1 (X2_submesh_reads_ignore_later_bytes (encode_submesh quad)
                   empty_world (submesh_data_of "" quad)
                   (mkState [] empty_world) [x01; x02; x03] empty_world _)).
  vm_compute. reflexivity.
Defined.

(** ** What a successful read has read *)

Lemma byte_of_byte_val b : byte_of (byte_val b) = b.
Proof. destruct b; reflexivity. Qed.

Lemma byte_of_add x y : byte_of (x + 256 * y) = byte_of x.
Proof.
  unfold byte_of. rewrite (Z.mul_comm 256 y), Z_mod_plus_full. reflexivity.
Qed.

Lemma Z_to_le_le_to_Z bs : Z_to_le (length bs) (le_to_Z bs) = bs.
Proof.
  induction bs as [|b bs IH]; [reflexivity|].
  cbn [length Z_to_le le_to_Z].
  rewrite byte_of_add, byte_of_byte_val. f_equal.
  rewrite (Z.mul_comm 256), Z.div_add by lia.
  rewrite Z.div_small by apply byte_val_range.
  exact IH.
Qed.

Lemma le_to_Z_bound bs : 0 <= le_to_Z bs < 256 ^ Z.of_nat (length bs).
Proof.
  induction bs as [|b bs IH]; cbn [length le_to_Z]; [simpl; lia|].
  rewrite Nat2Z.inj_succ, Z.pow_succ_r by lia.
  pose proof (byte_val_range b). lia.
Qed.

Lemma chunks_fuel_cut w : (0 < w)%nat -> forall n fuel data,
  length data = (w * n)%nat -> (n <= fuel)%nat ->
  concat (chunks_fuel fuel w data) = data
  /\ Forall (fun c => length c = w) (chunks_fuel fuel w data)
  /\ length (chunks_fuel fuel w data) = n.
Proof.
  intros Hw n. induction n as [|n IH]; intros fuel data Hlen Hfuel.
  - rewrite Nat.mul_0_r in Hlen. apply nil_length_inv in Hlen. subst data.
    destruct fuel; simpl; repeat split; constructor.
  - destruct fuel as [|fuel]; [lia|].
    destruct data as [|b data]; [simpl in Hlen; lia|].
    cbn [chunks_fuel].
    destruct (IH fuel (drop w (b :: data))) as (Hc & Hf & Hl).
    + rewrite length_drop, Hlen. lia.
    + lia.
    + cbn [concat length]. rewrite Hc, Hl, take_drop. repeat split.
      constructor; [|exact Hf].
      rewrite length_take, Hlen. lia.
Qed.

Lemma pack_le_to_Z c cs :
  Forall (fun ch => length ch = calcsize c) cs ->
  pack c (map le_to_Z cs) = concat cs
  /\ Forall (fits c) (map le_to_Z cs).
Proof.
  induction 1 as [|ch cs Hch _ [IH1 IH2]]; [split; constructor|].
  unfold pack in *. cbn [map flat_map concat]. split.
  - rewrite IH1, <- Hch, Z_to_le_le_to_Z. reflexivity.
  - constructor; [|exact IH2].
    unfold fits. rewrite <- Hch. apply le_to_Z_bound.
Qed.

(** What a successful [struct.unpack(fmt, f.read(size))] has read. *)
Lemma read_unpack_Ok_inv c count q W vs st' :
  0 <= count ->
  read_unpack c count (mkState q W) = (Ok vs, st') ->
  q = pack c vs ++ file st'
  /\ Z.of_nat (length vs) = count
  /\ Forall (fits c) vs
  /\ bpy st' = W.
Proof.
  intros Hc. unfold read_unpack, bind, f_read, unpack. cbn [file bpy].
  set (n := Z.to_nat (count * Z.of_nat (calcsize c))).
  destruct (Z.of_nat (length (take n q)) =? Z.of_nat (calcsize c) * count)
    eqn:E; [|discriminate].
  unfold ret. intros [= <- <-]. cbn [file bpy].
  apply Z.eqb_eq in E.
  assert (Hsz : (0 < calcsize c)%nat) by (destruct c; simpl; lia).
  destruct (chunks_fuel_cut (calcsize c) Hsz (Z.to_nat count)
              (length (take n q)) (take n q)) as (Hcat & Hall & Hlen).
  - nia.
  - nia.
  - fold (chunks (calcsize c) (take n q)) in Hcat, Hall, Hlen.
    destruct (pack_le_to_Z c _ Hall) as [Hp Hf].
    rewrite Hp, Hcat, take_drop, length_map, Hlen.
    repeat split; [lia | exact Hf].
Qed.

(** What a successful read of a string has read, when the file goes on
    after it. *)
Lemma read_str_Ok_inv n default q W s st' :
  0 <= n ->
  read_str n default (mkState q W) = (Ok s, st') ->
  file st' <> [] ->
  exists bs,
    q = bs ++ file st' /\ Z.of_nat (length bs) = n
    /\ s = decoded_name default bs /\ bpy st' = W.
Proof.
  intros Hn. unfold read_str. destruct (0 <? n) eqn:E.
  - apply Z.ltb_lt in E.
    unfold bind, f_read, ret. cbn [file bpy]. intros [= <- <-].
    cbn [file bpy]. intros Hne.
    exists (take (Z.to_nat n) q). rewrite take_drop.
    assert (Hd : length (drop (Z.to_nat n) q) <> 0%nat)
      by (intros H0; apply nil_length_inv in H0; contradiction).
    rewrite length_drop in Hd.
    assert (Hl : length (take (Z.to_nat n) q) = Z.to_nat n)
      by (rewrite length_take; lia).
    repeat split; [lia|].
    destruct (take (Z.to_nat n) q); [simpl in Hl; lia | reflexivity].
  - apply Z.ltb_ge in E. unfold ret. intros [= <- <-] _.
    exists []. cbn [file bpy length app decoded_name]. repeat split. lia.
Qed.

Ltac inv_bind H x f w Hx :=
  apply bind_Ok_inv in H; destruct H as (x & [f w] & Hx & H).

(** Inverts the read of fixed-width fields at the head of [H]. *)
Ltac inv_fixed H x f w Hl Hf :=
  let Hx := fresh "Hx" in
  let Hq := fresh "Hq" in
  let Hw := fresh "Hw" in
  inv_bind H x f w Hx;
  apply read_unpack_Ok_inv in Hx; [|lia];
  destruct Hx as (Hq & Hl & Hf & Hw);
  cbn [file bpy] in Hq, Hw; subst.

Lemma length_1_inv {A} (l : list A) :
  Z.of_nat (length l) = 1 -> exists a, l = [a].
Proof. destruct l as [|a [|]]; simpl; intros; try lia. now exists a. Qed.

Lemma length_2_inv {A} (l : list A) :
  Z.of_nat (length l) = 2 -> exists a b, l = [a; b].
Proof.
  destruct l as [|a [|b [|]]]; simpl; intros; try lia. now exists a, b.
Qed.

Lemma pack_nonempty c vs rest :
  0 < Z.of_nat (length vs) -> pack c vs ++ rest <> [].
Proof. destruct vs; [simpl; lia|]. destruct c; discriminate. Qed.

Lemma fits_nonneg c n : Forall (fits c) [n] -> 0 <= n.
Proof. intros H. inversion H. unfold fits in *. lia. Qed.

Lemma fits_1 c n : Forall (fits c) [n] -> fits c n.
Proof. intros H. now inversion H. Qed.

Lemma fits_2 c n m : Forall (fits c) [n; m] -> fits c n /\ fits c m.
Proof. intros H. inversion H as [|? ? ? H']. inversion H'. now split. Qed.

(** Inverts the read of a string at the head of [H], which a read of
    fixed-width fields follows. *)
Ltac inv_str H b Hb x f w Hl Hf :=
  let t := fresh "t" in
  let f0 := fresh "f" in
  let w0 := fresh "w" in
  let Ht := fresh "Ht" in
  let Hx := fresh "Hx" in
  let Hq := fresh "Hq" in
  let Hw := fresh "Hw" in
  inv_bind H t f0 w0 Ht;
  inv_bind H x f w Hx;
  apply read_unpack_Ok_inv in Hx; [|lia];
  destruct Hx as (Hq & Hl & Hf & Hw);
  cbn [file bpy] in Hq, Hw; subst f0 w;
  apply read_str_Ok_inv in Ht;
    [ | cbn [item nth]; eauto using fits_nonneg
      | cbn [file]; apply pack_nonempty; lia ];
  destruct Ht as (b & Hq & Hb & -> & Hw);
  cbn [file bpy item nth] in Hq, Hw, Hb; subst.

(** Every run of [read_material] that returns before the end of the file
    has read a [material_t]. *)
Lemma read_material_Ok_inv default_name q W md st' :
  read_material_with default_name (mkState q W) = (Ok md, st') ->
  file st' <> [] ->
  exists m,
    wf_material m
    /\ q = encode_material m ++ file st'
    /\ md = material_data_of default_name m
    /\ bpy st' = W.
Proof.
  intros H Hne. unfold read_material_with in H.
  inv_fixed H c12 f1 w1 Hl Hc12. apply length_2_inv in Hl as (c1 & c2 & ->).
  inv_fixed H al f2 w2 Hl Hal. apply length_1_inv in Hl as (a & ->).
  inv_fixed H c34 f3 w3 Hl Hc34. apply length_2_inv in Hl as (c3 & c4 & ->).
  inv_fixed H fl f4 w4 Hl Hfl. apply length_1_inv in Hl as (fg & ->).
  inv_fixed H l1 f5 w5 Hl Hn1. apply length_1_inv in Hl as (n1 & ->).
  inv_str H b1 Hb1 l2 f6 w6 Hl Hn2. apply length_1_inv in Hl as (n2 & ->).
  inv_str H b2 Hb2 l3 f7 w7 Hl Hn3. apply length_1_inv in Hl as (n3 & ->).
  inv_str H b3 Hb3 l4 f8 w8 Hl Hn4. apply length_1_inv in Hl as (n4 & ->).
  inv_bind H t4 f9 w9 Ht4.
  unfold ret in H. injection H as <- <-. cbn [file bpy] in Hne.
  apply read_str_Ok_inv in Ht4 as (b4 & Hq4 & Hb4 & -> & Hw4);
    [ | cbn [item nth]; eauto using fits_nonneg | exact Hne ].
  cbn [file bpy item nth] in Hq4, Hw4, Hb4. subst.
  exists {| mt_color1 := c1; mt_color2 := c2; mt_alpha := a;
            mt_color3 := c3; mt_color4 := c4; mt_flag := fg;
            mt_texture1_name := b1; mt_texture2_name := b2;
            mt_texture3_name := b3; mt_material_name := b4 |}.
  apply fits_2 in Hc12 as [? ?]. apply fits_2 in Hc34 as [? ?].
  apply fits_1 in Hal, Hfl, Hn1, Hn2, Hn3, Hn4.
  split; [|split; [|split]].
  - constructor; cbn; unfold wf_str; assumption.
  - unfold encode_material, encode_str.
    cbn [mt_color1 mt_color2 mt_alpha mt_color3 mt_color4 mt_flag
         mt_texture1_name mt_texture2_name mt_texture3_name
         mt_material_name file].
    repeat rewrite <- List.app_assoc. reflexivity.
  - reflexivity.
  - reflexivity.
Qed.

Lemma repeatM_material_Ok_inv default_name n : forall q W mds st',
  repeatM n (read_material_with default_name) (mkState q W) = (Ok mds, st') ->
  file st' <> [] ->
  exists ms,
    length ms = n
    /\ Forall wf_material ms
    /\ q = flat_map encode_material ms ++ file st'
    /\ mds = map (material_data_of default_name) ms
    /\ bpy st' = W.
Proof.
  induction n as [|n IH]; intros q W mds st' H Hne.
  - injection H as <- <-. exists []. repeat split. constructor.
  - cbn [repeatM] in H.
    inv_bind H md f1 w1 Hmd. inv_bind H xs f2 w2 Hxs.
    injection H as <- <-.
    destruct (IH _ _ _ _ Hxs Hne) as (ms & Hlen & Hwf & Hq & -> & Hw).
    cbn [file bpy] in Hq, Hw, Hne. subst f1 w2.
    apply read_material_Ok_inv in Hmd as (m & Hm & -> & -> & Hw).
    + cbn [file bpy] in Hw. subst w1.
      exists (m :: ms). cbn [length flat_map map file bpy].
      rewrite <- List.app_assoc.
      repeat split; [congruence | now constructor].
    + cbn [file]. intros E. apply app_eq_nil in E as [_ E]. contradiction.
Qed.

Lemma flatten3_cut k : forall vals,
  length vals = (k * 3)%nat ->
  exists vs : list vec3, vals = flatten3 vs /\ length vs = k.
Proof.
  induction k as [|k IH]; intros vals Hlen.
  - apply nil_length_inv in Hlen. subst. now exists [].
  - destruct vals as [|a [|b [|c vals]]]; simpl in Hlen; try lia.
    destruct (IH vals) as (vs & -> & Hk); [lia|].
    exists ((a, b, c) :: vs). split; [reflexivity | simpl; lia].
Qed.

Lemma flatten2_cut k : forall vals,
  length vals = (k * 2)%nat ->
  exists vs : list vec2, vals = flatten2 vs /\ length vs = k.
Proof.
  induction k as [|k IH]; intros vals Hlen.
  - apply nil_length_inv in Hlen. subst. now exists [].
  - destruct vals as [|a [|b vals]]; simpl in Hlen; try lia.
    destruct (IH vals) as (vs & -> & Hk); [lia|].
    exists ((a, b) :: vs). split; [reflexivity | simpl; lia].
Qed.

(** What a successful read of an array of [n] vectors has read. *)
Lemma triples_Ok_inv n q W res st' :
  0 <= n ->
  (if 0 <? n
   then d <- read_unpack fmt_f (n * 3) ;; ret (triples n d)
   else ret []) (mkState q W) = (Ok res, st') ->
  q = pack fmt_f (flatten3 res) ++ file st'
  /\ Z.of_nat (length res) = n
  /\ Forall (fits fmt_f) (flatten3 res)
  /\ bpy st' = W.
Proof.
  intros Hn H. destruct (0 <? n) eqn:E.
  - inv_fixed H d f w Hl Hf. injection H as <- <-. cbn [file bpy].
    destruct (flatten3_cut (Z.to_nat n) d) as (vs & -> & Hk); [lia|].
    replace n with (Z.of_nat (length vs)) by lia.
    rewrite triples_flatten3. repeat split. exact Hf.
  - apply Z.ltb_ge in E. injection H as <- <-.
    repeat split; [simpl; lia | constructor].
Qed.

Lemma pairs_Ok_inv n q W res st' :
  0 <= n ->
  (if 0 <? n
   then d <- read_unpack fmt_f (n * 2) ;; ret (pairs n d)
   else ret []) (mkState q W) = (Ok res, st') ->
  q = pack fmt_f (flatten2 res) ++ file st'
  /\ Z.of_nat (length res) = n
  /\ Forall (fits fmt_f) (flatten2 res)
  /\ bpy st' = W.
Proof.
  intros Hn H. destruct (0 <? n) eqn:E.
  - inv_fixed H d f w Hl Hf. injection H as <- <-. cbn [file bpy].
    destruct (flatten2_cut (Z.to_nat n) d) as (vs & -> & Hk); [lia|].
    replace n with (Z.of_nat (length vs)) by lia.
    rewrite pairs_flatten2. repeat split. exact Hf.
  - apply Z.ltb_ge in E. injection H as <- <-.
    repeat split; [simpl; lia | constructor].
Qed.

Lemma faces_Ok_inv n q W res st' :
  0 <= n ->
  (if 0 <? n
   then raw <- read_unpack fmt_I n ;; ret (group_faces n raw)
   else ret []) (mkState q W) = (Ok res, st') ->
  exists raw,
    q = pack fmt_I raw ++ file st'
    /\ Z.of_nat (length raw) = n
    /\ Forall (fits fmt_I) raw
    /\ res = group_faces (Z.of_nat (length raw)) raw
    /\ bpy st' = W.
Proof.
  intros Hn H. destruct (0 <? n) eqn:E.
  - inv_fixed H raw f w Hl Hf. injection H as <- <-. cbn [file bpy].
    exists raw. repeat split. exact Hf.
  - apply Z.ltb_ge in E. injection H as <- <-.
    exists []. repeat split; [simpl; lia | constructor].
Qed.

Lemma matids_Ok_inv n q W res st' :
  0 <= n ->
  (if 0 <? n then read_unpack fmt_H n else ret []) (mkState q W)
  = (Ok res, st') ->
  q = pack fmt_H res ++ file st'
  /\ Z.of_nat (length res) = n
  /\ Forall (fits fmt_H) res
  /\ bpy st' = W.
Proof.
  intros Hn H. destruct (0 <? n) eqn:E.
  - now apply read_unpack_Ok_inv in H.
  - apply Z.ltb_ge in E. injection H as <- <-.
    repeat split; [simpl; lia | constructor].
Qed.

(** Inverts the read at the head of [H] with the lemma [L]. *)
Ltac inv_with L H x f w Hl Hf :=
  let Hx := fresh "Hx" in
  let Hq := fresh "Hq" in
  let Hw := fresh "Hw" in
  inv_bind H x f w Hx;
  apply L in Hx; [|cbn [item nth]; eauto using fits_nonneg];
  destruct Hx as (Hq & Hl & Hf & Hw);
  cbn [file bpy item nth] in Hq, Hw, Hl; subst.

(** Every run of the reads of [read_submesh] that returns has read a
    well-formed [submesh_t], and returns its fields. *)
Lemma parse_submesh_Ok_inv default_name q W d st' :
  parse_submesh_with (read_material_with default_name) (mkState q W)
  = (Ok d, st') ->
  exists s,
    wf_submesh s
    /\ q = encode_submesh s ++ file st'
    /\ d = submesh_data_of default_name s
    /\ bpy st' = W.
Proof.
  intros H. unfold parse_submesh_with in H.
  inv_fixed H l0 f0 w0 Hl Hn0. apply length_1_inv in Hl as (n0 & ->).
  inv_str H nm Hnm vc f1 w1 Hl Hvc. apply length_1_inv in Hl as (nv & ->).
  inv_with triples_Ok_inv H vs f2 w2 Hvs Hfvs.
  inv_fixed H fc f3 w3 Hl Hfc. apply length_1_inv in Hl as (nf & ->).
  inv_bind H faces f4 w4 Hfaces.
  apply faces_Ok_inv in Hfaces; [|cbn [item nth]; eauto using fits_nonneg].
  destruct Hfaces as (raw & Hq & Hraw & Hfraw & -> & Hw).
  cbn [file bpy item nth] in Hq, Hw, Hraw. subst.
  inv_fixed H uf f5 w5 Hl Huf. apply length_1_inv in Hl as (uvf & ->).
  inv_fixed H uc f6 w6 Hl Huc. apply length_1_inv in Hl as (nu & ->).
  inv_with pairs_Ok_inv H us f7 w7 Hus Hfus.
  inv_fixed H nfl f8 w8 Hl Hnf. apply length_1_inv in Hl as (nof & ->).
  inv_fixed H nc f9 w9 Hl Hnc. apply length_1_inv in Hl as (nn & ->).
  inv_with triples_Ok_inv H ns f10 w10 Hns Hfns.
  inv_fixed H ef f11 w11 Hl Hef. apply length_1_inv in Hl as (exf & ->).
  inv_fixed H u3 f12 w12 Hl Hu3. apply length_1_inv in Hl as (unk & ->).
  inv_fixed H mc f13 w13 Hl Hmc. apply length_1_inv in Hl as (nm' & ->).
  inv_bind H mds f14 w14 Hmds.
  inv_fixed H ic f15 w15 Hl Hic. apply length_1_inv in Hl as (ni & ->).
  apply repeatM_material_Ok_inv in Hmds;
    [|cbn [file]; apply pack_nonempty; simpl; lia].
  destruct Hmds as (ms & Hms & Hwfms & Hq & -> & Hw).
  cbn [file bpy item nth] in Hq, Hw, Hms. subst.
  inv_with matids_Ok_inv H ids f16 w16 Hids Hfids.
  inv_fixed H tail4 f17 w17 Hl Htl.
  injection H as <- <-. cbn [file bpy].
  exists {| st_name := nm; st_vertices := vs; st_faces := raw;
            st_uv_flag := uvf; st_uvs := us; st_normal_flag := nof;
            st_normals := ns; st_extra_flag := exf; st_unknown_int3 := unk;
            st_materials := ms; st_matids := ids; st_unknown_tail := tail4 |}.
  apply fits_1 in Hn0, Hvc, Hfc, Huf, Huc, Hnf, Hnc, Hef, Hu3, Hmc, Hic.
  assert (Hnm : nm' = Z.of_nat (length ms)) by (unfold fits in Hmc; lia).
  subst nm'. clear Hms.
  split; [|split; [|split]].
  - constructor; cbn; unfold wf_str; try assumption. lia.
  - unfold encode_submesh, encode_str.
    cbn [st_name st_vertices st_faces st_uv_flag st_uvs st_normal_flag
         st_normals st_extra_flag st_unknown_int3 st_materials st_matids
         st_unknown_tail].
    repeat rewrite <- List.app_assoc. reflexivity.
  - reflexivity.
  - reflexivity.
Qed.

(** ** Accepted bytes *)

Lemma concat_group_from (raw : list Z) m : forall a,
  concat (map (fun i => take 3 (drop i raw))
              (map (fun k => 3 * k)%nat (seq a m)))
  = take (3 * m) (drop (3 * a) raw).
Proof.
  induction m as [|m IH]; intros a; [reflexivity|].
  cbn [seq map concat]. rewrite IH.
  replace (3 * S m)%nat with (3 + 3 * m)%nat by lia.
  replace (3 * S a)%nat with (3 * a + 3)%nat by lia.
  rewrite <- drop_drop. apply take_take_drop.
Qed.

(** Grouping loses no index and keeps their order. *)
Lemma concat_group_faces raw :
  concat (group_faces (Z.of_nat (length raw)) raw) = raw.
Proof.
  unfold group_faces, range3. rewrite concat_group_from.
  cbn [Nat.mul drop]. apply take_ge.
  pose proof (Z.mul_div_le (Z.of_nat (length raw) + 2) 3).
  pose proof (Z.mod_pos_bound (Z.of_nat (length raw) + 2) 3).
  pose proof (Z.div_mod (Z.of_nat (length raw) + 2) 3).
  pose proof (Z.div_pos (Z.of_nat (length raw) + 2) 3).
  lia.
Qed.

Lemma length_encode_material m :
  length (encode_material m)
  = (37 + length (mt_texture1_name m) + length (mt_texture2_name m)
     + length (mt_texture3_name m) + length (mt_material_name m))%nat.
Proof.
  unfold encode_material, encode_str.
  repeat rewrite length_app. repeat rewrite length_pack.
  cbn [calcsize length]. lia.
Qed.

Lemma length_encode_materials ms :
  (37 * length ms <= length (flat_map encode_material ms))%nat.
Proof.
  induction ms as [|m ms IH]; [simpl; lia|].
  cbn [flat_map length]. rewrite length_app, length_encode_material. lia.
Qed.

Lemma length_encode_submesh s :
  length (encode_submesh s)
  = (35 + length (st_name s) + 12 * length (st_vertices s)
     + 4 * length (st_faces s) + 8 * length (st_uvs s)
     + 12 * length (st_normals s)
     + length (flat_map encode_material (st_materials s))
     + 2 * length (st_matids s)
     + 4 * length (st_unknown_tail s))%nat.
Proof.
  unfold encode_submesh, encode_str.
  repeat rewrite length_app. repeat rewrite length_pack.
  rewrite !length_flatten3, length_flatten2.
  cbn [calcsize length]. lia.
Qed.

(** X3.  The reads of [read_submesh] accept nothing but submeshes: when
    they return, the bytes they have read are the layout of a [submesh_t]
    whose every field has a value of its type, the result holds the fields of
    that submesh, and Blender is as it was.  The same holds of
    [read_submesh_279]. *)
Theorem X3_accepted_bytes_are_a_submesh q W d st' :
  parse_submesh (mkState q W) = (Ok d, st') ->
  (exists s,
      wf_submesh s
      /\ q = encode_submesh s ++ file st'
      /\ d = submesh_data_of "" s
      /\ bpy st' = W)
  /\ (forall d279 st279,
        parse_submesh_279 (mkState q W) = (Ok d279, st279) ->
        exists s,
          wf_submesh s
          /\ q = encode_submesh s ++ file st279
          /\ d279 = submesh_data_of "ImportedMaterial" s
          /\ bpy st279 = W).
Proof.
  intros H. split.
  - exact (parse_submesh_Ok_inv "" q W d st' H).
  - intros d279 st279 H279.
    exact (parse_submesh_Ok_inv "ImportedMaterial" q W d279 st279 H279).
Qed.

Lemma X3_accepted_bytes_are_a_submesh_witness :
  exists s,
    wf_submesh s
    /\ encode_submesh quad ++ [x01; x02]
       = encode_submesh s ++ file (mkState [x01; x02] empty_world)
    /\ submesh_data_of "" quad = submesh_data_of "" s
    /\ bpy (mkState [x01; x02] empty_world) = empty_world.
Proof.
  refine (proj1 (X3_accepted_bytes_are_a_submesh
                   (encode_submesh quad ++ [x01; x02]) empty_world
                   (submesh_data_of "" quad)
                   (mkState [x01; x02] empty_world) _)).
  vm_compute. reflexivity.
Defined.

(** X4.  What the reads of [read_submesh] return is bounded by the bytes
    they have read: 51 bytes of fixed fields, 12 for every vertex and every
    normal, 8 for every UV, 4 for every face index, 2 for every material id
    and at least 37 for every material.  No count of a file makes them return
    more data than the file holds. *)
Theorem X4_result_bounded_by_bytes_read q W d st' :
  parse_submesh (mkState q W) = (Ok d, st') ->
  (length (file st') + 51
   + 12 * length (vertices d) + 4 * length (concat (face_indices d))
   + 8 * length (uvs d) + 12 * length (normals d)
   + 37 * length (materials d) + 2 * length (matids d)
   <= length q)%nat.
Proof.
  intros H.
  apply parse_submesh_Ok_inv in H as (s & Hwf & -> & -> & _).
  rewrite length_app, length_encode_submesh.
  cbn [submesh_data_of vertices face_indices uvs normals materials matids].
  rewrite concat_group_faces, length_map.
  pose proof (length_encode_materials (st_materials s)).
  pose proof (wf_tail_count s Hwf). lia.
Qed.

Lemma X4_result_bounded_by_bytes_read_witness :
  (length (file (mkState [x01; x02] empty_world)) + 51
   + 12 * length (vertices (submesh_data_of "" quad))
   + 4 * length (concat (face_indices (submesh_data_of "" quad)))
   + 8 * length (uvs (submesh_data_of "" quad))
   + 12 * length (normals (submesh_data_of "" quad))
   + 37 * length (materials (submesh_data_of "" quad))
   + 2 * length (matids (submesh_data_of "" quad))
   <= length (encode_submesh quad ++ [x01; x02]))%nat.
Proof.
  refine (X4_result_bounded_by_bytes_read
            (encode_submesh quad ++ [x01; x02]) empty_world
            (submesh_data_of "" quad)
            (mkState [x01; x02] empty_world) _).
  vm_compute. reflexivity.
Defined.

(** ** Whole files and short files *)

Section WholeFile.
Variables (v : version) (default_name : string)
          (search_dir : option string).

Local Abbreviation read_sub :=
  (d <- parse_submesh_with (read_material_with default_name) ;;
   build_submesh v d search_dir).

Local Abbreviation can_build :=
  (fun s => buildable (submesh_data_of default_name s) = true).

Local Abbreviation worlds_of sms W :=
  (built_worlds v (map (submesh_data_of default_name) sms) W).




Lemma length_3_inv {A} (l : list A) :
  Z.of_nat (length l) = 3 -> length l = 3%nat.
Proof. lia. Qed.



(** A read of fixed-width fields either finds its bytes or fails at the
    end of the file. *)
Lemma read_unpack_cases c count q W :
  0 <= count ->
  (exists vs,
      read_unpack c count (mkState q W)
      = (Ok vs, mkState (drop (Z.to_nat (count * Z.of_nat (calcsize c))) q) W)
      /\ count * Z.of_nat (calcsize c) <= Z.of_nat (length q))
  \/ (read_unpack c count (mkState q W) = (Raise struct_error, mkState [] W)
      /\ Z.of_nat (length q) < count * Z.of_nat (calcsize c)).
Proof.
  intros Hc.
  destruct (Z_lt_le_dec (Z.of_nat (length q))
              (count * Z.of_nat (calcsize c))) as [Hlt|Hle].
  - right. split; [now apply read_unpack_short | exact Hlt].
  - left. eexists. split; [now apply read_unpack_full | exact Hle].
Qed.

Lemma read_file_short q W :
  (length q < 17)%nat ->
  read_file_with read_sub (mkState q W) = (Raise struct_error, mkState [] W).
Proof.
  intros Hlen. unfold read_file_with.
  destruct (read_unpack_cases fmt_B 1 q W ltac:(lia))
    as [(hb & H1 & L1)|[H1 _]]; [|now apply bind_raise].
  rewrite (bind_ok _ _ _ _ _ H1).
  destruct (read_unpack_cases fmt_I 3
              (drop (Z.to_nat (1 * Z.of_nat (calcsize fmt_B))) q) W
              ltac:(lia))
    as [(hv & H2 & L2)|[H2 _]]; [|now apply bind_raise].
  rewrite (bind_ok _ _ _ _ _ H2).
  destruct (read_unpack_cases fmt_I 1
              (drop (Z.to_nat (3 * Z.of_nat (calcsize fmt_I)))
                 (drop (Z.to_nat (1 * Z.of_nat (calcsize fmt_B))) q)) W
              ltac:(lia))
    as [(sc & H3 & L3)|[H3 _]]; [|now apply bind_raise].
  exfalso. repeat rewrite length_drop in L3. cbn [calcsize] in L3. lia.
Qed.

End WholeFile.


(** X6.  A file of fewer than 17 bytes, so also an empty file, has no
    whole header: the import raises [struct.error] and leaves Blender as it
    was. *)
Theorem X6_short_file_raises search_dir contents W :
  (length contents < 17)%nat ->
  import_skin search_dir contents W = (Raise struct_error, W)
  /\ import_skin_279 search_dir contents W = (Raise struct_error, W).
Proof.
  intros Hlen. unfold import_skin, import_skin_279, read_file,
    read_skin_file_279, read_submesh, read_submesh_279, parse_submesh,
    parse_submesh_279, read_material, read_material_279.
  cbv zeta.
  rewrite (read_file_short Blender280 "" search_dir contents W Hlen).
  rewrite (read_file_short Blender279 "ImportedMaterial" search_dir
             contents W Hlen).
  split; reflexivity.
Qed.

Lemma X6_short_file_raises_witness :
  import_skin None [x01; x00; x00; x00; x00] empty_world
  = (Raise struct_error, empty_world)
  /\ import_skin_279 None [x01; x00; x00; x00; x00] empty_world
     = (Raise struct_error, empty_world).
Proof.
  refine (X6_short_file_raises None [x01; x00; x00; x00; x00] empty_world _).
  simpl. lia.
Defined.

(** ** Face indices without a UV *)

Lemma uv_step_fields layer uv_list i m m' :
  uv_step layer uv_list i m = Some m' ->
  (me_name m', me_vertices m', me_loops m', me_polygons m',
   me_custom_normals m', me_use_auto_smooth m', me_materials m')
  = (me_name m, me_vertices m, me_loops m, me_polygons m,
     me_custom_normals m, me_use_auto_smooth m, me_materials m).
Proof.
  unfold uv_step.
  destruct (py_lookup (me_loops m) (Z.of_nat i)); [|discriminate].
  destruct (py_lookup uv_list z); [|discriminate].
  intros [= <-]. reflexivity.
Qed.

(** The loop that copies the UVs changes nothing but the UV layer. *)
Lemma run_steps_uv_fields layer uv_list xs : forall m,
  let m' := (run_steps (uv_step layer uv_list) xs m).1 in
  (me_name m', me_vertices m', me_loops m', me_polygons m',
   me_custom_normals m', me_use_auto_smooth m', me_materials m')
  = (me_name m, me_vertices m, me_loops m, me_polygons m,
     me_custom_normals m, me_use_auto_smooth m, me_materials m).
Proof.
  induction xs as [|x xs IH]; intros m; [reflexivity|].
  cbn [run_steps].
  destruct (uv_step layer uv_list x m) as [m1|] eqn:E; [|reflexivity].
  cbv zeta in *. rewrite IH. now apply uv_step_fields in E.
Qed.

Lemma py_lookup_beyond {A} (l : list A) (i : Z) :
  Z.of_nat (length l) <= i -> py_lookup l i = None.
Proof.
  intros Hi. unfold py_lookup.
  destruct (i <? 0) eqn:E; [apply Z.ltb_lt in E; lia|].
  rewrite E. apply lookup_ge_None_2. lia.
Qed.

Lemma lookups_ok_In uv_list loops vi :
  lookups_ok uv_list loops = true -> In vi loops ->
  exists uv, py_lookup uv_list vi = Some uv.
Proof.
  unfold lookups_ok. rewrite forallb_forall. intros H Hin.
  specialize (H vi Hin).
  destruct (py_lookup uv_list vi) as [uv|]; [now exists uv | discriminate].
Qed.

(** A face index without a UV, in a submesh whose UVs are applied. *)
Lemma uv_lookups_stray default_name s vi :
  st_uvs s <> [] -> length (st_uvs s) = length (st_vertices s) ->
  In vi (st_faces s) -> Z.of_nat (length (st_uvs s)) <= vi ->
  uv_lookups_ok (submesh_data_of default_name s) = false.
Proof.
  intros Hne Hlen Hin Hvi. unfold uv_lookups_ok.
  assert (Happ : uvs_apply (submesh_data_of default_name s) = true)
    by (apply uvs_apply_iff; now split).
  rewrite Happ. cbn [submesh_data_of uvs face_indices].
  rewrite concat_group_faces.
  destruct (lookups_ok (st_uvs s) (st_faces s)) eqn:E; [|reflexivity].
  destruct (lookups_ok_In _ _ vi E Hin) as [uv Huv].
  rewrite py_lookup_beyond in Huv by exact Hvi. discriminate.
Qed.

Lemma py_lookup_within {A} (l : list A) (i : Z) :
  0 <= i < Z.of_nat (length l) -> exists x, py_lookup l i = Some x.
Proof.
  intros Hi. unfold py_lookup.
  assert (E : (i <? 0) = false) by (apply Z.ltb_ge; lia).
  rewrite E. cbv zeta. rewrite E.
  destruct (lookup_lt_is_Some_2 l (Z.to_nat i) ltac:(lia)) as [x Hx].
  now exists x.
Qed.

Lemma lookups_ok_within (uv_list : list vec2) (loops : list Z) :
  Forall (fun i => 0 <= i) loops ->
  Forall (fun i => i < Z.of_nat (length uv_list)) loops ->
  lookups_ok uv_list loops = true.
Proof.
  intros H0 H1. unfold lookups_ok. apply forallb_forall. intros i Hin.
  rewrite Forall_forall in H0, H1.
  apply list_elem_of_In in Hin.
  destruct (py_lookup_within uv_list i) as [uv ->]; [|reflexivity].
  split; [apply H0 | apply H1]; exact Hin.
Qed.

(** Face indices of the file that are below 2^31 fit a C int. *)
Lemma indices_ok_faces default_name s :
  Forall (fits fmt_I) (st_faces s) ->
  Forall (fun i => i < 2 ^ 31) (st_faces s) ->
  indices_ok (submesh_data_of default_name s) = true.
Proof.
  intros Hfit Hlt. unfold indices_ok.
  cbn [submesh_data_of face_indices]. rewrite concat_group_faces.
  apply forallb_forall. intros i Hin. apply list_elem_of_In in Hin.
  rewrite Forall_forall in Hfit, Hlt.
  specialize (Hfit i Hin). specialize (Hlt i Hin). cbv beta in Hlt.
  unfold fits in Hfit. unfold fits_int.
  apply andb_true_intro. split; [apply Z.leb_le | apply Z.ltb_lt]; lia.
Qed.

(** A face index of the file that is not below 2^31. *)
Lemma indices_ok_beyond default_name s vi :
  In vi (st_faces s) -> 2 ^ 31 <= vi ->
  indices_ok (submesh_data_of default_name s) = false.
Proof.
  intros Hin Hvi. unfold indices_ok.
  cbn [submesh_data_of face_indices]. rewrite concat_group_faces.
  destruct (forallb fits_int (st_faces s)) eqn:E; [|reflexivity].
  rewrite forallb_forall in E. specialize (E vi Hin).
  unfold fits_int in E. apply andb_prop in E as [_ E].
  apply Z.ltb_lt in E. lia.
Qed.

(** The loop that copies the UVs, up to the first vertex index without a
    UV: the corners before it have their UVs, the others are as
    [uv_layers.new] made them. *)
Lemma uv_steps_stop uv_list nm vs ps un cn sm mt vi after :
  py_lookup uv_list vi = None ->
  forall good done init,
    lookups_ok uv_list good = true ->
    length init = length (good ++ vi :: after) ->
    run_steps (uv_step 0 uv_list)
      (seq (length done) (length (good ++ vi :: after)))
      (mkMesh nm vs (done ++ good ++ vi :: after) ps
         [mkUVLayer un (map (uv_of uv_list) done ++ init)] cn sm mt)
    = (mkMesh nm vs (done ++ good ++ vi :: after) ps
         [mkUVLayer un (map (uv_of uv_list) (done ++ good)
                        ++ drop (length good) init)] cn sm mt,
       false).
Proof.
  intros Hvi. induction good as [|g good IH]; intros done init Hok Hlen.
  - cbn [app length seq run_steps drop]. unfold uv_step. cbn [me_loops].
    rewrite py_lookup_nat, list_lookup_middle by reflexivity.
    rewrite Hvi, app_nil_r. reflexivity.
  - destruct init as [|uv0 init]; [discriminate|].
    cbn [lookups_ok forallb] in Hok.
    destruct (py_lookup uv_list g) as [uv|] eqn:Eg; [|discriminate].
    cbn [app length seq run_steps].
    unfold uv_step at 1. cbn [me_loops].
    rewrite py_lookup_nat, list_lookup_middle by reflexivity.
    rewrite Eg.
    cbn [andb me_name me_vertices me_polygons me_uv_layers
         me_custom_normals me_use_auto_smooth me_materials alter
         list_alter uv_name uv_data].
    rewrite insert_app_r_alt by (rewrite length_map; lia).
    rewrite length_map, Nat.sub_diag. cbn [insert list_insert].
    specialize (IH (done ++ [g]) init Hok ltac:(now inversion Hlen)).
    rewrite length_app, Nat.add_1_r in IH. cbn [length] in IH.
    rewrite map_app in IH. cbn [map] in IH.
    assert (Huv : uv_of uv_list g = uv) by (unfold uv_of; now rewrite Eg).
    rewrite Huv in IH.
    rewrite <- !app_assoc in IH. cbn [app] in IH.
    cbn [drop]. exact IH.
Qed.

(** The mesh that is left when a UV lookup raised. *)
Lemma failed_world_mesh d W :
  exists m,
    failed_world d W
    = mkWorld (data_meshes W ++ [m]) (data_materials W) (data_objects W)
        (scene_objects W) (active_object W)
    /\ (me_name m, me_vertices m, me_loops m, me_polygons m,
        me_custom_normals m, me_use_auto_smooth m, me_materials m)
       = (submesh_name d, vertices d, concat (face_indices d),
          polygons_from 0 (face_indices d), None, false, []).
Proof.
  unfold failed_world. eexists. split; [reflexivity|].
  pose proof (run_steps_uv_fields 0 (uvs d)
                (seq 0 (length (concat (face_indices d))))
                (raw_mesh (submesh_name d) (vertices d) (face_indices d)
                   [mkUVLayer "UVMap"%string (default_uvs (face_indices d))]
                   None false [])) as H.
  cbv zeta in H. exact H.
Qed.

(** The same with its UV layer, when the first vertex index without a UV
    is known. *)
Lemma failed_world_at d good vi after W :
  concat (face_indices d) = good ++ vi :: after ->
  lookups_ok (uvs d) good = true -> py_lookup (uvs d) vi = None ->
  failed_world d W
  = mkWorld
      (data_meshes W
       ++ [raw_mesh (submesh_name d) (vertices d) (face_indices d)
             [mkUVLayer "UVMap"%string
                (map (uv_of (uvs d)) good
                 ++ drop (length good) (default_uvs (face_indices d)))]
             None false []])
      (data_materials W) (data_objects W) (scene_objects W)
      (active_object W).
Proof.
  intros Hsplit Hgood Hvi. unfold failed_world, raw_mesh.
  rewrite Hsplit.
  pose proof (uv_steps_stop (uvs d) (submesh_name d) (vertices d)
                (polygons_from 0 (face_indices d)) "UVMap"%string None false
                [] vi after Hvi good [] (default_uvs (face_indices d)) Hgood)
    as H.
  rewrite length_default_uvs, Hsplit in H. specialize (H eq_refl).
  cbn [app length map] in H. rewrite H. reflexivity.
Qed.

Lemma build_all_stops v ds_pre d ds_post : forall W,
  Forall (fun d => buildable d = true) ds_pre ->
  indices_ok d = true -> uv_lookups_ok d = false ->
  build_all v (ds_pre ++ d :: ds_post) W
  = (Raise IndexError, failed_world d (built_worlds v ds_pre W)).
Proof.
  induction ds_pre as [|d0 ds IH]; intros W Hok Hix Hd.
  - cbn [app build_all built_worlds fold_left]. unfold build_result.
    rewrite Hix, Hd. reflexivity.
  - apply Forall_cons in Hok as [Hd0 Hds].
    unfold buildable in Hd0. apply andb_prop in Hd0 as [Hi0 Hu0].
    cbn [app build_all]. unfold build_result at 1. rewrite Hi0, Hu0.
    rewrite (IH _ Hds Hix Hd), built_worlds_cons. reflexivity.
Qed.

(** X8.  [read_submesh] copies the UV of its vertex to every corner of
    every face, and checks no face index.  When the UVs are applied (there
    is one per vertex), the face indices fit a C int (they are below 2^31)
    and one of them has no UV, the lookup raises [IndexError] at the first
    such index.  By then the submesh is read to its end and the new mesh is
    in [bpy.data.meshes], with its vertices and faces and with its UV layer:
    the corners before that index have their UVs, the others are as
    [uv_layers.new] made them.  The mesh has no object, no material and no
    custom normals, and the scene is as it was.  [read_submesh_279] does the
    same. *)
Theorem X8_face_index_without_uv_raises search_dir s good vi after rest W :
  wf_submesh s ->
  Forall (fun i => i < 2 ^ 31) (st_faces s) ->
  st_uvs s <> [] -> length (st_uvs s) = length (st_vertices s) ->
  st_faces s = good ++ vi :: after ->
  Forall (fun i => i < Z.of_nat (length (st_uvs s))) good ->
  Z.of_nat (length (st_uvs s)) <= vi ->
  exists m,
    read_submesh search_dir (mkState (encode_submesh s ++ rest) W)
    = (Raise IndexError,
       mkState rest
         (mkWorld (data_meshes W ++ [m]) (data_materials W) (data_objects W)
            (scene_objects W) (active_object W)))
    /\ read_submesh_279 search_dir (mkState (encode_submesh s ++ rest) W)
       = (Raise IndexError,
          mkState rest
            (mkWorld (data_meshes W ++ [m]) (data_materials W)
               (data_objects W) (scene_objects W) (active_object W)))
    /\ me_vertices m = st_vertices s
    /\ me_loops m = st_faces s
    /\ length (me_polygons m) = ((length (st_faces s) + 2) / 3)%nat
    /\ me_uv_layers m
       = [mkUVLayer "UVMap"
            (map (uv_of (st_uvs s)) good
             ++ drop (length good)
                  (default_uvs (face_indices (submesh_data_of "" s))))]
    /\ me_materials m = []
    /\ me_custom_normals m = None.
Proof.
  intros Hwf Hlt Hne Hlen Hsplit Hgood Hvi.
  pose proof (wf_faces s Hwf) as Hfit.
  assert (Hin : In vi (st_faces s))
    by (rewrite Hsplit; apply in_or_app; right; now left).
  assert (Hg : lookups_ok (st_uvs s) good = true).
  { apply lookups_ok_within; [|exact Hgood].
    rewrite Hsplit in Hfit. apply Forall_app in Hfit as [Hfit _].
    eapply Forall_impl; [exact Hfit|]. intros i Hi. unfold fits in Hi. lia. }
  pose proof (py_lookup_beyond (st_uvs s) vi Hvi) as Hnone.
  pose proof (failed_world_at (submesh_data_of "" s) good vi after W) as HW.
  cbn [submesh_data_of face_indices uvs submesh_name vertices] in HW.
  rewrite concat_group_faces in HW. specialize (HW Hsplit Hg Hnone).
  eexists.
  unfold read_submesh, read_submesh_279, parse_submesh, parse_submesh_279,
    read_material, read_material_279.
  rewrite (read_sub_encoded Blender280 "" search_dir s rest W Hwf).
  rewrite (read_sub_encoded Blender279 "ImportedMaterial" search_dir s rest
             W Hwf).
  unfold build_result.
  rewrite (indices_ok_faces "" s Hfit Hlt).
  rewrite (indices_ok_faces "ImportedMaterial" s Hfit Hlt).
  rewrite (uv_lookups_stray "" s vi Hne Hlen Hin Hvi).
  rewrite (uv_lookups_stray "ImportedMaterial" s vi Hne Hlen Hin Hvi).
  cbn [fst snd].
  change (failed_world (submesh_data_of "ImportedMaterial" s) W)
    with (failed_world (submesh_data_of "" s) W).
  rewrite HW.
  split; [reflexivity|]. split; [reflexivity|].
  unfold raw_mesh.
  cbn [me_vertices me_loops me_polygons me_uv_layers me_materials
       me_custom_normals submesh_data_of face_indices].
  rewrite concat_group_faces, length_polygons_from, length_group_faces.
  repeat split.
Qed.

Lemma X8_face_index_without_uv_raises_witness :
  exists m,
    read_submesh None
      (mkState (encode_submesh stray_index ++ encode_submesh quad)
         empty_world)
    = (Raise IndexError,
       mkState (encode_submesh quad)
         (mkWorld (data_meshes empty_world ++ [m])
            (data_materials empty_world) (data_objects empty_world)
            (scene_objects empty_world) (active_object empty_world)))
    /\ read_submesh_279 None
         (mkState (encode_submesh stray_index ++ encode_submesh quad)
            empty_world)
       = (Raise IndexError,
          mkState (encode_submesh quad)
            (mkWorld (data_meshes empty_world ++ [m])
               (data_materials empty_world) (data_objects empty_world)
               (scene_objects empty_world) (active_object empty_world)))
    /\ me_vertices m = st_vertices stray_index
    /\ me_loops m = st_faces stray_index
    /\ length (me_polygons m)
       = ((length (st_faces stray_index) + 2) / 3)%nat
    /\ me_uv_layers m
       = [mkUVLayer "UVMap"
            (map (uv_of (st_uvs stray_index)) [0; 1]
             ++ drop (length [0; 1])
                  (default_uvs
                     (face_indices (submesh_data_of "" stray_index))))]
    /\ me_materials m = []
    /\ me_custom_normals m = None.
Proof.
  refine (X8_face_index_without_uv_raises None stray_index [0; 1] 7 []
            (encode_submesh quad) empty_world _ _ _ _ _ _ _).
  - solve_wf.
  - repeat constructor.
  - discriminate.
  - reflexivity.
  - reflexivity.
  - repeat constructor.
  - simpl. lia.
Defined.

(** The UV layer that is left by the stray index of [stray_index]: the
    first two corners have the UVs of their vertices, the third has the UV
    that [uv_layers.new] gave it. *)
Example stray_index_uv_layer :
  map (uv_of (st_uvs stray_index)) [0; 1]
  ++ drop (length [0; 1])
       (default_uvs (face_indices (submesh_data_of "" stray_index)))
  = [(0, 0); (1065353216, 0); (1065353216, 1065353216)].
Proof. reflexivity. Qed.

(** X9.  An [IndexError] ends the import where it is raised: when the
    submeshes before the one with the stray face index can be built, they
    are imported and stay in the scene, the mesh of that submesh is left in
    [bpy.data.meshes] without an object, and nothing of the submeshes after
    it is imported. *)
Theorem X9_index_error_stops_import search_dir sf pre s post vi W :
  wf_file sf -> sf_submeshes sf = pre ++ s :: post ->
  Forall (fun s => buildable (submesh_data_of "" s) = true) pre ->
  Forall (fun i => i < 2 ^ 31) (st_faces s) ->
  st_uvs s <> [] -> length (st_uvs s) = length (st_vertices s) ->
  In vi (st_faces s) -> Z.of_nat (length (st_uvs s)) <= vi ->
  exists m,
    import_skin search_dir (encode_file sf) W
    = (Raise IndexError,
       mkWorld
         (data_meshes
            (built_worlds Blender280 (map (submesh_data_of "") pre) W)
          ++ [m])
         (data_materials
            (built_worlds Blender280 (map (submesh_data_of "") pre) W))
         (data_objects
            (built_worlds Blender280 (map (submesh_data_of "") pre) W))
         (scene_objects
            (built_worlds Blender280 (map (submesh_data_of "") pre) W))
         (active_object
            (built_worlds Blender280 (map (submesh_data_of "") pre) W)))
    /\ me_vertices m = st_vertices s
    /\ scene_objects
         (built_worlds Blender280 (map (submesh_data_of "") pre) W)
       = scene_objects W ++ seq (length (data_objects W)) (length pre).
Proof.
  intros Hwf Hsms Hok Hlt Hne Hlen Hin Hvi.
  assert (Hfit : Forall (fits fmt_I) (st_faces s)).
  { pose proof (wf_submeshes sf Hwf) as H. rewrite Hsms in H.
    apply Forall_app in H as [_ H]. apply Forall_cons in H as [H _].
    apply (wf_faces s H). }
  rewrite (import_skin_encoded search_dir sf W Hwf), Hsms, map_app.
  cbn [map].
  rewrite (build_all_stops Blender280 _ _ _ W);
    [ | now apply Forall_map
      | exact (indices_ok_faces "" s Hfit Hlt)
      | exact (uv_lookups_stray "" s vi Hne Hlen Hin Hvi) ].
  cbn [fst snd].
  destruct (failed_world_mesh (submesh_data_of "" s)
              (built_worlds Blender280 (map (submesh_data_of "") pre) W))
    as (m & HW & Hm).
  exists m. rewrite HW. injection Hm as _ -> _ _ _ _ _.
  split; [reflexivity|]. split; [reflexivity|].
  rewrite scene_objects_built_worlds, length_map.
  reflexivity.
Qed.

Lemma X9_index_error_stops_import_witness :
  exists m,
    import_skin None (encode_file file_stray) empty_world
    = (Raise IndexError,
       mkWorld
         (data_meshes
            (built_worlds Blender280 (map (submesh_data_of "") [quad])
               empty_world)
          ++ [m])
         (data_materials
            (built_worlds Blender280 (map (submesh_data_of "") [quad])
               empty_world))
         (data_objects
            (built_worlds Blender280 (map (submesh_data_of "") [quad])
               empty_world))
         (scene_objects
            (built_worlds Blender280 (map (submesh_data_of "") [quad])
               empty_world))
         (active_object
            (built_worlds Blender280 (map (submesh_data_of "") [quad])
               empty_world)))
    /\ me_vertices m = st_vertices stray_index
    /\ scene_objects
         (built_worlds Blender280 (map (submesh_data_of "") [quad])
            empty_world)
       = scene_objects empty_world
         ++ seq (length (data_objects empty_world)) (length [quad]).
Proof.
  refine (X9_index_error_stops_import None file_stray [quad] stray_index
            [triangle] 7 empty_world _ _ _ _ _ _ _ _).
  - solve_wf.
  - reflexivity.
  - repeat constructor.
  - repeat constructor.
  - discriminate.
  - reflexivity.
  - simpl. auto.
  - simpl. lia.
Defined.

(** X20.  [read_submesh] does not check that a face index fits the C int
    in which Blender keeps it: a face index of 2^31 or more makes
    [from_pydata] raise [TypeError].  By then the submesh is read to its end
    and the new mesh is in [bpy.data.meshes] with its vertices; it has no UV
    layer, no object, no material and no custom normals, and the materials,
    the objects and the scene are as they were. *)
Theorem X20_face_index_beyond_c_int_raises search_dir s vi rest W :
  wf_submesh s -> In vi (st_faces s) -> 2 ^ 31 <= vi ->
  exists m,
    read_submesh search_dir (mkState (encode_submesh s ++ rest) W)
    = (Raise TypeError,
       mkState rest
         (mkWorld (data_meshes W ++ [m]) (data_materials W) (data_objects W)
            (scene_objects W) (active_object W)))
    /\ me_vertices m = st_vertices s
    /\ me_uv_layers m = []
    /\ me_materials m = []
    /\ me_custom_normals m = None.
Proof.
  intros Hwf Hin Hvi. eexists.
  unfold read_submesh, parse_submesh, read_material.
  rewrite (read_sub_encoded Blender280 "" search_dir s rest W Hwf).
  unfold build_result.
  rewrite (indices_ok_beyond "" s vi Hin Hvi). cbn [fst snd].
  unfold unfit_world.
  cbn [data_meshes data_materials data_objects scene_objects active_object].
  split; [reflexivity|]. repeat split.
Qed.

Lemma X20_face_index_beyond_c_int_raises_witness :
  exists m,
    read_submesh None
      (mkState (encode_submesh big_index ++ encode_submesh quad) empty_world)
    = (Raise TypeError,
       mkState (encode_submesh quad)
         (mkWorld (data_meshes empty_world ++ [m])
            (data_materials empty_world) (data_objects empty_world)
            (scene_objects empty_world) (active_object empty_world)))
    /\ me_vertices m = st_vertices big_index
    /\ me_uv_layers m = []
    /\ me_materials m = []
    /\ me_custom_normals m = None.
Proof.
  refine (X20_face_index_beyond_c_int_raises None big_index 4294967295
            (encode_submesh quad) empty_world _ _ _).
  - solve_wf.
  - simpl. auto.
  - lia.
Defined.

(** ** Materials, UVs and polygons of the new mesh *)



(** X11.  When the UVs are applied, the new mesh has one UV layer, named
    "UVMap", with one UV for every corner of every face: the UV that the
    file gives for the vertex of that corner. *)
Theorem X11_uv_of_every_loop v d search_dir st obj st' :
  build_submesh v d search_dir st = (Ok obj, st') ->
  uvs d <> [] -> length (uvs d) = length (vertices d) ->
  exists o m L,
    data_objects (bpy st') !! obj = Some o
    /\ data_meshes (bpy st') !! ob_data o = Some m
    /\ me_uv_layers m = [L]
    /\ uv_name L = "UVMap"%string
    /\ length (uv_data L) = length (me_loops m)
    /\ forall i vi,
         me_loops m !! i = Some vi ->
         exists uv,
           py_lookup (uvs d) vi = Some uv /\ uv_data L !! i = Some uv.
Proof.
  intros Hrun Hne Hlen.
  apply build_submesh_Ok_inv in Hrun as (Hok & -> & ->).
  destruct st as [fl W]. cbn [bpy file].
  destruct (built_world_lookup v d W) as [Ho Hm].
  assert (Happ : uvs_apply d = true) by (apply uvs_apply_iff; now split).
  unfold uv_lookups_ok in Hok. rewrite Happ in Hok.
  exists (mkObject (submesh_name d) (length (data_meshes W))),
    (built_mesh v d (length (data_materials W))),
    (mkUVLayer "UVMap" (map (uv_of (uvs d)) (concat (face_indices d)))).
  cbn [ob_data]. split; [exact Ho|]. split; [exact Hm|].
  cbn [built_mesh me_uv_layers me_loops uv_name uv_data].
  rewrite Happ. split; [reflexivity|]. split; [reflexivity|].
  split; [apply length_map|].
  intros i vi Hi.
  destruct (lookups_ok_In _ _ vi Hok) as [uv Huv].
  { apply list_elem_of_In. eapply list_elem_of_lookup_2. exact Hi. }
  exists uv. split; [exact Huv|].
  rewrite list_lookup_fmap, Hi. cbn. unfold uv_of. now rewrite Huv.
Qed.

Lemma X11_uv_of_every_loop_witness :
  exists o m L,
    data_objects
      (bpy (mkState [] (built_world Blender280
                          (submesh_data_of "" triangle) empty_world)))
    !! 0%nat = Some o
    /\ data_meshes
         (bpy (mkState [] (built_world Blender280
                             (submesh_data_of "" triangle) empty_world)))
       !! ob_data o = Some m
    /\ me_uv_layers m = [L]
    /\ uv_name L = "UVMap"%string
    /\ length (uv_data L) = length (me_loops m)
    /\ forall i vi,
         me_loops m !! i = Some vi ->
         exists uv,
           py_lookup (uvs (submesh_data_of "" triangle)) vi = Some uv
           /\ uv_data L !! i = Some uv.
Proof.
  refine (X11_uv_of_every_loop Blender280 (submesh_data_of "" triangle) None
            (mkState [] empty_world) 0%nat
            (mkState [] (built_world Blender280
                           (submesh_data_of "" triangle) empty_world))
            _ _ _).
  - vm_compute. reflexivity.
  - discriminate.
  - reflexivity.
Defined.

Lemma polygons_from_lookup faces : forall start k p,
  polygons_from start faces !! k = Some p ->
  exists face,
    faces !! k = Some face
    /\ loop_total p = length face
    /\ loop_start p = (start + length (concat (take k faces)))%nat.
Proof.
  induction faces as [|f faces IH]; intros start k p H; [discriminate|].
  cbn [polygons_from] in H. destruct k as [|k].
  - injection H as <-. exists f. cbn. repeat split. lia.
  - cbn [lookup list_lookup] in H.
    destruct (IH _ _ _ H) as (face & Hf & Ht & Hs).
    exists face. cbn [take concat]. rewrite length_app.
    repeat split; [exact Hf | exact Ht | lia].
Qed.

Lemma extent_assign_polys nmats ids : forall ps,
  map (fun p => (loop_start p, loop_total p)) (assign_polys nmats ids ps)
  = map (fun p => (loop_start p, loop_total p)) ps.
Proof.
  induction ids as [|i ids IH]; intros [|p ps]; try reflexivity.
  cbn [assign_polys map]. rewrite IH.
  destruct (i <? nmats); reflexivity.
Qed.

Lemma extent_smooth ps :
  map (fun p => (loop_start p, loop_total p)) (map smooth_polygon ps)
  = map (fun p => (loop_start p, loop_total p)) ps.
Proof. rewrite map_map. reflexivity. Qed.

(** Material ids and smooth shading move no polygon. *)
Lemma extent_built_mesh v d base :
  map (fun p => (loop_start p, loop_total p))
      (me_polygons (built_mesh v d base))
  = map (fun p => (loop_start p, loop_total p))
        (polygons_from 0 (face_indices d)).
Proof.
  unfold built_mesh. cbn [me_polygons].
  destruct (matids_apply d), (normals_apply d), v;
    rewrite ?extent_assign_polys, ?extent_smooth; reflexivity.
Qed.

Lemma take_group_faces raw k :
  (3 * k < length raw)%nat ->
  concat (take k (group_faces (Z.of_nat (length raw)) raw))
  = take (3 * k) raw.
Proof.
  intros Hk. unfold group_faces, range3.
  rewrite <- !fmap_take, take_seq.
  rewrite Nat.min_l.
  - change (fmap (M := list) ?f ?l) with (map f l).
    rewrite concat_group_from. reflexivity.
  - pose proof (Z.div_mod (Z.of_nat (length raw) + 2) 3).
    pose proof (Z.mod_pos_bound (Z.of_nat (length raw) + 2) 3).
    pose proof (Z.div_pos (Z.of_nat (length raw) + 2) 3).
    lia.
Qed.

(** X12.  The faces of the new mesh of a submesh that can be built (its
    face indices are below 2^31, and have a UV when the UVs are applied) are
    the face indices of the file, three by three: the corners of the mesh
    are the indices in the order of the file, there is a polygon for every
    three indices and one more for the one or two that remain, and the k-th
    polygon starts at corner 3k. *)
Theorem X12_polygons_are_index_triples search_dir s rest W :
  wf_submesh s ->
  buildable (submesh_data_of "" s) = true ->
  exists obj W' o m,
    read_submesh search_dir (mkState (encode_submesh s ++ rest) W)
    = (Ok obj, mkState rest W')
    /\ data_objects W' !! obj = Some o
    /\ data_meshes W' !! ob_data o = Some m
    /\ me_loops m = st_faces s
    /\ length (me_polygons m) = ((length (st_faces s) + 2) / 3)%nat
    /\ forall k p,
         me_polygons m !! k = Some p ->
         loop_start p = (3 * k)%nat
         /\ loop_total p = Nat.min 3 (length (st_faces s) - 3 * k).
Proof.
  intros Hwf Hok.
  unfold read_submesh, parse_submesh, read_material.
  rewrite (read_sub_built Blender280 "" search_dir s rest W Hwf Hok).
  destruct (built_world_lookup Blender280 (submesh_data_of "" s) W)
    as [Ho Hm].
  do 4 eexists. split; [reflexivity|].
  split; [exact Ho|]. cbn [ob_data]. split; [exact Hm|].
  assert (Hlen : length (me_polygons
                   (built_mesh Blender280 (submesh_data_of "" s)
                      (length (data_materials W))))
                 = ((length (st_faces s) + 2) / 3)%nat).
  { rewrite <- (length_map (fun p => (loop_start p, loop_total p))).
    rewrite extent_built_mesh, length_map, length_polygons_from.
    apply length_group_faces. }
  split; [apply concat_group_faces|]. split; [exact Hlen|].
  intros k p Hp.
  assert (Hk : (3 * k < length (st_faces s))%nat).
  { apply lookup_lt_Some in Hp. rewrite Hlen in Hp.
    pose proof (Nat.div_mod_eq (length (st_faces s) + 2) 3).
    pose proof (Nat.mod_upper_bound (length (st_faces s) + 2) 3).
    lia. }
  assert (He : map (fun p => (loop_start p, loop_total p))
                 (polygons_from 0 (face_indices (submesh_data_of "" s)))
               !! k = Some (loop_start p, loop_total p)).
  { rewrite <- (extent_built_mesh Blender280 _ (length (data_materials W))).
    change (map ?f ?l) with (fmap (M := list) f l).
    rewrite list_lookup_fmap, Hp. reflexivity. }
  change (map ?f ?l) with (fmap (M := list) f l) in He.
  rewrite list_lookup_fmap in He.
  destruct (polygons_from 0 (face_indices (submesh_data_of "" s)) !! k)
    as [p0|] eqn:E0; [|discriminate].
  injection He as Hs Ht.
  destruct (polygons_from_lookup _ _ _ _ E0) as (face & Hf & Ht0 & Hs0).
  cbn [submesh_data_of face_indices] in Hf, Hs0.
  rewrite lookup_group_faces in Hf by exact Hk. injection Hf as <-.
  rewrite take_group_faces in Hs0 by exact Hk.
  rewrite length_take in Hs0, Ht0. rewrite length_drop in Ht0.
  lia.
Qed.

Lemma X12_polygons_are_index_triples_witness :
  exists obj W' o m,
    read_submesh None
      (mkState (encode_submesh seven_indices ++ [x00]) empty_world)
    = (Ok obj, mkState [x00] W')
    /\ data_objects W' !! obj = Some o
    /\ data_meshes W' !! ob_data o = Some m
    /\ me_loops m = st_faces seven_indices
    /\ length (me_polygons m)
       = ((length (st_faces seven_indices) + 2) / 3)%nat
    /\ forall k p,
         me_polygons m !! k = Some p ->
         loop_start p = (3 * k)%nat
         /\ loop_total p
            = Nat.min 3 (length (st_faces seven_indices) - 3 * k).
Proof.
  refine (X12_polygons_are_index_triples None seven_indices [x00]
            empty_world _ _).
  - solve_wf.
  - reflexivity.
Defined.

(** ** The import only adds *)

Lemma grown_from_refl W : grown_from W W.
Proof.
  exists [], [], [], []. rewrite !app_nil_r. repeat split; constructor.
Qed.

Lemma grown_from_trans W1 W2 W3 :
  grown_from W1 W2 -> grown_from W2 W3 -> grown_from W1 W3.
Proof.
  intros (ms & mats & objs & sc & Hm & Hma & Ho & Hs & Fo & Fm)
         (ms' & mats' & objs' & sc' & Hm' & Hma' & Ho' & Hs' & Fo' & Fm').
  exists (ms ++ ms'), (mats ++ mats'), (objs ++ objs'), (sc ++ sc').
  rewrite Hm', Hma', Ho', Hs', Hm, Hma, Ho, Hs, !List.app_assoc.
  repeat split.
  - apply Forall_app. split; [exact Fo|].
    eapply Forall_impl; [exact Fo'|]. cbn. intros o Hle.
    rewrite Hm, length_app in Hle. lia.
  - apply Forall_app. split; [exact Fm|].
    eapply Forall_impl; [exact Fm'|]. cbn. intros m Hall.
    eapply Forall_impl; [exact Hall|]. cbn. intros mat Hle.
    rewrite Hma, length_app in Hle. lia.
Qed.

Lemma grown_from_build_result v d W :
  grown_from W (build_result v d W).2.
Proof.
  unfold build_result.
  destruct (indices_ok d); [destruct (uv_lookups_ok d)|]; cbn [snd].
  - exists [built_mesh v d (length (data_materials W))],
      (map (fun md => mkMaterial (created_name md) true) (materials d)),
      [mkObject (submesh_name d) (length (data_meshes W))],
      [length (data_objects W)].
    cbn [built_world data_meshes data_materials data_objects scene_objects].
    repeat split.
    + repeat constructor.
    + repeat constructor. cbn [built_mesh me_materials].
      apply Forall_forall. intros mat Hin.
      apply list_elem_of_In, in_seq in Hin. lia.
  - destruct (failed_world_mesh d W) as (m & -> & Hm).
    exists [m], [], [], [].
    cbn [data_meshes data_materials data_objects scene_objects].
    rewrite !app_nil_r. repeat split; [constructor|].
    repeat constructor. injection Hm as _ _ _ _ _ _ ->. constructor.
  - eexists [_], [], [], []. unfold unfit_world.
    cbn [data_meshes data_materials data_objects scene_objects].
    rewrite !app_nil_r. repeat split; [constructor|].
    repeat constructor.
Qed.

Lemma parse_submesh_bpy default_name q W :
  bpy (parse_submesh_with (read_material_with default_name)
         (mkState q W)).2 = W.
Proof.
  destruct (closing_parse_submesh_with (read_material_with default_name)
              (steady_read_material_with default_name)) as [[Hs _] _].
  apply (steady_independent _ Hs q W W).
Qed.

Section Frame.
Variables (v : version) (default_name : string)
          (search_dir : option string).

Local Abbreviation read_sub :=
  (d <- parse_submesh_with (read_material_with default_name) ;;
   build_submesh v d search_dir).

Lemma grown_from_read_sub st :
  grown_from (bpy st) (bpy (read_sub st).2).
Proof.
  destruct st as [q W]. unfold bind.
  pose proof (parse_submesh_bpy default_name q W) as Hb.
  destruct (parse_submesh_with (read_material_with default_name)
              (mkState q W)) as [[d|e] [f w]];
    cbn [snd bpy] in Hb |- *; subst w.
  - rewrite build_submesh_run. cbn [snd bpy].
    apply grown_from_build_result.
  - apply grown_from_refl.
Qed.

Lemma grown_from_repeatM {A} (m : M A) :
  (forall st, grown_from (bpy st) (bpy (m st).2)) ->
  forall n st, grown_from (bpy st) (bpy (repeatM n m st).2).
Proof.
  intros Hm n. induction n as [|n IH]; intros st.
  - apply grown_from_refl.
  - cbn [repeatM]. unfold bind at 1.
    pose proof (Hm st) as H1.
    destruct (m st) as [[x|e] st1]; cbn [snd] in H1 |- *; [|exact H1].
    unfold bind. pose proof (IH st1) as H2.
    destruct (repeatM n m st1) as [[xs|e] st2]; cbn [snd] in H2 |- *;
      eapply grown_from_trans; eassumption.
Qed.

Lemma read_unpack_bpy c count q W :
  bpy (read_unpack c count (mkState q W)).2 = W.
Proof.
  unfold read_unpack, bind, f_read, unpack. cbn [file bpy].
  destruct (_ =? _); reflexivity.
Qed.

Lemma grown_from_read_file q W :
  grown_from W (bpy (read_file_with read_sub (mkState q W)).2).
Proof.
  unfold read_file_with.
  unfold bind at 1. pose proof (read_unpack_bpy fmt_B 1 q W) as H1.
  destruct (read_unpack fmt_B 1 (mkState q W)) as [[hb|e] [f1 w1]];
    cbn [snd bpy] in H1 |- *; subst w1; [|apply grown_from_refl].
  unfold bind at 1. pose proof (read_unpack_bpy fmt_I 3 f1 W) as H2.
  destruct (read_unpack fmt_I 3 (mkState f1 W)) as [[hv|e] [f2 w2]];
    cbn [snd bpy] in H2 |- *; subst w2; [|apply grown_from_refl].
  unfold bind at 1. pose proof (read_unpack_bpy fmt_I 1 f2 W) as H3.
  destruct (read_unpack fmt_I 1 (mkState f2 W)) as [[sc|e] [f3 w3]];
    cbn [snd bpy] in H3 |- *; subst w3; [|apply grown_from_refl].
  unfold bind at 1.
  pose proof (grown_from_repeatM read_sub grown_from_read_sub
                (Z.to_nat (item 0 sc)) (mkState f3 W)) as H4.
  destruct (repeatM (Z.to_nat (item 0 sc)) read_sub (mkState f3 W))
    as [[objs|e] st4]; cbn [snd bpy] in H4 |- *; exact H4.
Qed.
End Frame.

(** X13.  Whatever the bytes of the file, and whether the import returns
    or raises, it only adds to what is in Blender: every mesh, material and
    object that was there is still there, unchanged and at its place, and
    every object that was in the scene is still in it.  The new objects have
    new meshes and the new meshes have new materials: nothing that was there
    is used again. *)
Theorem X13_import_only_adds search_dir contents W :
  grown_from W (import_skin search_dir contents W).2
  /\ grown_from W (import_skin_279 search_dir contents W).2.
Proof.
  split.
  - apply (grown_from_read_file Blender280 "" search_dir contents W).
  - apply (grown_from_read_file Blender279 "ImportedMaterial" search_dir
             contents W).
Qed.

(** ** The two scripts *)

(** The reads of the two scripts accept the same bytes. *)
Lemma parse_submesh_agree q W1 W2 :
  (exists s rest,
      wf_submesh s
      /\ parse_submesh (mkState q W1)
         = (Ok (submesh_data_of "" s), mkState rest W1)
      /\ parse_submesh_279 (mkState q W2)
         = (Ok (submesh_data_of "ImportedMaterial" s), mkState rest W2))
  \/ (parse_submesh (mkState q W1) = (Raise struct_error, mkState [] W1)
      /\ parse_submesh_279 (mkState q W2)
         = (Raise struct_error, mkState [] W2)).
Proof.
  assert (Hraise : forall default_name W e st',
    parse_submesh_with (read_material_with default_name) (mkState q W)
    = (Raise e, st') -> e = struct_error /\ st' = mkState [] W).
  { intros default_name W e st' H.
    destruct (closing_parse_submesh_with (read_material_with default_name)
                (steady_read_material_with default_name)) as [[Hs _] _].
    destruct (Hs q) as (out & f & Hrun & _ & Hout).
    rewrite Hrun in H. injection H as -> <-.
    destruct Hout as [-> ->]. split; reflexivity. }
  unfold parse_submesh, parse_submesh_279, read_material, read_material_279.
  destruct (parse_submesh_with (read_material_with "") (mkState q W1))
    as [[d|e] st1] eqn:E1.
  - left. apply parse_submesh_Ok_inv in E1 as (s & Hwf & -> & -> & Hw).
    exists s, (file st1). destruct st1 as [f w]. cbn [file bpy] in *.
    subst w. split; [exact Hwf|]. split; [reflexivity|].
    apply (parse_submesh_encoded "ImportedMaterial" s f W2 Hwf).
  - right. destruct (Hraise _ _ _ _ E1) as [-> ->].
    split; [reflexivity|].
    destruct (parse_submesh_with (read_material_with "ImportedMaterial")
                (mkState q W2)) as [[d|e'] st2] eqn:E2.
    + apply parse_submesh_Ok_inv in E2 as (s & Hwf & -> & _ & _).
      rewrite (parse_submesh_encoded "" s (file st2) W1 Hwf) in E1.
      discriminate.
    + destruct (Hraise _ _ _ _ E2) as [-> ->]. reflexivity.
Qed.

Lemma created_name_default m :
  created_name (material_data_of "ImportedMaterial" m)
  = created_name (material_data_of "" m).
Proof.
  unfold created_name, material_data_of. cbn [material_name].
  destruct (mt_material_name m); reflexivity.
Qed.

Lemma flat_assign_polys nmats ids : forall ps,
  map (fun p => mkPolygon (loop_start p) (loop_total p)
                  (material_index p) false)
      (assign_polys nmats ids ps)
  = assign_polys nmats ids
      (map (fun p => mkPolygon (loop_start p) (loop_total p)
                       (material_index p) false) ps).
Proof.
  induction ids as [|i ids IH]; intros [|p ps]; try reflexivity.
  cbn [assign_polys map]. rewrite IH.
  destruct (i <? nmats); reflexivity.
Qed.

Lemma flat_smooth ps :
  map (fun p => mkPolygon (loop_start p) (loop_total p)
                  (material_index p) false)
      (map smooth_polygon ps)
  = map (fun p => mkPolygon (loop_start p) (loop_total p)
                    (material_index p) false) ps.
Proof. rewrite map_map. reflexivity. Qed.

(** The meshes that the two scripts build differ in their shading flags
    only. *)
Lemma flat_shaded_built_mesh s base :
  flat_shaded (built_mesh Blender279
                 (submesh_data_of "ImportedMaterial" s) base)
  = flat_shaded (built_mesh Blender280 (submesh_data_of "" s) base).
Proof.
  unfold flat_shaded, built_mesh, matids_apply, normals_apply.
  cbn [me_name me_vertices me_loops me_polygons me_uv_layers
       me_custom_normals me_use_auto_smooth me_materials submesh_data_of
       submesh_name vertices face_indices uvs normals materials matids].
  rewrite !length_map. f_equal.
  destruct (negb (Nat.eqb (length (st_matids s)) 0)
            && Nat.eqb (length (st_matids s))
                 (length (group_faces (Z.of_nat (length (st_faces s)))
                            (st_faces s))));
    destruct (negb (Nat.eqb (length (st_normals s)) 0)
              && Nat.eqb (length (st_normals s)) (length (st_vertices s)));
    rewrite ?flat_assign_polys, ?flat_smooth; reflexivity.
Qed.

Lemma build_result_agree s W1 W2 :
  without_shading W2 = without_shading W1 ->
  (build_result Blender279 (submesh_data_of "ImportedMaterial" s) W2).1
  = (build_result Blender280 (submesh_data_of "" s) W1).1
  /\ without_shading
       (build_result Blender279 (submesh_data_of "ImportedMaterial" s) W2).2
     = without_shading
         (build_result Blender280 (submesh_data_of "" s) W1).2.
Proof.
  intros HW. unfold without_shading in HW.
  injection HW as Hms Hmats Hobjs Hsc Hact.
  assert (Hlen : length (data_meshes W2) = length (data_meshes W1))
    by (rewrite <- (length_map flat_shaded), Hms; apply length_map).
  unfold build_result.
  change (uv_lookups_ok (submesh_data_of "ImportedMaterial" s))
    with (uv_lookups_ok (submesh_data_of "" s)).
  change (indices_ok (submesh_data_of "ImportedMaterial" s))
    with (indices_ok (submesh_data_of "" s)).
  destruct (indices_ok (submesh_data_of "" s));
    [destruct (uv_lookups_ok (submesh_data_of "" s))|]; cbn [fst snd].
  - split; [now rewrite Hobjs|].
    unfold without_shading, built_world.
    cbn [data_meshes data_materials data_objects scene_objects
         active_object submesh_data_of submesh_name materials].
    rewrite !map_app, Hms, Hmats, Hobjs, Hsc, Hlen. cbn [map].
    rewrite flat_shaded_built_mesh, !map_map.
    f_equal. f_equal.
    apply map_ext. intros m. now rewrite created_name_default.
  - split; [reflexivity|].
    change (failed_world (submesh_data_of "ImportedMaterial" s) W2)
      with (failed_world (submesh_data_of "" s) W2).
    unfold without_shading, failed_world.
    cbn [data_meshes data_materials data_objects scene_objects
         active_object].
    rewrite !map_app, Hms, Hmats, Hobjs, Hsc, Hact. reflexivity.
  - split; [reflexivity|].
    change (unfit_world (submesh_data_of "ImportedMaterial" s) W2)
      with (unfit_world (submesh_data_of "" s) W2).
    unfold without_shading, unfit_world.
    cbn [data_meshes data_materials data_objects scene_objects
         active_object].
    rewrite !map_app, Hms, Hmats, Hobjs, Hsc, Hact. reflexivity.
Qed.

Section Agreement.
Variable search_dir : option string.

(** Two runs agree when they return or raise the same and leave the same
    bytes, and stores that differ in shading flags only. *)
Local Abbreviation agree r1 r2 :=
  (r2.1 = r1.1 /\ file r2.2 = file r1.2
   /\ without_shading (bpy r2.2) = without_shading (bpy r1.2)).

Lemma bind_agree {A B} (m1 m2 : M A) (k1 k2 : A -> M B) st1 st2 :
  agree (m1 st1) (m2 st2) ->
  (forall a f w1 w2,
      without_shading w2 = without_shading w1 ->
      agree (k1 a (mkState f w1)) (k2 a (mkState f w2))) ->
  agree (bind m1 k1 st1) (bind m2 k2 st2).
Proof.
  intros (Ho & Hf & Hw) Hk. unfold bind.
  destruct (m1 st1) as [[a1|e1] [f1 w1]], (m2 st2) as [[a2|e2] [f2 w2]];
    cbn [fst snd file bpy] in Ho, Hf, Hw |- *; try discriminate.
  - injection Ho as ->. subst f2. now apply Hk.
  - injection Ho as ->. repeat split; assumption.
Qed.

Lemma read_submesh_agree q W1 W2 :
  without_shading W2 = without_shading W1 ->
  agree (read_submesh search_dir (mkState q W1))
        (read_submesh_279 search_dir (mkState q W2)).
Proof.
  intros HW.
  destruct (parse_submesh_agree q W1 W2)
    as [(s & rest & Hwf & H1 & H2)|[H1 H2]].
  - pose proof (eq_trans (bind_ok _ (fun d => build_submesh Blender280 d
                                               search_dir) _ _ _ H1)
                  (build_submesh_run Blender280 _ search_dir rest W1))
      as R1.
    pose proof (eq_trans (bind_ok _ (fun d => build_submesh Blender279 d
                                               search_dir) _ _ _ H2)
                  (build_submesh_run Blender279 _ search_dir rest W2))
      as R2.
    change (read_submesh search_dir (mkState q W1)
            = ((build_result Blender280 (submesh_data_of "" s) W1).1,
               mkState rest
                 (build_result Blender280 (submesh_data_of "" s) W1).2))
      in R1.
    change (read_submesh_279 search_dir (mkState q W2)
            = ((build_result Blender279
                  (submesh_data_of "ImportedMaterial" s) W2).1,
               mkState rest
                 (build_result Blender279
                    (submesh_data_of "ImportedMaterial" s) W2).2))
      in R2.
    destruct (read_submesh search_dir (mkState q W1)) as [o1 st1].
    destruct (read_submesh_279 search_dir (mkState q W2)) as [o2 st2].
    injection R1 as -> ->. injection R2 as -> ->.
    cbn [fst snd file bpy].
    destruct (build_result_agree s W1 W2 HW) as [Ho Hw]. auto.
  - pose proof (bind_raise _ (fun d => build_submesh Blender280 d
                                         search_dir) _ _ _ H1) as R1.
    pose proof (bind_raise _ (fun d => build_submesh Blender279 d
                                         search_dir) _ _ _ H2) as R2.
    change (read_submesh search_dir (mkState q W1)
            = (Raise struct_error, mkState [] W1)) in R1.
    change (read_submesh_279 search_dir (mkState q W2)
            = (Raise struct_error, mkState [] W2)) in R2.
    destruct (read_submesh search_dir (mkState q W1)) as [o1 st1].
    destruct (read_submesh_279 search_dir (mkState q W2)) as [o2 st2].
    injection R1 as -> ->. injection R2 as -> ->.
    cbn [fst snd file bpy]. auto.
Qed.

Lemma repeatM_agree n : forall q W1 W2,
  without_shading W2 = without_shading W1 ->
  agree (repeatM n (read_submesh search_dir) (mkState q W1))
        (repeatM n (read_submesh_279 search_dir) (mkState q W2)).
Proof.
  induction n as [|n IH]; intros q W1 W2 HW.
  - cbn. auto.
  - cbn [repeatM].
    apply bind_agree; [now apply read_submesh_agree|].
    intros a f w1 w2 Hw.
    apply bind_agree; [now apply IH|].
    intros l g u1 u2 Hu. cbn. auto.
Qed.

Lemma read_unpack_agree c count q W1 W2 :
  without_shading W2 = without_shading W1 ->
  agree (read_unpack c count (mkState q W1))
        (read_unpack c count (mkState q W2)).
Proof.
  intros HW. unfold read_unpack, bind, f_read, unpack. cbn [file bpy].
  destruct (_ =? _); cbn; auto.
Qed.

Lemma read_file_agree q W :
  agree (read_file search_dir (mkState q W))
        (read_skin_file_279 search_dir (mkState q W)).
Proof.
  unfold read_file, read_skin_file_279, read_file_with.
  apply bind_agree; [now apply read_unpack_agree|].
  intros hb f1 w1 w1' H1.
  apply bind_agree; [now apply read_unpack_agree|].
  intros hv f2 w2 w2' H2.
  apply bind_agree; [now apply read_unpack_agree|].
  intros sc f3 w3 w3' H3.
  apply bind_agree; [now apply repeatM_agree|].
  intros objs f4 w4 w4' H4. cbn. auto.
Qed.
End Agreement.

(** X14.  The two scripts import the same: on the same bytes and the same
    Blender store, [read_skin_file_279] returns or raises what
    [ImportSkinMultiSubmesh.read_file] returns or raises, and leaves the same
    meshes, materials and objects, with the same names, the same scene and
    the same active object.  The meshes differ in their shading flags only
    (smooth shading and auto smooth, which the 2.79 script sets when it
    applies normals). *)
Theorem X14_both_scripts_import_the_same search_dir contents W :
  (import_skin_279 search_dir contents W).1
  = (import_skin search_dir contents W).1
  /\ without_shading (import_skin_279 search_dir contents W).2
     = without_shading (import_skin search_dir contents W).2.
Proof.
  destruct (read_file_agree search_dir contents W) as (Ho & _ & Hw).
  unfold import_skin, import_skin_279. cbv zeta. cbn [fst snd].
  split; [exact Ho | exact Hw].
Qed.

(** ** Errors and names *)

Lemma settles_ret {A} (a : A) : settles (ret a).
Proof. intros q W. left. now exists a, q. Qed.

Lemma settles_bind {A B} (p : M A) (k : A -> M B) :
  settles p -> (forall a, settles (k a)) -> settles (bind p k).
Proof.
  intros Hp Hk q W. unfold bind.
  destruct (Hp q W) as [(a & rest & ->)|[->|[rest ->]]].
  - apply Hk.
  - right. now left.
  - right. right. now exists rest.
Qed.

Lemma settles_repeatM {A} (n : nat) (p : M A) :
  settles p -> settles (repeatM n p).
Proof.
  intros Hp. induction n as [|n IH]; cbn [repeatM]; [apply settles_ret|].
  apply settles_bind; [exact Hp|]. intros a.
  apply settles_bind; [exact IH|]. intros l. apply settles_ret.
Qed.

Section Settling.
Variables (room room_values : fmt -> Z -> bool) (room_str : Z -> bool).

Lemma settles_read_unpack_mem c count :
  0 <= count -> settles (read_unpack_mem room room_values c count).
Proof.
  intros H0 q W. unfold read_unpack_mem, alloc.
  destruct (room c count); [|right; right; exists q; reflexivity].
  destruct (read_unpack_cases c count q W H0)
    as [(vs & Hrun & _)|[Hrun _]];
    unfold bind, ret, raise; rewrite Hrun.
  - destruct (room_values c count).
    + left. do 2 eexists. reflexivity.
    + right. right. eexists. reflexivity.
  - right. left. reflexivity.
Qed.

Lemma settles_read_str_mem n default :
  settles (read_str_mem room_str n default).
Proof.
  unfold read_str_mem. destruct (0 <? n); [|apply settles_ret].
  intros q W. unfold alloc, bind, ret, raise, f_read.
  destruct (room_str n); cbn [file bpy].
  - left. eauto.
  - right. right. now exists q.
Qed.

Lemma settles_counted {A} c (n cnt : Z) (g : list Z -> list A) :
  (0 < n -> 0 <= cnt) ->
  settles (if 0 <? n
           then d <- read_unpack_mem room room_values c cnt ;; ret (g d)
           else ret []).
Proof.
  intros Hc. destruct (0 <? n) eqn:En; [|apply settles_ret].
  apply Z.ltb_lt in En.
  apply settles_bind; [apply settles_read_unpack_mem; auto|].
  intros d. apply settles_ret.
Qed.

Lemma settles_plain c (n : Z) :
  settles (if 0 <? n then read_unpack_mem room room_values c n else ret []).
Proof.
  destruct (0 <? n) eqn:En; [|apply settles_ret].
  apply Z.ltb_lt in En. apply settles_read_unpack_mem. lia.
Qed.

Ltac settle_step :=
  first
    [ apply settles_read_unpack_mem; lia
    | apply settles_read_str_mem
    | apply settles_counted; lia
    | apply settles_plain
    | apply settles_repeatM; assumption
    | apply settles_ret ].

Lemma settles_read_material_mem default_name :
  settles (read_material_mem room room_values room_str default_name).
Proof.
  unfold read_material_mem.
  repeat (apply settles_bind; [settle_step | intros ?]).
  apply settles_ret.
Qed.

Lemma settles_parse_submesh_mem (read_mat : M material_data) :
  settles read_mat ->
  settles (parse_submesh_mem room room_values room_str read_mat).
Proof.
  intros Hm. unfold parse_submesh_mem.
  repeat (apply settles_bind; [settle_step | intros ?]).
  apply settles_ret.
Qed.

End Settling.

(** X15.  The reads check no value: whatever the bytes and whatever the
    memory that there is, [read_material] and the reads of [read_submesh]
    return, or raise [struct.error] with the file read to its end, or raise
    [MemoryError] (when there is no memory for a read).  They raise nothing
    else, never raise [struct.error] while bytes are left, and leave Blender
    as it is either way.  The same holds of the 2.79 script. *)
Theorem X15_reads_fail_only_at_end_of_file room room_values room_str :
  settles (parse_submesh_mem room room_values room_str
             (read_material_mem room room_values room_str ""))
  /\ settles (parse_submesh_mem room room_values room_str
                (read_material_mem room room_values room_str
                   "ImportedMaterial"))
  /\ settles (read_material_mem room room_values room_str "")
  /\ settles (read_material_mem room room_values room_str
                "ImportedMaterial").
Proof.
  split; [|split; [|split]].
  - apply settles_parse_submesh_mem, settles_read_material_mem.
  - apply settles_parse_submesh_mem, settles_read_material_mem.
  - apply settles_read_material_mem.
  - apply settles_read_material_mem.
Qed.

(** The three ways a read of a submesh ends: on the bytes of a triangle it
    returns; on a vertex count of 1000 with two bytes behind it, it raises
    [struct.error] when there is memory for the read and [MemoryError] when
    there is not. *)
Example reads_of_a_submesh_end :
  (parse_submesh_mem (fun _ _ => true) (fun _ _ => true) (fun _ => true)
     (read_material_mem (fun _ _ => true) (fun _ _ => true) (fun _ => true)
        "")
     (mkState (encode_submesh triangle ++ [x00]) empty_world))
  = (Ok (submesh_data_of "" triangle), mkState [x00] empty_world)
  /\ (parse_submesh_mem (fun _ _ => true) (fun _ _ => true) (fun _ => true)
        (read_material_mem (fun _ _ => true) (fun _ _ => true)
           (fun _ => true) "")
        (mkState (before_count VertexArray triangle ++ pack fmt_I [1000]
                  ++ [x00; x00]) empty_world))
     = (Raise struct_error, mkState [] empty_world)
  /\ (parse_submesh_mem (fun _ k => k <=? 100) (fun _ _ => true)
        (fun _ => true)
        (read_material_mem (fun _ k => k <=? 100) (fun _ _ => true)
           (fun _ => true) "")
        (mkState (before_count VertexArray triangle ++ pack fmt_I [1000]
                  ++ [x00; x00]) empty_world)).1
     = Raise MemoryError.
Proof. repeat split; vm_compute; reflexivity. Qed.

Lemma utf8_ignore_ascii bs :
  Forall (fun b => byte_val b < 128) bs -> utf8_ignore bs = bs.
Proof.
  induction 1 as [|b bs Hb _ IH]; [reflexivity|].
  cbn [utf8_ignore]. cbv zeta.
  destruct (byte_val b <? 128) eqn:E; [now rewrite IH|].
  apply Z.ltb_ge in E. lia.
Qed.

Lemma decoded_name_ascii default bs :
  bs <> [] -> Forall (fun b => byte_val b < 128) bs ->
  decoded_name default bs = string_of_list_byte bs
  /\ str_truthy (decoded_name default bs) = true.
Proof.
  intros Hne Hascii. destruct bs as [|b bs]; [contradiction|].
  unfold decoded_name, decode_utf8_ignore.
  rewrite (utf8_ignore_ascii _ Hascii). split; reflexivity.
Qed.

(** X16.  Names of ASCII bytes are read byte for byte: the name that
    [read_submesh] reads, which is the name it asks Blender to give the mesh
    and the object, is the very characters of the name in the file, and so
    is the name that [create_blender_material] asks for the material of a
    material record.  (What Blender makes of a name it is asked for is not
    part of this.) *)
Theorem X16_ascii_names_kept s rest W :
  wf_submesh s ->
  st_name s <> [] -> Forall (fun b => byte_val b < 128) (st_name s) ->
  exists d,
    parse_submesh (mkState (encode_submesh s ++ rest) W)
    = (Ok d, mkState rest W)
    /\ submesh_name d = string_of_list_byte (st_name s)
    /\ forall i mt,
         st_materials s !! i = Some mt ->
         mt_material_name mt <> [] ->
         Forall (fun b => byte_val b < 128) (mt_material_name mt) ->
         exists md,
           materials d !! i = Some md
           /\ material_name md = string_of_list_byte (mt_material_name mt)
           /\ created_name md = string_of_list_byte (mt_material_name mt).
Proof.
  intros Hwf Hne Hascii.
  exists (submesh_data_of "" s).
  split; [exact (parse_submesh_encoded "" s rest W Hwf)|].
  destruct (decoded_name_ascii "Submesh" (st_name s) Hne Hascii)
    as [Hname _].
  split; [exact Hname|].
  intros i mt Hi Hmne Hmascii.
  exists (material_data_of "" mt).
  cbn [submesh_data_of materials].
  split; [rewrite list_lookup_fmap, Hi; reflexivity|].
  destruct (decoded_name_ascii "" (mt_material_name mt) Hmne Hmascii)
    as [Hmn Hmt].
  unfold created_name, material_data_of. cbn [material_name].
  rewrite Hmt, Hmn. split; reflexivity.
Qed.

Lemma X16_ascii_names_kept_witness :
  exists d,
    parse_submesh (mkState (encode_submesh quad ++ [x00]) empty_world)
    = (Ok d, mkState [x00] empty_world)
    /\ submesh_name d = string_of_list_byte (st_name quad)
    /\ forall i mt,
         st_materials quad !! i = Some mt ->
         mt_material_name mt <> [] ->
         Forall (fun b => byte_val b < 128) (mt_material_name mt) ->
         exists md,
           materials d !! i = Some md
           /\ material_name md = string_of_list_byte (mt_material_name mt)
           /\ created_name md = string_of_list_byte (mt_material_name mt).
Proof.
  refine (X16_ascii_names_kept quad [x00] empty_world _ _ _).
  - solve_wf.
  - discriminate.
  - repeat constructor.
Defined.

(** ** Active object, normals and shading *)

Lemma built_worlds_snoc v ds d W :
  built_worlds v (ds ++ [d]) W = built_world v d (built_worlds v ds W).
Proof. unfold built_worlds. now rewrite fold_left_app. Qed.


(** X17.  After the import of a well-formed file whose submeshes can all
    be built (their face indices are below 2^31, and have a UV when the UVs
    are applied), the active object is the object of the last submesh of the
    file, the one whose mesh has the vertices of that submesh; it is also
    the object that was linked to the scene last.  A file that declares no
    submesh leaves Blender as it was, active object included. *)
Theorem X17_last_submesh_is_active search_dir sf W :
  wf_file sf ->
  Forall (fun s => buildable (submesh_data_of "" s) = true)
         (sf_submeshes sf) ->
  exists W',
    import_skin search_dir (encode_file sf) W = (Ok FINISHED, W')
    /\ match last (sf_submeshes sf) with
       | None => W' = W
       | Some s =>
           exists obj o m,
             active_object W' = Some obj
             /\ last (scene_objects W') = Some obj
             /\ data_objects W' !! obj = Some o
             /\ data_meshes W' !! ob_data o = Some m
             /\ me_vertices m = st_vertices s
       end.
Proof.
  intros Hwf Hok. eexists. split.
  - exact (import_ok Blender280 "" search_dir sf W Hwf Hok).
  - destruct (last (sf_submeshes sf)) as [s|] eqn:E.
    + apply last_Some in E as [sms ->].
      rewrite map_app. cbn [map]. rewrite built_worlds_snoc.
      set (Wk := built_worlds Blender280 (map (submesh_data_of "") sms) W).
      destruct (built_world_lookup Blender280 (submesh_data_of "" s) Wk)
        as [Ho Hm].
      exists (length (data_objects Wk)),
        (mkObject (submesh_name (submesh_data_of "" s))
           (length (data_meshes Wk))),
        (built_mesh Blender280 (submesh_data_of "" s)
           (length (data_materials Wk))).
      split; [reflexivity|]. split; [apply last_snoc|].
      split; [exact Ho|]. split; [exact Hm|]. reflexivity.
    + apply last_None in E. rewrite E. reflexivity.
Qed.

Lemma X17_last_submesh_is_active_witness :
  exists W',
    import_skin None (encode_file file_two) empty_world = (Ok FINISHED, W')
    /\ match last (sf_submeshes file_two) with
       | None => W' = empty_world
       | Some s =>
           exists obj o m,
             active_object W' = Some obj
             /\ last (scene_objects W') = Some obj
             /\ data_objects W' !! obj = Some o
             /\ data_meshes W' !! ob_data o = Some m
             /\ me_vertices m = st_vertices s
       end.
Proof.
  refine (X17_last_submesh_is_active None file_two empty_world _ _).
  - solve_wf.
  - repeat constructor.
Defined.

Lemma use_smooth_polygons_from start faces :
  map use_smooth (polygons_from start faces) = repeat false (length faces).
Proof.
  revert start. induction faces as [|f faces IH]; intros start;
    [reflexivity|].
  cbn [polygons_from map length repeat]. now rewrite IH.
Qed.

Lemma use_smooth_smooth ps :
  map use_smooth (map smooth_polygon ps) = repeat true (length ps).
Proof.
  induction ps as [|p ps IH]; [reflexivity|].
  cbn [map length repeat]. now rewrite IH.
Qed.

Lemma use_smooth_assign_polys nmats ids : forall ps,
  map use_smooth (assign_polys nmats ids ps) = map use_smooth ps.
Proof.
  induction ids as [|i ids IH]; intros [|p ps]; try reflexivity.
  cbn [assign_polys map]. rewrite IH.
  destruct (i <? nmats); reflexivity.
Qed.

(** X18.  When the normals are applied (there is one per vertex), the new
    mesh gets them as custom normals, as they are in the file.  The 2.79
    script then also turns on auto smooth and shades every face smooth; the
    2.80 script leaves both off, as does either script when the normals are
    not applied. *)
Theorem X18_normals_and_shading v d search_dir st obj st' :
  build_submesh v d search_dir st = (Ok obj, st') ->
  exists o m,
    data_objects (bpy st') !! obj = Some o
    /\ data_meshes (bpy st') !! ob_data o = Some m
    /\ (normals d <> [] /\ length (normals d) = length (vertices d) ->
        me_custom_normals m = Some (normals d)
        /\ me_use_auto_smooth m
           = match v with Blender279 => true | Blender280 => false end
        /\ map use_smooth (me_polygons m)
           = repeat match v with Blender279 => true | Blender280 => false end
               (length (face_indices d)))
    /\ (~ (normals d <> [] /\ length (normals d) = length (vertices d)) ->
        me_custom_normals m = None
        /\ me_use_auto_smooth m = false
        /\ map use_smooth (me_polygons m)
           = repeat false (length (face_indices d))).
Proof.
  intros Hrun.
  apply build_submesh_Ok_inv in Hrun as (Hok & -> & ->).
  destruct st as [fl W]. cbn [bpy file].
  destruct (built_world_lookup v d W) as [Ho Hm].
  exists (mkObject (submesh_name d) (length (data_meshes W))),
    (built_mesh v d (length (data_materials W))).
  cbn [ob_data]. split; [exact Ho|]. split; [exact Hm|].
  unfold built_mesh.
  cbn [me_custom_normals me_use_auto_smooth me_polygons].
  rewrite <- normals_apply_iff.
  split; intros Hn.
  - rewrite Hn.
    destruct (matids_apply d), v;
      rewrite ?use_smooth_assign_polys, ?use_smooth_smooth,
        ?use_smooth_polygons_from, ?length_polygons_from;
      repeat split.
  - destruct (normals_apply d); [contradiction Hn; reflexivity|].
    destruct (matids_apply d);
      rewrite ?use_smooth_assign_polys, ?use_smooth_polygons_from;
      repeat split.
Qed.

Lemma X18_normals_and_shading_witness :
  exists o m,
    data_objects
      (bpy (mkState [] (built_world Blender279
                          (submesh_data_of "ImportedMaterial" triangle)
                          empty_world))) !! 0%nat = Some o
    /\ data_meshes
         (bpy (mkState [] (built_world Blender279
                             (submesh_data_of "ImportedMaterial" triangle)
                             empty_world))) !! ob_data o = Some m
    /\ (normals (submesh_data_of "ImportedMaterial" triangle) <> []
        /\ length (normals (submesh_data_of "ImportedMaterial" triangle))
           = length (vertices (submesh_data_of "ImportedMaterial" triangle))
        ->
        me_custom_normals m
        = Some (normals (submesh_data_of "ImportedMaterial" triangle))
        /\ me_use_auto_smooth m = true
        /\ map use_smooth (me_polygons m)
           = repeat true
               (length (face_indices
                          (submesh_data_of "ImportedMaterial" triangle))))
    /\ (~ (normals (submesh_data_of "ImportedMaterial" triangle) <> []
           /\ length (normals (submesh_data_of "ImportedMaterial" triangle))
              = length (vertices
                          (submesh_data_of "ImportedMaterial" triangle))) ->
        me_custom_normals m = None
        /\ me_use_auto_smooth m = false
        /\ map use_smooth (me_polygons m)
           = repeat false
               (length (face_indices
                          (submesh_data_of "ImportedMaterial" triangle)))).
Proof.
  refine (X18_normals_and_shading Blender279
            (submesh_data_of "ImportedMaterial" triangle) None
            (mkState [] empty_world) 0%nat
            (mkState [] (built_world Blender279
                           (submesh_data_of "ImportedMaterial" triangle)
                           empty_world)) _).
  vm_compute. reflexivity.
Defined.
